(** * Ticket lifecycle of the NFT e-ticketing backend

    A shallow embedding of the Express route handlers of
    [src/routes/ticketRoutes.js] and [src/routes/eventRoutes.js], of
    [verifyTicketOwnershipOnChain] from [src/services/solanaService.js] and of
    [generateQrCodeDataUrl] from [src/utils/qrCodeGenerator.js].

    The handlers are [async] functions: every [await] on the Supabase client,
    on the QR code generator or on the Metaplex SDK is a point where the
    request talks to a collaborator and where other requests may run.  A
    handler is therefore embedded as a tree of collaborator calls ([Prog]);
    [exec] gives the effect of one call on the store, [run] serves a request
    alone (serialised requests) and [irun] serves it with other requests
    interleaved at every call. *)

From Stdlib Require Import List String Ascii ZArith QArith Bool Lia DecimalString.
Import ListNotations.

Close Scope Q_scope.
Open Scope Z_scope.
Open Scope string_scope.
Open Scope list_scope.

(** ** JavaScript values *)

(** A field of a JSON request body that the handlers treat as a string:
    [None] is [undefined]. *)
Definition field := option string.

Definition is_empty (s : string) : bool :=
  match s with EmptyString => true | String _ _ => false end.

(** [!x] on a string-or-undefined value: [undefined] and the empty string are
    falsy. *)
Definition falsy (x : field) : bool :=
  match x with None => true | Some s => is_empty s end.

(** The string held by a field that passed a [!x] check. *)
Definition value (x : field) : string :=
  match x with None => EmptyString | Some s => s end.

(** [a || b] where [a] is a request field and [b] a column value. *)
Definition js_or (a : field) (b : string) : string :=
  if falsy a then b else value a.

(** [`${n}`] for an integer. *)
Definition template_int (z : Z) : string := NilZero.string_of_int (Z.to_int z).

(** [a < b] and [a <= b] on numbers. *)
Definition num_le (a b : Q) : bool := Qle_bool a b.
Definition num_lt (a b : Q) : bool := negb (Qle_bool b a).

(** ** Rows of the three tables

    Text columns are strings, the empty string standing for SQL NULL (the
    handlers only test such columns with [!x] and [===] against a non-empty
    string, which do not tell the two apart).  The ticket counters of an
    event are integers; prices, amounts and the requested quantity are JSON
    numbers, kept as rationals. *)

Module Ticket.
Record t := mk {
  ticket_id : string;
  event_id : string;
  nft_mint_address : string;
  owner_wallet_address : string;
  seat_info : string;
  status : string;
  is_used : bool;
  original_purchase_date : string;
  original_purchaser_wallet_address : string;
  qr_code_data : string;
  qr_code_url : string;
  last_transfer_date : option string;
  updated_at : option string
}.

(** The object given to [.insert] by the mint-success handler. *)
Record insert := mk_insert {
  i_event_id : string;
  i_nft_mint_address : string;
  i_owner_wallet_address : string;
  i_seat_info : string;
  i_status : string;
  i_original_purchase_date : string;
  i_original_purchaser_wallet_address : string;
  i_qr_code_data : string;
  i_qr_code_url : string
}.

(** The object given to [.update]: the columns it names. *)
Record patch := mk_patch {
  p_owner_wallet_address : option string;
  p_status : option string;
  p_is_used : option bool;
  p_last_transfer_date : option string;
  p_updated_at : option string
}.

Definition set {A} (new : option A) (old : A) : A :=
  match new with Some a => a | None => old end.

Definition set_opt {A} (new : option A) (old : option A) : option A :=
  match new with Some a => Some a | None => old end.

Definition apply (p : patch) (r : t) : t :=
  mk (ticket_id r) (event_id r) (nft_mint_address r)
     (set (p_owner_wallet_address p) (owner_wallet_address r))
     (seat_info r)
     (set (p_status p) (status r))
     (set (p_is_used p) (is_used r))
     (original_purchase_date r) (original_purchaser_wallet_address r)
     (qr_code_data r) (qr_code_url r)
     (set_opt (p_last_transfer_date p) (last_transfer_date r))
     (set_opt (p_updated_at p) (updated_at r)).
End Ticket.

Module Event.
Record t := mk {
  event_id : string;
  name : string;
  description : string;
  date : string;
  time : string;
  venue : string;
  total_tickets : Z;
  available_tickets : Z;
  price_sol : Q;
  price_usd : option Q;
  collection_nft_mint_address : string;
  candy_machine_id : string;
  is_active : bool
}.

(** The row after [.update({ available_tickets: v })]. *)
Definition set_available (v : Z) (r : t) : t :=
  mk (event_id r) (name r) (description r) (date r) (time r) (venue r)
     (total_tickets r) v (price_sol r) (price_usd r)
     (collection_nft_mint_address r) (candy_machine_id r) (is_active r).
End Event.

Module Transaction.
Record t := mk {
  transaction_id : string;
  event_id : string;
  payment_method : string;
  amount : Q;
  currency : string;
  status : string;
  solana_transaction_signature : option string;
  ticket_id : option string
}.

Record insert := mk_insert {
  i_event_id : string;
  i_payment_method : string;
  i_amount : Q;
  i_currency : string;
  i_status : string
}.

Record patch := mk_patch {
  p_status : string;
  p_solana_transaction_signature : string;
  p_ticket_id : string
}.

Definition apply (p : patch) (r : t) : t :=
  mk (transaction_id r) (event_id r) (payment_method r) (amount r)
     (currency r) (p_status p)
     (Some (p_solana_transaction_signature p)) (Some (p_ticket_id p)).
End Transaction.

Record Store := mkStore {
  tickets : list Ticket.t;
  events : list Event.t;
  transactions : list Transaction.t
}.

(** ** The Supabase client *)

(** The [error] object of a Supabase answer. *)
Record DbError := mkDbError { code : string; message : string }.

(** The [{ data, error }] pair of a Supabase answer: exactly one of the two
    is non-null. *)
Inductive DbResult (A : Type) : Type :=
| Data (data : A)
| Error (error : DbError).
Arguments Data {A} data.
Arguments Error {A} error.

(** [.single()]: PostgREST answers PGRST116 unless exactly one row matches. *)
Definition PGRST116 : DbError :=
  mkDbError "PGRST116" "JSON object requested, multiple (or no) rows returned".

Definition single {A} (rows : list A) : DbResult A :=
  match rows with
  | [r] => Data r
  | _ => Error PGRST116
  end.

(** Violation of a unique index (the primary key of a table, or the asset
    identifier of a ticket). *)
Definition unique_violation : DbError :=
  mkDbError "23505" "duplicate key value violates unique constraint".

Definition by_mint (mint : string) (r : Ticket.t) : bool :=
  Ticket.nft_mint_address r =? mint.
Definition by_ticket_id (id : string) (r : Ticket.t) : bool :=
  Ticket.ticket_id r =? id.
Definition by_event_id (id : string) (r : Event.t) : bool :=
  Event.event_id r =? id.
Definition by_transaction_id (id : string) (r : Transaction.t) : bool :=
  Transaction.transaction_id r =? id.

(** [.update(p).eq(col, v)]: every matching row is patched. *)
Definition update_where {A} (sel : A -> bool) (f : A -> A) (rows : list A) : list A :=
  map (fun r => if sel r then f r else r) rows.

(** Modelled from the spec: the schema of the [tickets] table is not part of
    the sources.  The row the database makes of an inserted object: the spec
    has [used] as a flag that a ticket gets at the gate only, so a new row has
    it unset; [ticket_id] is the generated primary key; the two dates that the
    insertion does not name are null. *)
Definition new_ticket (id : string) (i : Ticket.insert) : Ticket.t :=
  Ticket.mk id (Ticket.i_event_id i) (Ticket.i_nft_mint_address i)
    (Ticket.i_owner_wallet_address i) (Ticket.i_seat_info i) (Ticket.i_status i)
    false
    (Ticket.i_original_purchase_date i)
    (Ticket.i_original_purchaser_wallet_address i)
    (Ticket.i_qr_code_data i) (Ticket.i_qr_code_url i) None None.

(** Modelled from the spec: the unique indexes of the [tickets] table, which
    is not part of the sources.  The spec makes the on-chain asset identifier
    unique per ticket (the uniqueness constraint of the store); the primary
    key is unique as well. *)
Definition ticket_conflict (r : Ticket.t) (rows : list Ticket.t) : bool :=
  existsb (fun x => by_ticket_id (Ticket.ticket_id r) x
                    || by_mint (Ticket.nft_mint_address r) x) rows.

(** Modelled from the spec: the schema of the [transactions] table is not part
    of the sources.  A new transaction has no ticket and no signature yet;
    [transaction_id] is the generated primary key. *)
Definition new_transaction (id : string) (i : Transaction.insert) : Transaction.t :=
  Transaction.mk id (Transaction.i_event_id i) (Transaction.i_payment_method i)
    (Transaction.i_amount i) (Transaction.i_currency i) (Transaction.i_status i)
    None None.

Definition transaction_conflict (r : Transaction.t) (rows : list Transaction.t) : bool :=
  existsb (by_transaction_id (Transaction.transaction_id r)) rows.

(** ** The Metaplex SDK *)

(** What [metaplex.nfts().findByMint] does: it rejects, resolves to nothing,
    or resolves to an asset whose [ownership?.owner] is undefined or a key
    (given by its base58 text). *)
Inductive FindResult :=
| FindRejects
| FindNothing
| FindAsset (owner : option string).

(** ** Collaborator calls

    One constructor per expression of the handlers that asks something of the
    outside world: the Supabase queries, the QR encoder and the ledger lookup
    (all awaited), the clock and the [PublicKey] constructor (not awaited; as
    calls of their own they only add interleavings).  The index is the type of
    the value the handler gets back.  A call that can throw or reject answers
    [None] in that case. *)
Inductive Cmd : Type -> Type :=
| TicketsSingleByMint (mint : string) : Cmd (DbResult Ticket.t)
| TicketsInsert (row : Ticket.insert) : Cmd (DbResult (list Ticket.t))
| TicketsUpdateById (id : string) (p : Ticket.patch) : Cmd (option DbError)
| EventsSingleById (id : string) : Cmd (DbResult Event.t)
| EventsUpdateAvailable (id : string) (available_tickets : Z) : Cmd (option DbError)
| TransactionsInsert (row : Transaction.insert) : Cmd (DbResult (list Transaction.t))
| TransactionsUpdateById (id : string) (p : Transaction.patch) : Cmd (option DbError)
| DateNow : Cmd string
| QRCodeToDataURL (data : string) : Cmd (option string)
| NewPublicKey (address : string) : Cmd (option string)
| FindByMint (key : string) : Cmd FindResult.

(** What the outside world answers to one call: whether the database request
    fails for a reason of its own (connection, timeout, policy), the
    identifier the database generates for an inserted row, the clock, the QR
    encoder, the base58 decoder of [PublicKey] and the ledger. *)
Record Env := mkEnv {
  db_fault : option DbError;
  gen_id : string;
  now : string;
  qr_code : string -> option string;
  public_key : string -> option string;
  find_by_mint : string -> FindResult
}.

Definition db_select {A} (e : Env) (rows : list A) : DbResult A :=
  match db_fault e with
  | Some err => Error err
  | None => single rows
  end.

(** The effect of one call on the store, and its answer. *)
Definition exec (e : Env) {A} (c : Cmd A) (s : Store) : A * Store :=
  match c in Cmd T return T * Store with
  | TicketsSingleByMint mint =>
      (db_select e (filter (by_mint mint) (tickets s)), s)
  | EventsSingleById id =>
      (db_select e (filter (by_event_id id) (events s)), s)
  | TicketsInsert row =>
      match db_fault e with
      | Some err => (Error err, s)
      | None =>
          let r := new_ticket (gen_id e) row in
          if ticket_conflict r (tickets s) then (Error unique_violation, s)
          else (Data [r], mkStore (tickets s ++ [r]) (events s) (transactions s))
      end
  | TicketsUpdateById id p =>
      match db_fault e with
      | Some err => (Some err, s)
      | None =>
          (None, mkStore (update_where (by_ticket_id id) (Ticket.apply p) (tickets s))
                         (events s) (transactions s))
      end
  | EventsUpdateAvailable id v =>
      match db_fault e with
      | Some err => (Some err, s)
      | None =>
          (None, mkStore (tickets s)
                         (update_where (by_event_id id) (Event.set_available v) (events s))
                         (transactions s))
      end
  | TransactionsInsert row =>
      match db_fault e with
      | Some err => (Error err, s)
      | None =>
          let r := new_transaction (gen_id e) row in
          if transaction_conflict r (transactions s) then (Error unique_violation, s)
          else (Data [r], mkStore (tickets s) (events s) (transactions s ++ [r]))
      end
  | TransactionsUpdateById id p =>
      match db_fault e with
      | Some err => (Some err, s)
      | None =>
          (None, mkStore (tickets s) (events s)
                         (update_where (by_transaction_id id) (Transaction.apply p)
                                       (transactions s)))
      end
  | DateNow => (now e, s)
  | QRCodeToDataURL data => (qr_code e data, s)
  | NewPublicKey address => (public_key e address, s)
  | FindByMint key => (find_by_mint e key, s)
  end.

(** ** Handlers as trees of calls *)

Inductive Prog (R : Type) : Type :=
| Ret (r : R)
| Call {A : Type} (c : Cmd A) (k : A -> Prog R).
Arguments Ret {R} r.
Arguments Call {R A} c k.

Fixpoint bind {A B} (p : Prog A) (f : A -> Prog B) : Prog B :=
  match p with
  | Ret a => f a
  | Call c k => Call c (fun x => bind (k x) f)
  end.

Definition await {A} (c : Cmd A) : Prog A := Call c Ret.

Notation "x <- p ;; q" := (bind p (fun x => q))
  (at level 61, p at next level, right associativity).

(** A request served alone: the [n]-th call of the handler is answered by
    [env n]. *)
Fixpoint run_from {R} (env : nat -> Env) (n : nat) (p : Prog R) (s : Store) : R * Store :=
  match p with
  | Ret r => (r, s)
  | Call c k =>
      let (a, s') := exec (env n) c s in
      run_from env (S n) (k a) s'
  end.

Definition run {R} (env : nat -> Env) (p : Prog R) (s : Store) : R * Store :=
  run_from env 0 p s.

(** ** HTTP responses *)

(** The JSON bodies the handlers send, by shape. *)
Inductive Body :=
| ErrorBody (error : string) (details : option string)
| MessageBody (message : string)
| TicketIdBody (message : string) (ticket_id : string)
| TicketBody (message : string) (ticket : option Ticket.t)
| PurchaseBody (message : string) (candyMachineId : string) (priceSol : Q)
               (quantity : Q) (transactionId : string).

Record Response := mkResponse { status : Z; body : Body }.

Definition json (st : Z) (b : Body) : Prog Response := Ret (mkResponse st b).

(** The error kinds of the spec, as carried by the HTTP status. *)
Inductive Kind :=
| Success | InvalidInput | Forbidden | NotFound | Conflict | ServerError | OtherKind.

Definition kind_of (r : Response) : Kind :=
  match status r with
  | 200 => Success
  | 400 => InvalidInput
  | 403 => Forbidden
  | 404 => NotFound
  | 409 => Conflict
  | st => if ((500 <=? st) && (st <=? 599))%Z then ServerError else OtherKind
  end.

(** ** src/utils/qrCodeGenerator.js *)

(** [generateQrCodeDataUrl]: the data URL of the QR code, or an [Error] thrown
    in place of whatever the encoder threw ([None]). *)
Definition generateQrCodeDataUrl (data : string) : Prog (option string) :=
  qrCodeDataUrl <- await (QRCodeToDataURL data) ;;
  match qrCodeDataUrl with
  | Some qrCodeDataUrl => Ret (Some qrCodeDataUrl)
  | None => Ret None
  end.

(** ** src/services/solanaService.js *)

(** [verifyTicketOwnershipOnChain]: the whole body is inside [try], and the
    [catch] returns [false]. *)
Definition verifyTicketOwnershipOnChain
    (nftMintAddress expectedOwnerWalletAddress : string) : Prog bool :=
  nftPublicKey <- await (NewPublicKey nftMintAddress) ;;
  match nftPublicKey with
  | None => Ret false
  | Some nftPublicKey =>
  ownerPublicKey <- await (NewPublicKey expectedOwnerWalletAddress) ;;
  match ownerPublicKey with
  | None => Ret false
  | Some ownerPublicKey =>
  asset <- await (FindByMint nftPublicKey) ;;
  match asset with
  | FindRejects => Ret false
  | FindNothing => Ret false
  | FindAsset None => Ret false
  | FindAsset (Some currentOwner) =>
      if currentOwner =? ownerPublicKey then Ret true else Ret false
  end end end.

(** ** src/routes/ticketRoutes.js *)

Record VerifyRequest := mkVerifyRequest {
  v_nftMintAddress : field;
  v_ownerWalletAddress : field
}.

(** [POST /api/tickets/verify] *)
Definition verify (req : VerifyRequest) : Prog Response :=
  if falsy (v_nftMintAddress req) then
    json 400 (ErrorBody "NFT Mint Address is required for verification." None)
  else
  let nftMintAddress := value (v_nftMintAddress req) in
  r <- await (TicketsSingleByMint nftMintAddress) ;;
  match r with
  | Error dbError =>
      if code dbError =? "PGRST116" then
        json 404 (ErrorBody "Ticket not found in our records." None)
      else
        json 500 (ErrorBody "Failed to retrieve ticket details from database."
                            (Some (message dbError)))
  | Data ticket =>
  if Ticket.is_used ticket then
    json 409 (ErrorBody "Ticket has already been used." None)
  else
  let addressToVerify :=
    js_or (v_ownerWalletAddress req) (Ticket.owner_wallet_address ticket) in
  if is_empty addressToVerify then
    json 500 (ErrorBody "Missing owner wallet address for on-chain verification." None)
  else
  isOwnedByExpected <- verifyTicketOwnershipOnChain nftMintAddress addressToVerify ;;
  if negb isOwnedByExpected then
    json 403 (ErrorBody "Ticket ownership verification failed on-chain. This ticket is not held by the expected wallet." None)
  else
  date <- await DateNow ;;
  updateError <- await (TicketsUpdateById (Ticket.ticket_id ticket)
                   (Ticket.mk_patch None (Some "used") (Some true) None (Some date))) ;;
  match updateError with
  | Some updateError =>
      json 500 (ErrorBody "Failed to update ticket status after verification."
                          (Some (message updateError)))
  | None =>
      json 200 (TicketIdBody "Ticket successfully verified and marked as used."
                             (Ticket.ticket_id ticket))
  end end.

Record MintSuccessRequest := mkMintSuccessRequest {
  m_eventId : field;
  m_nftMintAddress : field;
  m_ownerWalletAddress : field;
  m_solanaTransactionSignature : field;
  m_transactionId : field
}.

Definition internal_error (msg : string) : Prog Response :=
  json 500 (ErrorBody msg None).

(** [POST /api/tickets/mint-success].  The answer to the first lookup is only
    tested for its [data]; its [error] is never read. *)
Definition mint_success (req : MintSuccessRequest) : Prog Response :=
  if falsy (m_eventId req) || falsy (m_nftMintAddress req)
     || falsy (m_ownerWalletAddress req) || falsy (m_solanaTransactionSignature req)
  then
    json 400 (ErrorBody "Missing required fields for mint success notification." None)
  else
  let eventId := value (m_eventId req) in
  let nftMintAddress := value (m_nftMintAddress req) in
  let ownerWalletAddress := value (m_ownerWalletAddress req) in
  let solanaTransactionSignature := value (m_solanaTransactionSignature req) in
  existing <- await (TicketsSingleByMint nftMintAddress) ;;
  match existing with
  | Data existingTicket => json 200 (MessageBody "Ticket already processed.")
  | Error checkError =>
  let qrCodeData := nftMintAddress in
  qrCodeUrl <- generateQrCodeDataUrl qrCodeData ;;
  match qrCodeUrl with
  | None => internal_error "Internal server error processing mint success."
  | Some qrCodeUrl =>
  ev <- await (EventsSingleById eventId) ;;
  match ev with
  | Error eventError =>
      json 404 (ErrorBody "Event not found for ticket processing." None)
  | Data event =>
  let seatInfo :=
    ("Ticket #" ++ template_int (Event.total_tickets event
                                 - Event.available_tickets event + 1))%string in
  date <- await DateNow ;;
  inserted <- await (TicketsInsert
                (Ticket.mk_insert eventId nftMintAddress ownerWalletAddress seatInfo
                   "purchased" date ownerWalletAddress qrCodeData qrCodeUrl)) ;;
  match inserted with
  | Error insertError =>
      json 500 (ErrorBody "Failed to record new ticket." (Some (message insertError)))
  | Data newTicket =>
  updateEventError <- await (EventsUpdateAvailable eventId
                               (Event.available_tickets event - 1)) ;;
  if falsy (m_transactionId req) then
    json 200 (TicketBody "Ticket successfully recorded and event updated."
                         (hd_error newTicket))
  else
    match hd_error newTicket with
    | None => internal_error "Internal server error processing mint success."
    | Some ticket =>
        updateTransactionError <- await (TransactionsUpdateById
            (value (m_transactionId req))
            (Transaction.mk_patch "successful" solanaTransactionSignature
                                  (Ticket.ticket_id ticket))) ;;
        json 200 (TicketBody "Ticket successfully recorded and event updated."
                             (hd_error newTicket))
    end
  end end end end.

Record TransferUpdateRequest := mkTransferUpdateRequest {
  t_nftMintAddress : field;
  t_newOwnerWalletAddress : field;
  t_solanaTransactionSignature : field
}.

(** [POST /api/tickets/transfer-update] *)
Definition transfer_update (req : TransferUpdateRequest) : Prog Response :=
  if falsy (t_nftMintAddress req) || falsy (t_newOwnerWalletAddress req)
     || falsy (t_solanaTransactionSignature req)
  then
    json 400 (ErrorBody "Missing required fields for transfer update notification." None)
  else
  let nftMintAddress := value (t_nftMintAddress req) in
  let newOwnerWalletAddress := value (t_newOwnerWalletAddress req) in
  r <- await (TicketsSingleByMint nftMintAddress) ;;
  match r with
  | Error dbError =>
      if code dbError =? "PGRST116" then
        json 404 (ErrorBody "Ticket not found in our records." None)
      else
        json 500 (ErrorBody "Failed to retrieve ticket details for transfer."
                            (Some (message dbError)))
  | Data ticket =>
  if Ticket.owner_wallet_address ticket =? newOwnerWalletAddress then
    json 200 (MessageBody "Ticket owner already up-to-date.")
  else
  date <- await DateNow ;;
  updateError <- await (TicketsUpdateById (Ticket.ticket_id ticket)
                   (Ticket.mk_patch (Some newOwnerWalletAddress) (Some "transferred")
                                    None (Some date) None)) ;;
  match updateError with
  | Some updateError =>
      json 500 (ErrorBody "Failed to update ticket owner." (Some (message updateError)))
  | None =>
      json 200 (TicketIdBody "Ticket owner updated successfully."
                             (Ticket.ticket_id ticket))
  end end.

(** ** src/routes/eventRoutes.js *)

Record PurchaseRequest := mkPurchaseRequest {
  p_eventId : string;
  p_userWalletAddress : field;
  p_paymentMethod : field;
  p_quantity : option Q
}.

(** A destructuring default [x = d]: it applies to [undefined] only. *)
Definition default {A} (d : A) (x : option A) : A :=
  match x with None => d | Some a => a end.

(** [POST /api/events/:eventId/purchase-initiate] (the same handler is also
    mounted by ticketRoutes.js). *)
Definition purchase_initiate (req : PurchaseRequest) : Prog Response :=
  let eventId := p_eventId req in
  let paymentMethod := default "SOL" (p_paymentMethod req) in
  let quantity := default 1%Q (p_quantity req) in
  if falsy (p_userWalletAddress req) then
    json 400 (ErrorBody "User wallet address is required." None)
  else if num_le quantity 0%Q then
    json 400 (ErrorBody "Quantity must be at least 1." None)
  else
  ev <- await (EventsSingleById eventId) ;;
  match ev with
  | Error eventError =>
      if code eventError =? "PGRST116" then
        json 404 (ErrorBody "Event not found." None)
      else
        json 500 (ErrorBody "Failed to retrieve event details."
                            (Some (message eventError)))
  | Data event =>
  if is_empty (Event.candy_machine_id event) then
    json 500 (ErrorBody "Candy Machine not configured for this event." None)
  else if num_lt (inject_Z (Event.available_tickets event)) quantity then
    json 400 (ErrorBody ("Not enough tickets available. Only "
                         ++ template_int (Event.available_tickets event)
                         ++ " left.")%string
                        None)
  else
  inserted <- await (TransactionsInsert
                (Transaction.mk_insert eventId paymentMethod
                   (Event.price_sol event * quantity)%Q "SOL" "pending")) ;;
  match inserted with
  | Error transactionError =>
      json 500 (ErrorBody "Failed to create pending transaction."
                          (Some (message transactionError)))
  | Data transaction =>
      match transaction with
      | [] => internal_error "Internal server error during purchase initiation."
      | tx :: _ =>
          json 200 (PurchaseBody
            "Purchase initiated. Please complete the minting process from your wallet."
            (Event.candy_machine_id event) (Event.price_sol event) quantity
            (Transaction.transaction_id tx))
      end
  end end.

(** ** Requests, and requests in flight *)

Inductive Request :=
| Verify (req : VerifyRequest)
| MintSuccess (req : MintSuccessRequest)
| TransferUpdate (req : TransferUpdateRequest)
| PurchaseInitiate (req : PurchaseRequest).

Definition handler (q : Request) : Prog Response :=
  match q with
  | Verify req => verify req
  | MintSuccess req => mint_success req
  | TransferUpdate req => transfer_update req
  | PurchaseInitiate req => purchase_initiate req
  end.

(** What is left to run of a request that has been answered some of its
    calls. *)
Inductive in_flight : Prog Response -> Prop :=
| in_flight_arrived (q : Request) : in_flight (handler q)
| in_flight_resumed {A} (c : Cmd A) (k : A -> Prog Response) (a : A) :
    in_flight (Call c k) -> in_flight (k a).

(** The server: requests arrive at any time, any request in flight may have
    its next call answered, and a finished request leaves. *)
Inductive pool_step : Store * list (Prog Response) -> Store * list (Prog Response) -> Prop :=
| pool_arrive s pool q :
    pool_step (s, pool) (s, handler q :: pool)
| pool_call s before after {A} (c : Cmd A) k e :
    pool_step (s, before ++ Call c k :: after)
              (snd (exec e c s), before ++ k (fst (exec e c s)) :: after)
| pool_reply s before after r :
    pool_step (s, before ++ Ret r :: after) (s, before ++ after).

Inductive pool_steps : Store * list (Prog Response) -> Store * list (Prog Response) -> Prop :=
| pool_stay cfg : pool_steps cfg cfg
| pool_next cfg cfg' cfg'' :
    pool_step cfg cfg' -> pool_steps cfg' cfg'' -> pool_steps cfg cfg''.

(** What the other requests in flight can do to the store between two calls
    of a request. *)
Definition others (s s' : Store) : Prop :=
  exists pool pool', Forall in_flight pool /\ pool_steps (s, pool) (s', pool').

(** A request served while others are: before each of its calls the store may
    have moved by [rely]; [es] lists the answers of the outside world to its
    own calls, in order. *)
Fixpoint irun (rely : Store -> Store -> Prop) {R} (p : Prog R) (s : Store)
    (es : list Env) (r : R) (s' : Store) : Prop :=
  match p with
  | Ret x => es = [] /\ x = r /\ s' = s
  | Call c k =>
      match es with
      | [] => False
      | e :: es' =>
          exists s1, rely s s1 /\
            irun rely (k (fst (exec e c s1))) (snd (exec e c s1)) es' r s'
      end
  end.

(** The answers a request served alone gets, in order. *)
Fixpoint answers_from {R} (env : nat -> Env) (n : nat) (p : Prog R) (s : Store) : list Env :=
  match p with
  | Ret _ => []
  | Call c k =>
      env n :: answers_from env (S n) (k (fst (exec (env n) c s))) (snd (exec (env n) c s))
  end.

(** ** Store predicates *)

(** The unique index on the asset identifier. *)
Definition unique_mints (s : Store) : Prop :=
  NoDup (map Ticket.nft_mint_address (tickets s)).

(** The ticket recorded for an asset identifier. *)
Definition ticket_for (mint : string) (s : Store) : option Ticket.t :=
  find (by_mint mint) (tickets s).

(** Some ticket of the asset has its used flag set. *)
Definition used_asset (mint : string) (s : Store) : Prop :=
  exists t, In t (tickets s) /\ Ticket.nft_mint_address t = mint
            /\ Ticket.is_used t = true.

(** A row and its later version: same ticket, same asset, and the used flag
    not cleared. *)
Definition keeps_latch (t t' : Ticket.t) : Prop :=
  Ticket.ticket_id t' = Ticket.ticket_id t
  /\ Ticket.nft_mint_address t' = Ticket.nft_mint_address t
  /\ (Ticket.is_used t = true -> Ticket.is_used t' = true).

(** The tickets of [s] are all still there in [s'], in place, each with its
    latch kept; [s'] may have more. *)
Definition evolves (s s' : Store) : Prop :=
  exists kept added, tickets s' = kept ++ added /\ Forall2 keeps_latch (tickets s) kept.

(** A call that does not clear the used flag of any row. *)
Definition safe_cmd {A} (c : Cmd A) : Prop :=
  match c with
  | TicketsUpdateById _ p => Ticket.p_is_used p <> Some false
  | _ => True
  end.

Fixpoint safe_prog {R} (p : Prog R) : Prop :=
  match p with
  | Ret _ => True
  | Call c k => safe_cmd c /\ forall a, safe_prog (k a)
  end.

(** The answers of the outside world in which no database request fails for
    a reason of its own. *)
Definition no_fault (e : Env) : Prop := db_fault e = None.

(** ** The verification gate served alone

    Served alone, [verify] makes its calls in this order: 0 the ticket lookup,
    1 and 2 the two [PublicKey] decodings (asset, then address to check), 3 the
    ledger lookup, 4 the clock, 5 the update. *)

(** The owner the ledger reports for the asset during the request. *)
Definition verify_live_owner (env : nat -> Env) (mint : string) : option string :=
  match public_key (env 1%nat) mint with
  | Some key =>
      match find_by_mint (env 3%nat) key with
      | FindAsset owner => owner
      | _ => None
      end
  | None => None
  end.

(** The live owner is the address the request checks. *)
Definition live_owner_is (env : nat -> Env) (mint address : string) : bool :=
  match verify_live_owner env mint, public_key (env 2%nat) address with
  | Some owner, Some checked => owner =? checked
  | _, _ => false
  end.

Definition mark_used (date : string) : Ticket.patch :=
  Ticket.mk_patch None (Some "used") (Some true) None (Some date).

Definition with_tickets (ts : list Ticket.t) (s : Store) : Store :=
  mkStore ts (events s) (transactions s).

(** ** Mint confirmations served alone

    Served alone, [mint_success] makes its calls in this order: 0 the lookup
    of the asset, 1 the QR code, 2 the event lookup, 3 the clock, 4 the
    insertion of the ticket, 5 the update of the counter, 6 the update of the
    transaction (when the request names one). *)

Definition valid_mint (req : MintSuccessRequest) : bool :=
  negb (falsy (m_eventId req) || falsy (m_nftMintAddress req)
        || falsy (m_ownerWalletAddress req)
        || falsy (m_solanaTransactionSignature req)).

(** The row a mint confirmation inserts, from the event row it read and the
    QR code it got. *)
Definition minted_ticket (env : nat -> Env) (req : MintSuccessRequest)
    (ev : Event.t) (qr : string) : Ticket.t :=
  new_ticket (gen_id (env 4%nat))
    (Ticket.mk_insert (value (m_eventId req)) (value (m_nftMintAddress req))
       (value (m_ownerWalletAddress req))
       ("Ticket #" ++ template_int (Event.total_tickets ev
                                    - Event.available_tickets ev + 1))%string
       "purchased" (now (env 3%nat)) (value (m_ownerWalletAddress req))
       (value (m_nftMintAddress req)) qr).

(** The events table after the counter update of a mint confirmation. *)
Definition events_after_mint (env : nat -> Env) (req : MintSuccessRequest)
    (ev : Event.t) (s : Store) : list Event.t :=
  match db_fault (env 5%nat) with
  | Some _ => events s
  | None =>
      update_where (by_event_id (value (m_eventId req)))
        (Event.set_available (Event.available_tickets ev - 1)) (events s)
  end.

(** The transactions table after the transaction update of a mint
    confirmation. *)
Definition transactions_after_mint (env : nat -> Env) (req : MintSuccessRequest)
    (t : Ticket.t) (s : Store) : list Transaction.t :=
  if falsy (m_transactionId req) then transactions s
  else
    match db_fault (env 6%nat) with
    | Some _ => transactions s
    | None =>
        update_where (by_transaction_id (value (m_transactionId req)))
          (Transaction.apply
             (Transaction.mk_patch "successful"
                (value (m_solanaTransactionSignature req)) (Ticket.ticket_id t)))
          (transactions s)
    end.

Definition recorded : string := "Ticket successfully recorded and event updated.".
Definition already_processed : Response :=
  mkResponse 200 (MessageBody "Ticket already processed.").

(** A serialised sequence of mint confirmations, each with the answers of the
    outside world to its calls. *)
Fixpoint serve_mints (calls : list (MintSuccessRequest * (nat -> Env))) (s : Store) : Store :=
  match calls with
  | [] => s
  | (req, env) :: rest => serve_mints rest (snd (run env (mint_success req) s))
  end.

(** The number of ticket rows recorded for an event. *)
Definition sold (eventId : string) (s : Store) : nat :=
  List.length (filter (fun t => Ticket.event_id t =? eventId) (tickets s)).

(** ** Transfer notifications served alone

    Served alone, [transfer_update] makes its calls in this order: 0 the
    ticket lookup, 1 the clock, 2 the update. *)

Definition valid_transfer (req : TransferUpdateRequest) : bool :=
  negb (falsy (t_nftMintAddress req) || falsy (t_newOwnerWalletAddress req)
        || falsy (t_solanaTransactionSignature req)).

Definition record_owner (owner date : string) : Ticket.patch :=
  Ticket.mk_patch (Some owner) (Some "transferred") None (Some date) None.

Definition up_to_date : Response :=
  mkResponse 200 (MessageBody "Ticket owner already up-to-date.").

(** A ticket row and a later version of it that differ at most in the owner,
    the status and the last-transfer date. *)
Definition transfer_frame (t t' : Ticket.t) : Prop :=
  t' = Ticket.mk (Ticket.ticket_id t) (Ticket.event_id t) (Ticket.nft_mint_address t)
         (Ticket.owner_wallet_address t') (Ticket.seat_info t) (Ticket.status t')
         (Ticket.is_used t) (Ticket.original_purchase_date t)
         (Ticket.original_purchaser_wallet_address t) (Ticket.qr_code_data t)
         (Ticket.qr_code_url t) (Ticket.last_transfer_date t') (Ticket.updated_at t).

(** ** Upstream failures *)

(** The ledger call of the ownership check rejects. *)
Definition ledger_call_fails (env : nat -> Env) (mint : string) : bool :=
  match public_key (env 1%nat) mint with
  | Some key =>
      match find_by_mint (env 3%nat) key with
      | FindRejects => true
      | _ => false
      end
  | None => false
  end.

(** ** Purchase initiation served alone

    Served alone, [purchase_initiate] makes its calls in this order: 0 the
    event lookup, 1 the insertion of the transaction. *)

Definition pending_transaction (env : nat -> Env) (req : PurchaseRequest)
    (ev : Event.t) : Transaction.t :=
  new_transaction (gen_id (env 1%nat))
    (Transaction.mk_insert (p_eventId req) (default "SOL" (p_paymentMethod req))
       (Event.price_sol ev * default 1%Q (p_quantity req))%Q "SOL" "pending").

Definition initiated : string :=
  "Purchase initiated. Please complete the minting process from your wallet.".

(** ** Two statements of the spec, for comparison with the code *)

(** The counter bound as the spec states it: whatever mint confirmations are
    served one after the other, the counter of an event that started at
    [total_tickets] stays between 0 and [total_tickets]. *)
Definition counter_bound_claim : Prop :=
  forall (s : Store) (eventId : string) (ev : Event.t)
         (calls : list (MintSuccessRequest * (nat -> Env))),
    filter (by_event_id eventId) (events s) = [ev] ->
    0 <= Event.total_tickets ev ->
    Event.available_tickets ev = Event.total_tickets ev ->
    exists ev',
      filter (by_event_id eventId) (events (serve_mints calls s)) = [ev']
      /\ 0 <= Event.available_tickets ev' <= Event.total_tickets ev'.

(** The classification of upstream failures as the spec states it: a failed
    ledger lookup for an existing, unused ticket surfaces as a 5xx. *)
Definition upstream_unavailable_claim : Prop :=
  forall (s : Store) (req : VerifyRequest) (env : nat -> Env) (t : Ticket.t),
    falsy (v_nftMintAddress req) = false ->
    unique_mints s ->
    no_fault (env 0%nat) ->
    ticket_for (value (v_nftMintAddress req)) s = Some t ->
    Ticket.is_used t = false ->
    is_empty (js_or (v_ownerWalletAddress req) (Ticket.owner_wallet_address t)) = false ->
    ledger_call_fails env (value (v_nftMintAddress req)) = true ->
    kind_of (fst (run env (verify req) s)) = ServerError.

(** ** Fixtures: a small store and a calm outside world *)

(** An outside world in which every database request is answered, the
    database generates [id] for an inserted row, and the ledger reports
    [ledger]. *)
Definition world (id : string) (ledger : string -> FindResult) : Env :=
  mkEnv None id "2025-06-01T10:00:00.000Z"
        (fun data => Some ("data:image/png;base64," ++ data)%string)
        (fun address => Some address)
        ledger.

Definition held_by (owner : string) : string -> FindResult :=
  fun _ => FindAsset (Some owner).

Definition calm (id : string) : nat -> Env := fun _ => world id (held_by "walletX").

Definition concert (total available : Z) : Event.t :=
  Event.mk "event-1" "Concert" "An evening of music" "2025-12-31T19:00:00Z" "7:00 PM"
    "Town hall" total available (1 # 2) None "collection-1" "machine-1" true.

Definition box_office (total : Z) : Store := mkStore [] [concert total total] [].

Definition mint_of (asset owner : string) : MintSuccessRequest :=
  mkMintSuccessRequest (Some "event-1") (Some asset) (Some owner) (Some "sig-1") None.

Definition ticket_of (id asset owner status : string) (used : bool) : Ticket.t :=
  Ticket.mk id "event-1" asset owner "Ticket #1" status used
    "2025-05-01T09:00:00.000Z" owner asset "data:image/png;base64,x" None None.

Definition gate (t : Ticket.t) : Store := mkStore [t] [concert 3 2] [].

Definition ledger_down (id : string) : nat -> Env := fun _ => world id (fun _ => FindRejects).

Definition ticketA : Ticket.t :=
  ticket_of "ticket-1" "assetA" "walletX" "purchased" false.

Definition usedA : Ticket.t :=
  ticket_of "ticket-1" "assetA" "walletX" "used" true.

Definition verify_of (asset : string) (asserted : field) : VerifyRequest :=
  mkVerifyRequest (Some asset) asserted.

Definition transfer_of (asset newOwner : string) : TransferUpdateRequest :=
  mkTransferUpdateRequest (Some asset) (Some newOwner) (Some "sig-2").

(** An outside world in which the database stops answering from the [n]-th
    call of a request on. *)
Definition outage_from (n : nat) (id : string) : nat -> Env :=
  fun k =>
    if (n <=? k)%nat then
      mkEnv (Some (mkDbError "57P01" "terminating connection")) id
            "2025-06-01T10:00:00.000Z"
            (fun data => Some ("data:image/png;base64," ++ data)%string)
            (fun address => Some address) (held_by "walletX")
    else world id (held_by "walletX").

Definition paid_mint_of (asset owner transaction : string) : MintSuccessRequest :=
  mkMintSuccessRequest (Some "event-1") (Some asset) (Some owner) (Some "sig-1")
                       (Some transaction).

(** An outside world in which only the [n]-th call of a request fails, at the
    database. *)
Definition outage_at (n : nat) (id : string) : nat -> Env :=
  fun k => if (k =? n)%nat then outage_from 0 id k else world id (held_by "walletX").

Definition purchase_of (quantity : Q) : PurchaseRequest :=
  mkPurchaseRequest "event-1" (Some "walletX") None (Some quantity).


(** * The rest of the backend

    What follows covers the behaviour of the four handlers above that their
    contracts leave open, the other routes of [src/routes/eventRoutes.js], the
    administrative functions of [src/services/solanaService.js] and the mint
    listener of [src/listeners/solanaListener.js]. *)

From Stdlib Require Import Sorted Permutation.

(** ** Required fields *)

Definition valid_verify (req : VerifyRequest) : bool :=
  negb (falsy (v_nftMintAddress req)).

Definition valid_purchase (req : PurchaseRequest) : bool :=
  negb (falsy (p_userWalletAddress req))
  && negb (num_le (default 1%Q (p_quantity req)) 0%Q).

(** The request passes the checks its handler makes before it calls anything. *)
Definition well_formed (q : Request) : bool :=
  match q with
  | Verify req => valid_verify req
  | MintSuccess req => valid_mint req
  | TransferUpdate req => valid_transfer req
  | PurchaseInitiate req => valid_purchase req
  end.

(** ** Frames *)

(** A ticket row and a later version of it that differ at most in the status,
    the used flag and the update date, the flag being set if it changes. *)
Definition consume_frame (t t' : Ticket.t) : Prop :=
  t' = Ticket.mk (Ticket.ticket_id t) (Ticket.event_id t) (Ticket.nft_mint_address t)
         (Ticket.owner_wallet_address t) (Ticket.seat_info t) (Ticket.status t')
         (Ticket.is_used t') (Ticket.original_purchase_date t)
         (Ticket.original_purchaser_wallet_address t) (Ticket.qr_code_data t)
         (Ticket.qr_code_url t) (Ticket.last_transfer_date t) (Ticket.updated_at t')
  /\ (Ticket.is_used t' = Ticket.is_used t \/ Ticket.is_used t' = true).

(** An event row and its later version after a mint confirmation for
    [eventId]: the same row, or the row of that event with its counter one
    lower. *)
Definition counter_frame (eventId : string) (e e' : Event.t) : Prop :=
  e' = e
  \/ (Event.event_id e = eventId
      /\ e' = Event.set_available (Event.available_tickets e - 1) e).

(** A transaction row and its later version after a mint confirmation that
    names [transactionId], for the ticket [ticketId] and the signature
    [signature]. *)
Definition link_frame (transactionId signature ticketId : string)
    (x x' : Transaction.t) : Prop :=
  x' = x
  \/ (Transaction.transaction_id x = transactionId
      /\ x' = Transaction.mk (Transaction.transaction_id x) (Transaction.event_id x)
                (Transaction.payment_method x) (Transaction.amount x)
                (Transaction.currency x) "successful" (Some signature) (Some ticketId)).

(** ** src/pages/EventPage.jsx: what the purchase page sends *)

(** [initiateResponse.data.transactionId]. *)
Definition transaction_of (r : Response) : field :=
  match body r with
  | PurchaseBody _ _ _ _ transactionId => Some transactionId
  | _ => None
  end.

(** The body [handlePurchase] posts to purchase-initiate: the wallet only. *)
Definition page_purchase (id wallet : string) : PurchaseRequest :=
  mkPurchaseRequest id (Some wallet) None None.

(** The body [handlePurchase] posts to mint-success once the wallet has
    minted [nft] with the transaction [signature]. *)
Definition page_confirmation (id wallet nft signature : string) (initiated : Response)
    : MintSuccessRequest :=
  mkMintSuccessRequest (Some id) (Some nft) (Some wallet) (Some signature)
                       (transaction_of initiated).

(** The transaction row once a mint confirmation has linked it. *)
Definition linked (signature ticketId : string) (x : Transaction.t) : Transaction.t :=
  Transaction.apply (Transaction.mk_patch "successful" signature ticketId) x.

(** ** The events table, written and listed *)

(** The object given to [.insert] by event creation. *)
Record EventInsert := mkEventInsert {
  ei_name : string;
  ei_description : string;
  ei_date : string;
  ei_time : string;
  ei_venue : string;
  ei_total_tickets : Z;
  ei_available_tickets : Z;
  ei_price_sol : Q;
  ei_price_usd : option Q;
  ei_collection_nft_mint_address : string;
  ei_candy_machine_id : string;
  ei_is_active : bool
}.

(** Modelled from the spec: the schema of the [events] table is not part of
    the sources.  [event_id] is the generated primary key, and unique. *)
Definition new_event (id : string) (i : EventInsert) : Event.t :=
  Event.mk id (ei_name i) (ei_description i) (ei_date i) (ei_time i) (ei_venue i)
    (ei_total_tickets i) (ei_available_tickets i) (ei_price_sol i) (ei_price_usd i)
    (ei_collection_nft_mint_address i) (ei_candy_machine_id i) (ei_is_active i).

Definition event_conflict (r : Event.t) (rows : list Event.t) : bool :=
  existsb (by_event_id (Event.event_id r)) rows.

(** [.order(col, { ascending: true })], for the order [le] of the column. *)
Fixpoint insert_by {A} (le : A -> A -> bool) (x : A) (l : list A) : list A :=
  match l with
  | [] => [x]
  | y :: l' => if le x y then x :: l else y :: insert_by le x l'
  end.

Definition order_by {A} (le : A -> A -> bool) (l : list A) : list A :=
  fold_right (insert_by le) [] l.

(** The rows of [.eq('is_active', true)], further restricted by
    [.eq('candy_machine_id', id)] when the handler adds it. *)
Definition listed (candyMachineId : option string) (r : Event.t) : bool :=
  Event.is_active r
  && match candyMachineId with
     | Some id => Event.candy_machine_id r =? id
     | None => true
     end.

(** ** Metaplex and Pinata, as the administrative functions use them *)

(** The metadata object of a collection. *)
Record Metadata := mkMetadata {
  md_name : string;
  md_symbol : string;
  md_description : string;
  md_image : string;
  md_attributes : list (string * string)
}.

(** An item of a candy machine. *)
Record Item := mkItem { item_name : string; item_uri : string }.

(** A transaction as [connection.getParsedTransaction] gives it: [meta] may be
    missing and [meta.err] is null on success; an instruction that the RPC node
    has parsed has no [accounts]. *)
Record Instruction := mkInstruction {
  programId : string;
  accounts : option (list string)
}.

Record ParsedTransaction := mkParsedTransaction {
  meta : option (option string);
  instructions : list Instruction
}.

Inductive Lookup :=
| LookupRejects
| LookupNull
| LookupFound (transaction : ParsedTransaction).

(** What has been written outside the database: files pinned, collections and
    candy machines created, items inserted, and the HTTP requests sent to the
    backend by the listener. *)
Inductive Issued :=
| Pinned (metadata : Metadata) (cid : string)
| CollectionCreated (name symbol uri address : string)
| CandyMachineCreated (itemsAvailable : Z) (lamports : Q) (startDate : Z)
                      (collection address : string)
| ItemsInserted (candyMachine : string) (items : list Item)
| Requested (method path : string).

(** The database together with what has been written outside it. *)
Record Site := mkSite { db : Store; issued : list Issued }.

(** The calls of the event routes and of the administrative functions: those
    of the ticket routes, and [.select('*').eq('is_active', true).order('date')]
    with its optional filter, the insertion of an event,
    [Math.random().toString(36)], [new Date().getTime()], the upload of a JSON
    file to Pinata (answer: the CID), [pinata.gateway], [metaplex.nfts().create] (answer: the
    address), [metaplex.candyMachines().create] (answer: the address),
    [findByAddress] (answer: the candy machine) and [insertItems] (answer: the
    signature).  A rejected call answers [None] and has written nothing.
    The listener adds [connection.getParsedTransaction] and the sending of a
    request with axios (answer: whether the request reaches the backend). *)
Inductive ECmd : Type -> Type :=
| Db {A} (c : Cmd A) : ECmd A
| EventsSelectActive (candyMachineId : option string) : ECmd (DbResult (list Event.t))
| EventsInsert (row : EventInsert) : ECmd (DbResult (list Event.t))
| MathRandom36 : ECmd string
| DateGetTime : ECmd Z
| PinataUploadJson (metadata : Metadata) : ECmd (option string)
| PinataGateway : ECmd string
| NftsCreate (name symbol uri : string) : ECmd (option string)
| CandyMachinesCreate (itemsAvailable : Z) (lamports : Q) (startDate : Z)
                      (collection : string) : ECmd (option string)
| CandyMachinesFindByAddress (address : string) : ECmd (option string)
| CandyMachinesInsertItems (candyMachine : string) (items : list Item) : ECmd (option string)
| GetParsedTransaction (signature : string) : ECmd Lookup
| Axios (method path : string) : ECmd bool.

(** What the outside world answers to one such call: as before for the
    database, and the order of the [date] column, the random text, the clock in
    milliseconds, the gateway of the Pinata client, the answers of Pinata and
    of Metaplex, the transaction the RPC node has, and whether the backend can
    be reached. *)
Record EEnv := mkEEnv {
  base : Env;
  date_le : string -> string -> bool;
  random36 : string;
  get_time : Z;
  pinata_gateway : string;
  pinata_cid : option string;
  nft_address : option string;
  candy_machine_address : option string;
  candy_machine_found : option string;
  insert_items_signature : option string;
  parsed_transaction : string -> Lookup;
  backend_reached : bool
}.

Definition by_date (le : string -> string -> bool) (a b : Event.t) : bool :=
  le (Event.date a) (Event.date b).

Definition eexec (e : EEnv) {A} (c : ECmd A) (st : Site) : A * Site :=
  match c in ECmd T return T * Site with
  | Db c =>
      let (a, s') := exec (base e) c (db st) in (a, mkSite s' (issued st))
  | EventsSelectActive candyMachineId =>
      match db_fault (base e) with
      | Some err => (Error err, st)
      | None =>
          (Data (order_by (by_date (date_le e))
                          (filter (listed candyMachineId) (events (db st)))), st)
      end
  | EventsInsert row =>
      match db_fault (base e) with
      | Some err => (Error err, st)
      | None =>
          let r := new_event (gen_id (base e)) row in
          if event_conflict r (events (db st)) then (Error unique_violation, st)
          else (Data [r],
                mkSite (mkStore (tickets (db st)) (events (db st) ++ [r])
                                (transactions (db st)))
                       (issued st))
      end
  | MathRandom36 => (random36 e, st)
  | DateGetTime => (get_time e, st)
  | PinataUploadJson metadata =>
      match pinata_cid e with
      | Some cid => (Some cid, mkSite (db st) (issued st ++ [Pinned metadata cid]))
      | None => (None, st)
      end
  | PinataGateway => (pinata_gateway e, st)
  | NftsCreate name symbol uri =>
      match nft_address e with
      | Some address =>
          (Some address,
           mkSite (db st) (issued st ++ [CollectionCreated name symbol uri address]))
      | None => (None, st)
      end
  | CandyMachinesCreate itemsAvailable lamports startDate collection =>
      match candy_machine_address e with
      | Some address =>
          (Some address,
           mkSite (db st)
                  (issued st ++ [CandyMachineCreated itemsAvailable lamports startDate
                                                     collection address]))
      | None => (None, st)
      end
  | CandyMachinesFindByAddress address => (candy_machine_found e, st)
  | CandyMachinesInsertItems candyMachine items =>
      match insert_items_signature e with
      | Some signature =>
          (Some signature, mkSite (db st) (issued st ++ [ItemsInserted candyMachine items]))
      | None => (None, st)
      end
  | GetParsedTransaction signature => (parsed_transaction e signature, st)
  | Axios method path =>
      (backend_reached e, mkSite (db st) (issued st ++ [Requested method path]))
  end.

(** Functions and handlers over these calls. *)
Inductive Task (R : Type) : Type :=
| Done (r : R)
| Ask {A : Type} (c : ECmd A) (k : A -> Task R).
Arguments Done {R} r.
Arguments Ask {R A} c k.

Fixpoint and_then {A B} (p : Task A) (f : A -> Task B) : Task B :=
  match p with
  | Done a => f a
  | Ask c k => Ask c (fun x => and_then (k x) f)
  end.

Definition ask {A} (c : ECmd A) : Task A := Ask c Done.

Notation "x <~ p ;; q" := (and_then p (fun x => q))
  (at level 61, p at next level, right associativity).

(** A task performed alone from its [n]-th call on: its result, the site it
    leaves, and the number of the call that would come next. *)
Fixpoint perform_from {R} (env : nat -> EEnv) (n : nat) (p : Task R) (st : Site)
    : R * Site * nat :=
  match p with
  | Done r => (r, st, n)
  | Ask c k =>
      let (a, st') := eexec (env n) c st in
      perform_from env (S n) (k a) st'
  end.

Definition perform {R} (env : nat -> EEnv) (p : Task R) (st : Site) : R * Site :=
  fst (perform_from env 0 p st).

(** What a function of the service comes to: it returns, it throws an
    [Error] with a message, or it has not come back yet. *)
Inductive Try (A : Type) : Type :=
| Returned (a : A)
| Threw (message : string)
| Unfinished.
Arguments Returned {A} a.
Arguments Threw {A} message.
Arguments Unfinished {A}.

(** ** src/services/solanaService.js: the administrative functions *)

(** [uploadMetadataToIpfs]: the metadata goes to Pinata as a JSON file. *)
Definition uploadMetadataToIpfs (metadata : Metadata) : Task (Try string) :=
  cid <~ ask (PinataUploadJson metadata) ;;
  match cid with
  | None => Done (Threw "Failed to upload metadata to IPFS.")
  | Some cid =>
      gateway <~ ask PinataGateway ;;
      Done (Returned ("https://" ++ gateway ++ "/ipfs/" ++ cid)%string)
  end.

(** [createCollectionNFT]: a collection NFT without royalties, mutable, with
    the administrator as update authority. *)
Definition createCollectionNFT (eventName symbol uri : string) : Task (Try string) :=
  address <~ ask (NftsCreate eventName symbol uri) ;;
  match address with
  | None => Done (Threw "Failed to create Collection NFT.")
  | Some address => Done (Returned address)
  end.

(** The loop of [addItemsToCandyMachine], from index [i] on:
    [items.slice(i, i + batchSize)] is inserted, then [i += batchSize], as
    long as [i < items.length].  [fuel] bounds the number of rounds; a loop
    that needs more is [Unfinished]. *)
Fixpoint insert_batches (fuel : nat) (candyMachine : string) (items : list Item)
    (batchSize i : nat) : Task (Try unit) :=
  if (List.length items <=? i)%nat then Done (Returned tt)
  else
    match fuel with
    | O => Done Unfinished
    | S fuel' =>
        let batch := firstn batchSize (skipn i items) in
        response <~ ask (CandyMachinesInsertItems candyMachine batch) ;;
        match response with
        | None => Done (Threw "Failed to add items to Candy Machine.")
        | Some signature =>
            insert_batches fuel' candyMachine items batchSize (i + batchSize)
        end
    end.

(** [addItemsToCandyMachine] *)
Definition addItemsToCandyMachine (fuel : nat) (candyMachineAddress : string)
    (items : list Item) (batchSize : nat) : Task (Try unit) :=
  candyMachine <~ ask (CandyMachinesFindByAddress candyMachineAddress) ;;
  match candyMachine with
  | None => Done (Threw "Failed to add items to Candy Machine.")
  | Some candyMachine => insert_batches fuel candyMachine items batchSize 0
  end.

Definition ticket_item (i : nat) : Item :=
  mkItem ("Event Ticket #" ++ template_int (Z.of_nat i))%string
         "https://gateway.pinata.cloud/ipfs/Qmd5eR4bXQT32x4N82sGbA28z257NUDYg2P2kxy5u2yB1M".

(** The items [deployCandyMachine] prepares: one for each [i] from 1 to
    [numberOfTickets]. *)
Definition ticket_items (numberOfTickets : Z) : list Item :=
  map ticket_item (seq 1 (Z.to_nat numberOfTickets)).

Definition deploy_failed : string :=
  "Failed to deploy Candy Machine. Ensure your admin wallet has enough SOL and the collection NFT is valid.".

(** [deployCandyMachine]: a candy machine for [numberOfTickets] items, paid
    in lamports to the administrator from now on, then loaded with its items
    five at a time.  The loop is given one round per item.  The amount in
    lamports is written here as the exact product; the code multiplies two
    doubles and [toBigNumber] drops the fraction, which is the same number only
    where that product is exact, so the properties stated of deployment and
    of event creation leave the amount open. *)
Definition deployCandyMachine (collectionMintAddress : string) (priceInSol : Q)
    (numberOfTickets : Z) : Task (Try string) :=
  time <~ ask DateGetTime ;;
  address <~ ask (CandyMachinesCreate numberOfTickets
                    (priceInSol * (1000000000 # 1))%Q (time / 1000)
                    collectionMintAddress) ;;
  match address with
  | None => Done (Threw deploy_failed)
  | Some address =>
      let items := ticket_items numberOfTickets in
      added <~ addItemsToCandyMachine (List.length items) address items 5 ;;
      match added with
      | Returned _ => Done (Returned address)
      | Threw _ => Done (Threw deploy_failed)
      | Unfinished => Done Unfinished
      end
  end.

(** ** src/routes/eventRoutes.js: the other routes *)

(** [/[a-zA-Z0-9]/] *)
Definition is_alnum (c : ascii) : bool :=
  let n := nat_of_ascii c in
  ((48 <=? n) && (n <=? 57) || (65 <=? n) && (n <=? 90) || (97 <=? n) && (n <=? 122))%nat.

(** [toUpperCase] on a character of ASCII. *)
Definition upper (c : ascii) : ascii :=
  let n := nat_of_ascii c in
  if ((97 <=? n) && (n <=? 122))%nat then ascii_of_nat (n - 32) else c.

Definition toUpperCase (s : string) : string :=
  string_of_list_ascii (map upper (list_ascii_of_string s)).

(** [s.replace(/[^a-zA-Z0-9]/g, '')] *)
Definition strip_non_alnum (s : string) : string :=
  string_of_list_ascii (filter is_alnum (list_ascii_of_string s)).

(** [generateUniqueSymbol]; [s.substring(a, b)] is [substring a (b - a) s]. *)
Definition generateUniqueSymbol (eventName : string) : Task string :=
  let cleanedName := toUpperCase (strip_non_alnum eventName) in
  random <~ ask MathRandom36 ;;
  Done (substring 0 4 cleanedName ++ toUpperCase (substring 2 4 random))%string.

(** The JSON bodies of the event routes, by shape. *)
Inductive EventsBody :=
| EventsError (error : string) (details : option string)
| EventRow (event : Event.t)
| EventRows (events : list Event.t)
| EventCreated (message : string) (event : option Event.t)
               (collectionMintAddress candyMachineId : string).

Record EventsResponse := mkEventsResponse { e_status : Z; e_body : EventsBody }.

Definition reply (st : Z) (b : EventsBody) : Task EventsResponse :=
  Done (mkEventsResponse st b).

Record CreateEventRequest := mkCreateEventRequest {
  c_name : field;
  c_description : field;
  c_date : field;
  c_time : field;
  c_venue : field;
  c_totalTickets : option Z;
  c_priceSol : option Q;
  c_priceUsd : option Q
}.

(** [!x] on a number-or-undefined value: [undefined] and zero are falsy. *)
Definition falsy_int (x : option Z) : bool :=
  match x with None => true | Some z => (z =? 0)%Z end.

Definition falsy_num (x : option Q) : bool :=
  match x with None => true | Some q => Qeq_bool q 0 end.

Definition creation_valid (req : CreateEventRequest) : bool :=
  negb (falsy (c_name req) || falsy (c_date req) || falsy (c_venue req)
        || falsy_int (c_totalTickets req) || falsy_num (c_priceSol req)).

Definition collection_metadata (name symbol : string) : Metadata :=
  mkMetadata (name ++ " Collection")%string symbol
    ("Official NFT collection for the event: " ++ name ++ ".")%string
    "https://placehold.co/500x500/000000/FFFFFF?text=Event+Collection"
    [("Type", "Event Collection"); ("Event Name", name)].

Definition creation_failed (message : string) : Task (option EventsResponse) :=
  Done (Some (mkEventsResponse 500
                (EventsError "Internal server error during event creation."
                             (Some message)))).

(** [POST /api/events].  No answer ([None]) stands for a request whose
    handler has not come back. *)
Definition create_event (req : CreateEventRequest) : Task (option EventsResponse) :=
  if negb (creation_valid req) then
    Done (Some (mkEventsResponse 400 (EventsError "Missing required event fields." None)))
  else
  let name := value (c_name req) in
  let totalTickets := default 0 (c_totalTickets req) in
  let priceSol := default 0%Q (c_priceSol req) in
  collectionSymbol <~ generateUniqueSymbol name ;;
  let collectionMetadata := collection_metadata name collectionSymbol in
  collectionMetadataUri <~ uploadMetadataToIpfs collectionMetadata ;;
  match collectionMetadataUri with
  | Threw message => creation_failed message
  | Unfinished => Done None
  | Returned collectionMetadataUri =>
  collectionMintAddress <~ createCollectionNFT name collectionSymbol collectionMetadataUri ;;
  match collectionMintAddress with
  | Threw message => creation_failed message
  | Unfinished => Done None
  | Returned collectionMintAddress =>
  candyMachineId <~ deployCandyMachine collectionMintAddress priceSol totalTickets ;;
  match candyMachineId with
  | Threw message => creation_failed message
  | Unfinished => Done None
  | Returned candyMachineId =>
  inserted <~ ask (EventsInsert
                (mkEventInsert name (value (c_description req)) (value (c_date req))
                   (value (c_time req)) (value (c_venue req)) totalTickets totalTickets
                   priceSol (c_priceUsd req) collectionMintAddress candyMachineId true)) ;;
  match inserted with
  | Error error =>
      Done (Some (mkEventsResponse 500
                    (EventsError "Failed to create event in database."
                                 (Some (message error)))))
  | Data data =>
      Done (Some (mkEventsResponse 201
                    (EventCreated "Event created successfully!" (hd_error data)
                                  collectionMintAddress candyMachineId)))
  end end end end.

(** [GET /api/events] *)
Definition list_events (candyMachineId : field) : Task EventsResponse :=
  answer <~ ask (EventsSelectActive
                   (if falsy candyMachineId then None else Some (value candyMachineId))) ;;
  match answer with
  | Error error =>
      reply 500 (EventsError "Failed to fetch events." (Some (message error)))
  | Data data => reply 200 (EventRows data)
  end.

(** [GET /api/events/:eventId] *)
Definition get_event (eventId : string) : Task EventsResponse :=
  answer <~ ask (Db (EventsSingleById eventId)) ;;
  match answer with
  | Error error =>
      if code error =? "PGRST116" then
        reply 404 (EventsError "Event not found." None)
      else
        reply 500 (EventsError "Failed to fetch event details." (Some (message error)))
  | Data data => reply 200 (EventRow data)
  end.

(** ** Fixtures for the event routes and the administrative functions *)

(** An outside world in which every call is answered. *)
Definition chain_world (id : string) : EEnv :=
  mkEEnv (world id (held_by "walletX")) String.leb "0.k3x9q2m" 1750000000999
         "gateway.pinata.cloud" (Some "QmCid") (Some "collection-9") (Some "machine-9")
         (Some "machine-9") (Some "sig-items") (fun _ => LookupNull) true.

Definition smooth (id : string) : nat -> EEnv := fun _ => chain_world id.

(** An outside world in which only the [n]-th call of a task is rejected by
    Metaplex or Pinata. *)
Definition rejected_at (n : nat) (id : string) : nat -> EEnv :=
  fun k =>
    if (k =? n)%nat then
      mkEEnv (world id (held_by "walletX")) String.leb "0.k3x9q2m" 1750000000999
             "gateway.pinata.cloud" None None None None None (fun _ => LookupNull) true
    else chain_world id.

(** An outside world in which only the [n]-th call of a task fails, at the
    database. *)
Definition db_down_at (n : nat) (id : string) : nat -> EEnv :=
  fun k =>
    if (k =? n)%nat then
      mkEEnv (outage_from 0 id 0%nat) String.leb "0.k3x9q2m" 1750000000999
             "gateway.pinata.cloud" (Some "QmCid") (Some "collection-9")
             (Some "machine-9") (Some "machine-9") (Some "sig-items")
             (fun _ => LookupNull) true
    else chain_world id.

Definition blank : Site := mkSite (mkStore [] [] []) [].

Definition new_year (totalTickets : option Z) : CreateEventRequest :=
  mkCreateEventRequest (Some "New Year's Eve!") (Some "Fireworks")
    (Some "2025-12-31T19:00:00Z") (Some "7:00 PM") (Some "Harbour") totalTickets
    (Some (1 # 2)%Q) None.

(** ** src/listeners/solanaListener.js: the handler of a notification *)

(** [s.includes(t)] *)
Fixpoint includes (s t : string) : bool :=
  String.prefix t s
  || match s with
     | EmptyString => false
     | String _ s' => includes s' t
     end.

(** [data.params.result.value] of a notification. *)
Record Notice := mkNotice {
  n_logs : option (list string);
  n_signature : field
}.

(** A handler of the ticket routes, as the task that serves a request sent to
    it. *)
Fixpoint lift {R} (p : Prog R) : Task R :=
  match p with
  | Ret r => Done r
  | Call c k => Ask (Db c) (fun a => lift (k a))
  end.

(** The test of the instruction loop,
    [instruction.programId.toBase58() === candyMachineProgramId.toBase58()].
    [candyMachineProgramId] is a constant of the body of the [onopen]
    callback; it is not in scope in the [onmessage] callback, whose module is
    in strict mode, so evaluating the test throws a ReferenceError. *)
Definition is_candy_machine (instruction : Instruction) : Try bool :=
  Threw "candyMachineProgramId is not defined".

(** The loop over the instructions, from the values of [mintAddress],
    [newOwner] and [candyMachineId] so far. *)
Fixpoint scan (instructions : list Instruction) (found : field * field * field)
    : Try (field * field * field) :=
  match instructions with
  | [] => Returned found
  | instruction :: rest =>
      match is_candy_machine instruction with
      | Threw message => Threw message
      | Unfinished => Unfinished
      | Returned false => scan rest found
      | Returned true =>
          match accounts instruction with
          | Some (first :: others) =>
              scan rest (Some first, nth_error (first :: others) 3,
                         nth_error (first :: others) 1)
          | _ => scan rest found
          end
      end
  end.

(** axios rejects unless the status is 2xx. *)
Definition ok (status : Z) : bool := ((200 <=? status) && (status <? 300))%Z.

(** [ws.onmessage], for a message whose JSON text parses; [None] stands for a
    message without [params.result.value].  Everything from
    [getParsedTransaction] on is inside [try], and the [catch] only logs. *)
Definition on_message (data : option Notice) : Task unit :=
  match data with
  | None => Done tt
  | Some notice =>
  match n_logs notice with
  | None => Done tt
  | Some logs =>
  match find (fun log => includes log "Program log: Instruction: Mint") logs with
  | None => Done tt
  | Some mintLog =>
  if is_empty mintLog then Done tt
  else if falsy (n_signature notice) then Done tt
  else
  let signature := value (n_signature notice) in
  transaction <~ ask (GetParsedTransaction signature) ;;
  match transaction with
  | LookupRejects => Done tt
  | LookupNull => Done tt
  | LookupFound transaction =>
  match meta transaction with
  | None => Done tt
  | Some (Some err) => Done tt
  | Some None =>
  match scan (instructions transaction) (None, None, None) with
  | Threw message => Done tt
  | Unfinished => Done tt
  | Returned (mintAddress, newOwner, candyMachineId) =>
  if falsy mintAddress || falsy newOwner || falsy candyMachineId then Done tt
  else
  reached <~ ask (Axios "GET" ("/api/events?candyMachineId=" ++ value candyMachineId)) ;;
  if negb reached then Done tt
  else
  response <~ list_events candyMachineId ;;
  if negb (ok (e_status response)) then Done tt
  else
  match e_body response with
  | EventRows (first :: _) =>
      if is_empty (Event.event_id first) then Done tt
      else
      reached <~ ask (Axios "POST" "/api/tickets/mint-success") ;;
      if negb reached then Done tt
      else
      answer <~ lift (mint_success
                        (mkMintSuccessRequest (Some (Event.event_id first)) mintAddress
                           newOwner (Some signature) None)) ;;
      Done tt
  | _ => Done tt
  end end end end end end end.

(** ** Two requests in flight

    Two requests served together under a schedule: each turn names the
    request that has its next call answered ([true] for the first) and the
    outside world that answers it.  A request that has come to its answer
    lets its turns pass. *)
Fixpoint serve_two {R} (schedule : list (bool * Env)) (p q : Prog R) (s : Store)
    : Prog R * Prog R * Store :=
  match schedule with
  | [] => (p, q, s)
  | (true, e) :: rest =>
      match p with
      | Ret _ => serve_two rest p q s
      | Call c k => serve_two rest (k (fst (exec e c s))) q (snd (exec e c s))
      end
  | (false, e) :: rest =>
      match q with
      | Ret _ => serve_two rest p q s
      | Call c k => serve_two rest p (k (fst (exec e c s))) (snd (exec e c s))
      end
  end.
(** ** Lookups in a table with a unique index *)

Lemma by_mint_true (m : string) (t : Ticket.t) :
  by_mint m t = true <-> Ticket.nft_mint_address t = m.
Proof. unfold by_mint. apply String.eqb_eq. Qed.

Lemma filter_none_of_not_in (m : string) (ts : list Ticket.t) :
  ~ In m (map Ticket.nft_mint_address ts) -> filter (by_mint m) ts = [].
Proof.
  induction ts as [|t ts IH]; simpl; intros Hn; [reflexivity|].
  destruct (by_mint m t) eqn:E.
  - apply by_mint_true in E. exfalso. apply Hn. now left.
  - apply IH. intros H. apply Hn. now right.
Qed.

Lemma filter_by_mint_unique (m : string) (ts : list Ticket.t) :
  NoDup (map Ticket.nft_mint_address ts) ->
  filter (by_mint m) ts =
  match find (by_mint m) ts with Some t => [t] | None => [] end.
Proof.
  induction ts as [|t ts IH]; simpl; intros Hnd; [reflexivity|].
  inversion Hnd as [|x l Hnotin Hnd']; subst.
  destruct (by_mint m t) eqn:E.
  - apply by_mint_true in E. rewrite <- E.
    now rewrite (filter_none_of_not_in _ _ Hnotin).
  - now apply IH.
Qed.

Lemma ticket_lookup (e : Env) (m : string) (s : Store) :
  unique_mints s -> no_fault e ->
  db_select e (filter (by_mint m) (tickets s)) =
  match ticket_for m s with Some t => Data t | None => Error PGRST116 end.
Proof.
  intros Hu Hf. unfold db_select. rewrite Hf.
  rewrite (filter_by_mint_unique m _ Hu). unfold ticket_for.
  now destruct (find (by_mint m) (tickets s)).
Qed.

Lemma ticket_for_mint (m : string) (s : Store) (t : Ticket.t) :
  ticket_for m s = Some t -> In t (tickets s) /\ Ticket.nft_mint_address t = m.
Proof.
  unfold ticket_for. intros H. apply find_some in H as [Hin Hb].
  split; [assumption | now apply by_mint_true].
Qed.

Lemma find_by_mint_update (m : string) (sel : Ticket.t -> bool) (p : Ticket.patch)
    (ts : list Ticket.t) :
  find (by_mint m) (update_where sel (Ticket.apply p) ts) =
  option_map (fun t => if sel t then Ticket.apply p t else t) (find (by_mint m) ts).
Proof.
  induction ts as [|t ts IH]; simpl; [reflexivity|].
  assert (E : by_mint m (if sel t then Ticket.apply p t else t) = by_mint m t)
    by (destruct (sel t); reflexivity).
  rewrite E. destruct (by_mint m t); [reflexivity | exact IH].
Qed.

Lemma by_ticket_id_self (t : Ticket.t) : by_ticket_id (Ticket.ticket_id t) t = true.
Proof. unfold by_ticket_id. apply String.eqb_refl. Qed.

(** Case analysis on the next thing the run of a handler depends on. *)
Ltac break_match :=
  match goal with
  | |- context [match ?x with _ => _ end] =>
      lazymatch x with
      | context [match _ with _ => _ end] => fail
      | _ => destruct x eqn:?
      end
  end.

Ltac run_cbn :=
  cbn [run_from bind await exec json internal_error db_select fst snd
       status body negb] in *.

Ltac run_cases := repeat (run_cbn; break_match); run_cbn.

Lemma ticket_for_after_update (m : string) (s : Store) (t : Ticket.t) (p : Ticket.patch) :
  ticket_for m s = Some t ->
  ticket_for m (mkStore (update_where (by_ticket_id (Ticket.ticket_id t))
                                      (Ticket.apply p) (tickets s))
                        (events s) (transactions s))
  = Some (Ticket.apply p t).
Proof.
  unfold ticket_for. cbn [tickets]. intros H.
  rewrite find_by_mint_update, H. cbn. now rewrite by_ticket_id_self.
Qed.

(** What the gate served alone does, once the request names an asset and the
    lookup is answered. *)
Lemma verify_alone (s : Store) (req : VerifyRequest) (env : nat -> Env) :
  falsy (v_nftMintAddress req) = false ->
  unique_mints s ->
  no_fault (env 0%nat) ->
  let mint := value (v_nftMintAddress req) in
  run env (verify req) s =
  match ticket_for mint s with
  | None => (mkResponse 404 (ErrorBody "Ticket not found in our records." None), s)
  | Some t =>
      let address := js_or (v_ownerWalletAddress req) (Ticket.owner_wallet_address t) in
      if Ticket.is_used t then
        (mkResponse 409 (ErrorBody "Ticket has already been used." None), s)
      else if is_empty address then
        (mkResponse 500
           (ErrorBody "Missing owner wallet address for on-chain verification." None), s)
      else if live_owner_is env mint address then
        match db_fault (env 5%nat) with
        | Some err =>
            (mkResponse 500
               (ErrorBody "Failed to update ticket status after verification."
                          (Some (message err))), s)
        | None =>
            (mkResponse 200
               (TicketIdBody "Ticket successfully verified and marked as used."
                             (Ticket.ticket_id t)),
             with_tickets
               (update_where (by_ticket_id (Ticket.ticket_id t))
                  (Ticket.apply (mark_used (now (env 4%nat)))) (tickets s)) s)
        end
      else
        (mkResponse 403
           (ErrorBody "Ticket ownership verification failed on-chain. This ticket is not held by the expected wallet." None), s)
  end.
Proof.
  intros Hreq Hu Hf0 mint.
  unfold run, verify. rewrite Hreq. fold mint.
  cbn [run_from bind await exec]. rewrite (ticket_lookup _ mint _ Hu Hf0).
  destruct (ticket_for mint s) as [t|]; [|reflexivity].
  cbn [run_from json]. cbn zeta.
  destruct (Ticket.is_used t); [reflexivity|].
  destruct (is_empty (js_or (v_ownerWalletAddress req) (Ticket.owner_wallet_address t)));
    [reflexivity|].
  unfold verifyTicketOwnershipOnChain, live_owner_is, verify_live_owner.
  run_cases; try reflexivity; congruence.
Qed.

(** C3. verifyAndConsume, one call: NotFound exactly when no ticket exists for
    the asset; otherwise Conflict exactly when the ticket is used; otherwise
    the owner the request asserts, when it asserts one, and else the stored
    owner, is checked against the owner the ledger reports: Forbidden unless
    they are the same, and when they are, the ticket is marked used with status
    'used' and the answer is success with the ticket identifier.  An empty
    asserted owner counts as none; with no owner to check at all the answer
    is 500. *)
Theorem verify_contract (s : Store) (req : VerifyRequest) (env : nat -> Env) :
  falsy (v_nftMintAddress req) = false ->
  unique_mints s ->
  no_fault (env 0%nat) ->
  let mint := value (v_nftMintAddress req) in
  let r := fst (run env (verify req) s) in
  let s' := snd (run env (verify req) s) in
  let checked_against (t : Ticket.t) (address : string) : Prop :=
    (live_owner_is env mint address = false -> status r = 403 /\ s' = s)
    /\ (live_owner_is env mint address = true -> no_fault (env 5%nat) ->
        r = mkResponse 200
              (TicketIdBody "Ticket successfully verified and marked as used."
                            (Ticket.ticket_id t))
        /\ s' = with_tickets
                  (update_where (by_ticket_id (Ticket.ticket_id t))
                     (Ticket.apply (mark_used (now (env 4%nat)))) (tickets s)) s
        /\ exists t', ticket_for mint s' = Some t'
                      /\ Ticket.ticket_id t' = Ticket.ticket_id t
                      /\ Ticket.is_used t' = true
                      /\ Ticket.status t' = "used") in
  (status r = 404 <-> ticket_for mint s = None)
  /\ forall t, ticket_for mint s = Some t ->
       (status r = 409 <-> Ticket.is_used t = true)
       /\ (Ticket.is_used t = false ->
           (forall asserted,
              v_ownerWalletAddress req = Some asserted ->
              is_empty asserted = false ->
              checked_against t asserted)
           /\ (falsy (v_ownerWalletAddress req) = true ->
               is_empty (Ticket.owner_wallet_address t) = false ->
               checked_against t (Ticket.owner_wallet_address t))
           /\ (falsy (v_ownerWalletAddress req) = true ->
               is_empty (Ticket.owner_wallet_address t) = true ->
               status r = 500 /\ s' = s)).
Proof.
  intros Hreq Hu Hf0 mint r s' checked_against. subst checked_against r s'.
  rewrite (verify_alone s req env Hreq Hu Hf0). fold mint.
  destruct (ticket_for mint s) as [t|] eqn:Ht.
  2:{ split; [tauto|]. intros t Hc. discriminate. }
  cbn zeta. split.
  { split; [|discriminate]. repeat break_match; discriminate. }
  intros t' Ht'. injection Ht' as <-.
  destruct (Ticket.is_used t) eqn:Hused.
  { cbn. split; [tauto|discriminate]. }
  split. { split; [|discriminate]. repeat break_match; discriminate. }
  intros _. split; [|split].
  - intros asserted Ha Hne. unfold js_or. rewrite Ha. cbn [falsy value].
    rewrite !Hne. split.
    + intros Hm. rewrite Hm. now split.
    + intros Hm Hf5. rewrite Hm. unfold no_fault in Hf5. rewrite Hf5.
      cbn [fst snd]. split; [reflexivity|]. split; [reflexivity|].
      exists (Ticket.apply (mark_used (now (env 4%nat))) t).
      split; [|now cbn].
      unfold with_tickets. now apply ticket_for_after_update.
  - intros Hno Hne. unfold js_or. rewrite Hno, Hne. split.
    + intros Hm. rewrite Hm. now split.
    + intros Hm Hf5. rewrite Hm. unfold no_fault in Hf5. rewrite Hf5.
      cbn [fst snd]. split; [reflexivity|]. split; [reflexivity|].
      exists (Ticket.apply (mark_used (now (env 4%nat))) t).
      split; [|now cbn].
      unfold with_tickets. now apply ticket_for_after_update.
  - intros Hno He. unfold js_or. rewrite Hno, He. now split.
Qed.


(** ** What a mint confirmation served alone does *)

Lemma mint_success_outcome (env : nat -> Env) (req : MintSuccessRequest) (s : Store) :
  let mint := value (m_nftMintAddress req) in
  let r := fst (run env (mint_success req) s) in
  let s' := snd (run env (mint_success req) s) in
  (s' = s
   /\ (status r = 200 ->
       r = already_processed
       /\ valid_mint req = true
       /\ exists t0, db_select (env 0%nat) (filter (by_mint mint) (tickets s)) = Data t0))
  \/ (exists ev qr,
        let t := minted_ticket env req ev qr in
        valid_mint req = true
        /\ (exists err, db_select (env 0%nat) (filter (by_mint mint) (tickets s))
                        = Error err)
        /\ qr_code (env 1%nat) mint = Some qr
        /\ db_select (env 2%nat)
             (filter (by_event_id (value (m_eventId req))) (events s)) = Data ev
        /\ ticket_conflict t (tickets s) = false
        /\ r = mkResponse 200 (TicketBody recorded (Some t))
        /\ s' = mkStore (tickets s ++ [t]) (events_after_mint env req ev s)
                        (transactions_after_mint env req t s)).
Proof.
  intros mint r s'. subst mint r s'.
  unfold run, mint_success, generateQrCodeDataUrl, valid_mint, events_after_mint,
    transactions_after_mint, already_processed, minted_ticket.
  destruct (falsy (m_eventId req) || falsy (m_nftMintAddress req)
            || falsy (m_ownerWalletAddress req)
            || falsy (m_solanaTransactionSignature req)) eqn:Hv.
  { left. cbn. split; [reflexivity | discriminate]. }
  cbn [run_from bind await exec fst snd negb].
  destruct (db_select (env 0%nat)
              (filter (by_mint (value (m_nftMintAddress req))) (tickets s)))
    as [t0|err0] eqn:H0.
  { left. cbn. split; [reflexivity|]. intros _. repeat split. now exists t0. }
  cbn [run_from bind await exec fst snd].
  destruct (qr_code (env 1%nat) (value (m_nftMintAddress req))) as [qr|] eqn:Hq.
  2:{ left. cbn. split; [reflexivity | discriminate]. }
  cbn [run_from bind await exec fst snd].
  destruct (db_select (env 2%nat)
              (filter (by_event_id (value (m_eventId req))) (events s)))
    as [ev|err2] eqn:H2.
  2:{ left. cbn. split; [reflexivity | discriminate]. }
  cbn [run_from bind await exec fst snd].
  destruct (db_fault (env 4%nat)) as [err4|] eqn:H4.
  { left. cbn. split; [reflexivity | discriminate]. }
  match goal with
  | |- context [if ticket_conflict ?t ?l then _ else _] =>
      destruct (ticket_conflict t l) eqn:Hc
  end.
  { left. cbn. split; [reflexivity | discriminate]. }
  right. exists ev, qr. cbn zeta.
  split; [reflexivity|]. split; [now exists err0|].
  split; [reflexivity|]. split; [reflexivity|]. split; [exact Hc|].
  cbn [run_from bind await exec fst snd tickets events transactions hd_error].
  destruct (falsy (m_transactionId req)) eqn:Htx;
    destruct (db_fault (env 5%nat)) as [err5|] eqn:H5;
    cbn [run_from bind await exec fst snd tickets events transactions hd_error json];
    try (split; reflexivity);
    destruct (db_fault (env 6%nat)) as [err6|] eqn:H6;
    cbn [run_from bind await exec fst snd tickets events transactions hd_error json];
    split; reflexivity.
Qed.

Lemma db_select_data {A} (e : Env) (rows : list A) (a : A) :
  db_select e rows = Data a -> rows = [a] /\ db_fault e = None.
Proof.
  unfold db_select, single. destruct (db_fault e); [discriminate|].
  destruct rows as [|x [|y l]]; try discriminate.
  intros H. injection H as ->. now split.
Qed.

Lemma filter_singleton_find {A} (f : A -> bool) (rows : list A) (a : A) :
  filter f rows = [a] -> find f rows = Some a.
Proof.
  induction rows as [|x l IH]; simpl; [discriminate|].
  destruct (f x); [intros H; now injection H as -> | exact IH].
Qed.

Lemma ticket_conflict_false (t : Ticket.t) (ts : list Ticket.t) :
  ticket_conflict t ts = false ->
  ~ In (Ticket.nft_mint_address t) (map Ticket.nft_mint_address ts).
Proof.
  unfold ticket_conflict. induction ts as [|x l IH]; simpl; [tauto|].
  intros H. apply orb_false_iff in H as [Hx Hl]. apply orb_false_iff in Hx as [_ Hm].
  intros [Heq | Hin]; [|now apply IH].
  unfold by_mint in Hm. rewrite Heq, String.eqb_refl in Hm. discriminate.
Qed.

Lemma ticket_conflict_of_ticket_for (t t0 : Ticket.t) (s : Store) :
  ticket_for (Ticket.nft_mint_address t) s = Some t0 ->
  ticket_conflict t (tickets s) = true.
Proof.
  intros H. destruct (ticket_conflict t (tickets s)) eqn:E; [reflexivity|].
  exfalso. apply (ticket_conflict_false _ _ E).
  apply ticket_for_mint in H as [Hin Hm]. rewrite <- Hm. now apply in_map.
Qed.

Lemma unique_mints_insert (s : Store) (t : Ticket.t) (es : list Event.t)
    (txs : list Transaction.t) :
  unique_mints s -> ticket_conflict t (tickets s) = false ->
  unique_mints (mkStore (tickets s ++ [t]) es txs).
Proof.
  unfold unique_mints. cbn [tickets]. intros Hu Hc.
  rewrite map_app. cbn [map].
  apply NoDup_app; [assumption | repeat constructor; simpl; tauto |].
  intros x H1 [H2|[]]. subst x. exact (ticket_conflict_false _ _ Hc H1).
Qed.

Lemma ticket_for_inserted (s : Store) (t : Ticket.t) (es : list Event.t)
    (txs : list Transaction.t) :
  ticket_conflict t (tickets s) = false ->
  filter (by_mint (Ticket.nft_mint_address t)) (tickets s ++ [t]) = [t]
  /\ ticket_for (Ticket.nft_mint_address t) (mkStore (tickets s ++ [t]) es txs) = Some t.
Proof.
  intros Hc.
  assert (F : filter (by_mint (Ticket.nft_mint_address t)) (tickets s ++ [t]) = [t]).
  { rewrite filter_app, (filter_none_of_not_in _ _ (ticket_conflict_false _ _ Hc)).
    cbn. unfold by_mint. now rewrite String.eqb_refl. }
  split; [exact F|]. unfold ticket_for. cbn [tickets].
  now apply filter_singleton_find.
Qed.

Lemma minted_ticket_mint env req ev qr :
  Ticket.nft_mint_address (minted_ticket env req ev qr) = value (m_nftMintAddress req).
Proof. reflexivity. Qed.


(** C7. Seat label: a mint confirmation that creates a ticket labels it
    "Ticket #" followed by total_tickets - available_tickets + 1 of the event
    row it read; with total = 3 and available = 3, the first mint gives
    "Ticket #1" and available = 2, the same mint again changes nothing, and a
    mint of a second asset gives "Ticket #2" and available = 1. *)
Theorem seat_label_formula :
  (forall (s : Store) (req : MintSuccessRequest) (env : nat -> Env),
     let s' := snd (run env (mint_success req) s) in
     tickets s' <> tickets s ->
     exists ev t,
       filter (by_event_id (value (m_eventId req))) (events s) = [ev]
       /\ tickets s' = tickets s ++ [t]
       /\ Ticket.seat_info t =
          ("Ticket #" ++ template_int (Event.total_tickets ev
                                       - Event.available_tickets ev + 1))%string)
  /\ (let s0 := box_office 3 in
      let s1 := snd (run (calm "ticket-1") (mint_success (mint_of "assetA" "walletX")) s0) in
      let r2 := fst (run (calm "ticket-2") (mint_success (mint_of "assetA" "walletX")) s1) in
      let s2 := snd (run (calm "ticket-2") (mint_success (mint_of "assetA" "walletX")) s1) in
      let s3 := snd (run (calm "ticket-3") (mint_success (mint_of "assetB" "walletY")) s2) in
      map Ticket.seat_info (tickets s1) = ["Ticket #1"]
      /\ map Event.available_tickets (events s1) = [2]
      /\ r2 = already_processed /\ s2 = s1
      /\ map Ticket.seat_info (tickets s3) = ["Ticket #1"; "Ticket #2"]
      /\ map Event.available_tickets (events s3) = [1]).
Proof.
  split.
  - intros s req env s' Hins.
    destruct (mint_success_outcome env req s) as [[Hs _]|(ev & qr & H)].
    + exfalso. apply Hins. fold s' in Hs. now rewrite Hs.
    + cbn zeta in H. destruct H as (_ & _ & _ & Hev & _ & _ & Hs).
      apply db_select_data in Hev as [Hrows _].
      exists ev, (minted_ticket env req ev qr). fold s' in Hs.
      rewrite Hs. now cbn [tickets].
  - vm_compute. repeat split.
Qed.

(** ** The counter of an event under serialised mint confirmations *)

Lemma by_event_id_true (id : string) (r : Event.t) :
  by_event_id id r = true <-> Event.event_id r = id.
Proof. unfold by_event_id. apply String.eqb_eq. Qed.

Lemma filter_update_where_event (e0 : string) (sel : Event.t -> bool) (v : Z)
    (evs : list Event.t) :
  filter (by_event_id e0) (update_where sel (Event.set_available v) evs) =
  map (fun r => if sel r then Event.set_available v r else r)
      (filter (by_event_id e0) evs).
Proof.
  induction evs as [|r l IH]; simpl; [reflexivity|].
  assert (E : by_event_id e0 (if sel r then Event.set_available v r else r)
              = by_event_id e0 r) by (destruct (sel r); reflexivity).
  rewrite E. destruct (by_event_id e0 r); simpl; now rewrite IH.
Qed.

(** ** A mint confirmation that inserts its ticket *)

(** What a mint confirmation does when it gets as far as its insertion and
    the insertion is accepted: the lookup of the asset gave no row, the QR code
    was made, the event row was read, and the database takes the new row.
    Whatever the two updates are answered, the answer is 200 with the new row,
    and the row is in the table. *)
Lemma mint_success_inserts (env : nat -> Env) (req : MintSuccessRequest) (s : Store)
    (ev : Event.t) (qr : string) :
  let mint := value (m_nftMintAddress req) in
  let t := minted_ticket env req ev qr in
  valid_mint req = true ->
  (exists err, db_select (env 0%nat) (filter (by_mint mint) (tickets s)) = Error err) ->
  qr_code (env 1%nat) mint = Some qr ->
  db_select (env 2%nat) (filter (by_event_id (value (m_eventId req))) (events s))
  = Data ev ->
  no_fault (env 4%nat) ->
  ticket_conflict t (tickets s) = false ->
  run env (mint_success req) s =
  (mkResponse 200 (TicketBody recorded (Some t)),
   mkStore (tickets s ++ [t]) (events_after_mint env req ev s)
           (transactions_after_mint env req t s)).
Proof.
  intros mint t Hv [err0 H0] Hq H2 H4 Hc.
  unfold valid_mint in Hv. apply negb_true_iff in Hv.
  unfold run, mint_success, generateQrCodeDataUrl, events_after_mint,
    transactions_after_mint. rewrite Hv. fold mint.
  cbn [run_from bind await exec fst snd negb]. rewrite H0.
  cbn [run_from bind await exec fst snd]. rewrite Hq.
  cbn [run_from bind await exec fst snd]. rewrite H2.
  cbn [run_from bind await exec fst snd]. unfold no_fault in H4. rewrite H4.
  unfold t, minted_ticket in Hc. fold mint in Hc. rewrite Hc.
  cbn [run_from bind await exec fst snd tickets events transactions hd_error].
  destruct (falsy (m_transactionId req)) eqn:Htx;
    destruct (db_fault (env 5%nat)) as [err5|] eqn:H5;
    cbn [run_from bind await exec fst snd tickets events transactions hd_error json];
    try reflexivity;
    destruct (db_fault (env 6%nat)) as [err6|] eqn:H6;
    cbn [run_from bind await exec fst snd tickets events transactions hd_error json];
    reflexivity.
Qed.

Lemma ticket_conflict_fresh (t : Ticket.t) (s : Store) :
  ticket_for (Ticket.nft_mint_address t) s = None ->
  existsb (by_ticket_id (Ticket.ticket_id t)) (tickets s) = false ->
  ticket_conflict t (tickets s) = false.
Proof.
  unfold ticket_for, ticket_conflict. induction (tickets s) as [|x l IH]; cbn;
    [reflexivity|].
  destruct (by_mint (Ticket.nft_mint_address t) x) eqn:Hm; [discriminate|].
  destruct (by_ticket_id (Ticket.ticket_id t) x) eqn:Hi; [discriminate|].
  cbn. exact IH.
Qed.

(** C1. recordMint is idempotent in the asset identifier.  Where a ticket row
    for the asset exists the call mutates nothing, and answers success as soon
    as the request is well formed and the lookup is answered.  A first call
    for an asset that has no row yet, whose calls are all answered, records
    the ticket and takes one off the counter of the event; the same call again
    then changes nothing: after the two calls there is exactly one ticket row
    for the asset and available_tickets is one lower than before, not two. *)
Theorem record_mint_idempotent (s : Store) (req : MintSuccessRequest) :
  unique_mints s ->
  let mint := value (m_nftMintAddress req) in
  let eventId := value (m_eventId req) in
  (forall env t,
     ticket_for mint s = Some t ->
     snd (run env (mint_success req) s) = s
     /\ (valid_mint req = true -> no_fault (env 0%nat) ->
         fst (run env (mint_success req) s) = already_processed))
  /\ (forall env1 env2,
        let r1 := fst (run env1 (mint_success req) s) in
        let s1 := snd (run env1 (mint_success req) s) in
        let r2 := fst (run env2 (mint_success req) s1) in
        let s2 := snd (run env2 (mint_success req) s1) in
        status r1 = 200 ->
        s2 = s1
        /\ (no_fault (env2 0%nat) -> r2 = already_processed)
        /\ List.length (filter (by_mint mint) (tickets s2)) = 1%nat
        /\ (ticket_for mint s = None -> no_fault (env1 5%nat) ->
            exists ev,
              filter (by_event_id eventId) (events s) = [ev]
              /\ events s2 = update_where (by_event_id eventId)
                   (Event.set_available (Event.available_tickets ev - 1)) (events s)))
  /\ (forall env1 env2 ev qr,
        let t := minted_ticket env1 req ev qr in
        let r1 := fst (run env1 (mint_success req) s) in
        let s1 := snd (run env1 (mint_success req) s) in
        let r2 := fst (run env2 (mint_success req) s1) in
        let s2 := snd (run env2 (mint_success req) s1) in
        valid_mint req = true ->
        ticket_for mint s = None ->
        filter (by_event_id eventId) (events s) = [ev] ->
        no_fault (env1 0%nat) ->
        qr_code (env1 1%nat) mint = Some qr ->
        no_fault (env1 2%nat) ->
        no_fault (env1 4%nat) ->
        existsb (by_ticket_id (gen_id (env1 4%nat))) (tickets s) = false ->
        no_fault (env1 5%nat) ->
        no_fault (env2 0%nat) ->
        r1 = mkResponse 200 (TicketBody recorded (Some t))
        /\ tickets s1 = tickets s ++ [t]
        /\ r2 = already_processed
        /\ s2 = s1
        /\ filter (by_mint mint) (tickets s2) = [t]
        /\ filter (by_event_id eventId) (events s2)
           = [Event.set_available (Event.available_tickets ev - 1) ev]).
Proof.
  intros Hu mint eventId.
  assert (P1 : forall s0 env t, unique_mints s0 -> ticket_for mint s0 = Some t ->
     snd (run env (mint_success req) s0) = s0
     /\ (valid_mint req = true -> no_fault (env 0%nat) ->
         fst (run env (mint_success req) s0) = already_processed)).
  { intros s0 env t Hu0 Ht. split.
    - destruct (mint_success_outcome env req s0) as [[Hs _]|(ev & qr & H)];
        [exact Hs|].
      destruct H as (_ & _ & _ & _ & Hc & _). exfalso.
      rewrite (ticket_conflict_of_ticket_for _ t s0) in Hc; [discriminate|].
      now rewrite minted_ticket_mint.
    - intros Hv Hf. unfold valid_mint in Hv. apply negb_true_iff in Hv.
      unfold run, mint_success. rewrite Hv.
      cbn [run_from bind await exec]. rewrite (ticket_lookup _ _ _ Hu0 Hf).
      fold mint. now rewrite Ht. }
  split; [intros env t; now apply P1|]. split.
  - intros env1 env2 r1 s1 r2 s2 H200. subst r2 s2.
    destruct (mint_success_outcome env1 req s) as [[Hs Hr]|(ev & qr & H)].
    + fold s1 in Hs. fold r1 in Hr. destruct (Hr H200) as (_ & Hv & t0 & Hd).
      apply db_select_data in Hd as [Hrows _].
      assert (Ht0 : ticket_for mint s = Some t0)
        by (now apply filter_singleton_find).
      rewrite Hs. destruct (P1 s env2 t0 Hu Ht0) as [Q1 Q2].
      split; [exact Q1|]. split; [now apply Q2|].
      rewrite Q1. split; [fold mint in Hrows; now rewrite Hrows|].
      intros Hn. congruence.
    + cbn zeta in H. destruct H as (Hv & _ & _ & Hev & Hc & _ & Hs1).
      fold s1 in Hs1. set (t := minted_ticket env1 req ev qr) in *.
      destruct (ticket_for_inserted s t (events_after_mint env1 req ev s)
                  (transactions_after_mint env1 req t s) Hc) as [F T].
      rewrite <- Hs1 in T.
      assert (Hu1 : unique_mints s1)
        by (rewrite Hs1; now apply unique_mints_insert).
      destruct (P1 s1 env2 t Hu1 T) as [Q1 Q2].
      split; [exact Q1|]. split; [now apply Q2|]. rewrite Q1.
      split; [rewrite Hs1; cbn [tickets];
              change (Ticket.nft_mint_address t) with mint in F; now rewrite F|].
      intros _ Hf5. apply db_select_data in Hev as [Hrows _].
      exists ev. split; [exact Hrows|].
      rewrite Hs1. cbn [events]. unfold events_after_mint. now rewrite Hf5.
  - intros env1 env2 ev qr t r1 s1 r2 s2 Hv Hnone Hev Hf0 Hq Hf2 Hf4 Hfresh Hf5 Hf0'.
    assert (Hc : ticket_conflict t (tickets s) = false)
      by (apply ticket_conflict_fresh; [exact Hnone | exact Hfresh]).
    assert (Hrun : run env1 (mint_success req) s
                   = (mkResponse 200 (TicketBody recorded (Some t)),
                      mkStore (tickets s ++ [t]) (events_after_mint env1 req ev s)
                              (transactions_after_mint env1 req t s))).
    { apply mint_success_inserts; try assumption.
      - exists PGRST116. fold mint. rewrite (ticket_lookup _ _ _ Hu Hf0).
        now rewrite Hnone.
      - unfold db_select. unfold no_fault in Hf2. fold eventId. now rewrite Hf2, Hev. }
    assert (Hr1 : r1 = mkResponse 200 (TicketBody recorded (Some t)))
      by (unfold r1; now rewrite Hrun).
    assert (Hs1 : s1 = mkStore (tickets s ++ [t]) (events_after_mint env1 req ev s)
                               (transactions_after_mint env1 req t s))
      by (unfold s1; now rewrite Hrun).
    destruct (ticket_for_inserted s t (events_after_mint env1 req ev s)
                (transactions_after_mint env1 req t s) Hc) as [F T].
    rewrite <- Hs1 in T.
    assert (Hu1 : unique_mints s1)
      by (rewrite Hs1; now apply unique_mints_insert).
    destruct (P1 s1 env2 t Hu1 T) as [Q1 Q2].
    split; [exact Hr1|]. split; [now rewrite Hs1|].
    split; [now apply Q2|]. split; [exact Q1|].
    unfold s2. rewrite Q1, Hs1. cbn [tickets events]. split.
    + rewrite filter_app.
      assert (Hno : filter (by_mint mint) (tickets s) = []).
      { unfold ticket_for in Hnone. clear -Hnone.
        induction (tickets s) as [|x l IH]; cbn in *; [reflexivity|].
        destruct (by_mint mint x); [discriminate | now apply IH]. }
      rewrite Hno. cbn [filter app].
      assert (Hm : by_mint mint t = true) by (apply by_mint_true; reflexivity).
      now rewrite Hm.
    + unfold events_after_mint. unfold no_fault in Hf5. rewrite Hf5. fold eventId.
      rewrite filter_update_where_event, Hev. cbn [map].
      assert (Hid : by_event_id eventId ev = true).
      { assert (Hin : In ev (filter (by_event_id eventId) (events s)))
          by (rewrite Hev; now left).
        now apply filter_In in Hin. }
      now rewrite Hid.
Qed.

(** C8. Fail toward "ticket exists", no rollback.  A mint confirmation whose
    insertion of the ticket row succeeds (it found no row for the asset, got
    its QR code, read the event row, and the database accepts the new row)
    answers success with that very row and leaves it in the table, whatever
    the counter update and the transaction update are answered; when one of
    these fails, its table just stays as it was. *)
Theorem mint_success_no_rollback (s : Store) (req : MintSuccessRequest) (env : nat -> Env)
    (ev : Event.t) (qr : string) :
  let mint := value (m_nftMintAddress req) in
  let t := minted_ticket env req ev qr in
  let r := fst (run env (mint_success req) s) in
  let s' := snd (run env (mint_success req) s) in
  valid_mint req = true ->
  (exists err, db_select (env 0%nat) (filter (by_mint mint) (tickets s)) = Error err) ->
  qr_code (env 1%nat) mint = Some qr ->
  db_select (env 2%nat) (filter (by_event_id (value (m_eventId req))) (events s))
  = Data ev ->
  exec (env 4%nat)
       (TicketsInsert
          (Ticket.mk_insert (value (m_eventId req)) mint
             (value (m_ownerWalletAddress req))
             ("Ticket #" ++ template_int (Event.total_tickets ev
                                          - Event.available_tickets ev + 1))%string
             "purchased" (now (env 3%nat)) (value (m_ownerWalletAddress req)) mint qr)) s
  = (Data [t], mkStore (tickets s ++ [t]) (events s) (transactions s)) ->
  r = mkResponse 200 (TicketBody recorded (Some t))
  /\ tickets s' = tickets s ++ [t]
  /\ In t (tickets s')
  /\ (db_fault (env 5%nat) <> None -> events s' = events s)
  /\ (falsy (m_transactionId req) = false -> db_fault (env 6%nat) <> None ->
      transactions s' = transactions s)
  /\ (db_fault (env 5%nat) = None ->
      events s' = update_where (by_event_id (value (m_eventId req)))
                    (Event.set_available (Event.available_tickets ev - 1)) (events s)).
Proof.
  intros mint t r s' Hv H0 Hq H2 Hins.
  assert (H4 : no_fault (env 4%nat) /\ ticket_conflict t (tickets s) = false).
  { cbn [exec] in Hins. unfold no_fault.
    destruct (db_fault (env 4%nat)); [discriminate|].
    split; [reflexivity|].
    match type of Hins with
    | (if ticket_conflict ?x ?l then _ else _) = _ =>
        change x with t in Hins; destruct (ticket_conflict t l); [discriminate|]
    end.
    reflexivity. }
  destruct H4 as [H4 Hc].
  pose proof (mint_success_inserts env req s ev qr Hv H0 Hq H2 H4 Hc) as Hrun.
  subst r s'. rewrite Hrun. cbn [fst snd tickets events transactions].
  split; [reflexivity|]. split; [reflexivity|].
  split; [apply in_or_app; right; now left|]. split; [|split].
  - unfold events_after_mint. destruct (db_fault (env 5%nat)); tauto.
  - intros Htx. unfold transactions_after_mint. rewrite Htx.
    destruct (db_fault (env 6%nat)); tauto.
  - intros H5. unfold events_after_mint. now rewrite H5.
Qed.

Lemma sold_insert (e0 : string) (s : Store) (t : Ticket.t) (es : list Event.t)
    (txs : list Transaction.t) :
  sold e0 (mkStore (tickets s ++ [t]) es txs) =
  (sold e0 s + (if (Ticket.event_id t =? e0)%string then 1 else 0))%nat.
Proof.
  unfold sold. cbn [tickets]. rewrite filter_app, length_app. cbn.
  now destruct (Ticket.event_id t =? e0).
Qed.

(** One mint confirmation: the row of an event keeps its total, and its
    counter goes down by one only together with one more ticket row of that
    event. *)
Lemma mint_success_counter_step (env : nat -> Env) (req : MintSuccessRequest)
    (s : Store) (e0 : string) (ev0 : Event.t) :
  filter (by_event_id e0) (events s) = [ev0] ->
  let s' := snd (run env (mint_success req) s) in
  exists ev',
    filter (by_event_id e0) (events s') = [ev']
    /\ Event.total_tickets ev' = Event.total_tickets ev0
    /\ ((Event.available_tickets ev' = Event.available_tickets ev0
         /\ (sold e0 s <= sold e0 s')%nat)
        \/ (Event.available_tickets ev' = Event.available_tickets ev0 - 1
            /\ sold e0 s' = S (sold e0 s))).
Proof.
  intros H0 s'.
  destruct (mint_success_outcome env req s) as [[Hs _]|(ev & qr & H)].
  - fold s' in Hs. rewrite Hs. exists ev0. repeat split; auto.
  - cbn zeta in H. destruct H as (_ & _ & _ & Hev & _ & _ & Hs). fold s' in Hs.
    apply db_select_data in Hev as [Hrows _].
    rewrite Hs, sold_insert. cbn [events]. unfold events_after_mint.
    change (Ticket.event_id (minted_ticket env req ev qr))
      with (value (m_eventId req)).
    destruct (db_fault (env 5%nat)).
    { exists ev0. split; [exact H0|]. split; [reflexivity|]. left. split; [reflexivity|].
      apply Nat.le_add_r. }
    rewrite filter_update_where_event, H0. cbn [map].
    assert (Hid : Event.event_id ev0 = e0).
    { apply by_event_id_true.
      assert (Hin : In ev0 (filter (by_event_id e0) (events s)))
        by (rewrite H0; now left).
      now apply filter_In in Hin. }
    unfold by_event_id at 1. rewrite Hid.
    destruct (String.eqb_spec e0 (value (m_eventId req))) as [Heq|Hne].
    + rewrite <- Heq in Hrows |- *. rewrite H0 in Hrows. injection Hrows as <-.
      rewrite String.eqb_refl.
      exists (Event.set_available (Event.available_tickets ev0 - 1) ev0).
      split; [reflexivity|]. split; [reflexivity|]. right.
      split; [reflexivity|]. apply Nat.add_1_r.
    + exists ev0. split; [reflexivity|]. split; [reflexivity|]. left.
      split; [reflexivity|]. apply Nat.le_add_r.
Qed.

(** C2, as the code has it. Under serialised mint confirmations the counter
    of an event that started at total_tickets never exceeds total_tickets,
    and it is below total_tickets by at most the number of ticket rows recorded
    for the event since; so it is non-negative as long as no more than
    total_tickets tickets of the event were recorded. *)
Theorem counter_bound_by_recorded (s : Store) (eventId : string) (ev : Event.t)
    (calls : list (MintSuccessRequest * (nat -> Env))) :
  filter (by_event_id eventId) (events s) = [ev] ->
  Event.available_tickets ev = Event.total_tickets ev ->
  let s' := serve_mints calls s in
  exists ev',
    filter (by_event_id eventId) (events s') = [ev']
    /\ Event.total_tickets ev' = Event.total_tickets ev
    /\ Event.available_tickets ev' <= Event.total_tickets ev'
    /\ Event.total_tickets ev' - (Z.of_nat (sold eventId s') - Z.of_nat (sold eventId s))
       <= Event.available_tickets ev'
    /\ (Z.of_nat (sold eventId s') - Z.of_nat (sold eventId s) <= Event.total_tickets ev
        -> 0 <= Event.available_tickets ev').
Proof.
  intros H0 Hfull s'.
  assert (G : forall calls s1 ev1,
    filter (by_event_id eventId) (events s1) = [ev1] ->
    exists ev',
      filter (by_event_id eventId) (events (serve_mints calls s1)) = [ev']
      /\ Event.total_tickets ev' = Event.total_tickets ev1
      /\ Event.available_tickets ev' <= Event.available_tickets ev1
      /\ Event.available_tickets ev1
         - (Z.of_nat (sold eventId (serve_mints calls s1)) - Z.of_nat (sold eventId s1))
         <= Event.available_tickets ev').
  { clear. induction calls as [|[req env] rest IH]; intros s1 ev1 H1; cbn [serve_mints].
    - exists ev1. repeat split; auto; lia.
    - destruct (mint_success_counter_step env req s1 eventId ev1 H1)
        as (ev2 & H2 & Ht & Hstep).
      destruct (IH _ _ H2) as (ev' & H' & Ht' & Hle & Hge).
      exists ev'. split; [exact H'|]. split; [congruence|].
      destruct Hstep as [[Ha Hs]|[Ha Hs]]; rewrite Ha in *; split; lia. }
  destruct (G calls s ev H0) as (ev' & H' & Ht & Hle & Hge). fold s' in H', Hge.
  exists ev'. split; [exact H'|]. split; [exact Ht|].
  rewrite Ht, <- Hfull. split; [exact Hle|]. split; [exact Hge|]. lia.
Qed.

(** The counter bound does not hold as the spec states it: with total_tickets = 1, two mint confirmations
    for two assets leave available_tickets at -1. *)
Lemma counter_goes_negative : ~ counter_bound_claim.
Proof.
  intros H.
  destruct (H (box_office 1) "event-1" (concert 1 1)
              [(mint_of "assetA" "walletX", calm "ticket-1");
               (mint_of "assetB" "walletY", calm "ticket-2")]
              eq_refl ltac:(cbn; lia) eq_refl) as (ev' & Hrow & Hlo & _).
  vm_compute in Hrow. injection Hrow as <-. apply Hlo. reflexivity.
Qed.

(** ** Transfer notifications *)

Lemma map_mint_update (sel : Ticket.t -> bool) (p : Ticket.patch) (ts : list Ticket.t) :
  map Ticket.nft_mint_address (update_where sel (Ticket.apply p) ts)
  = map Ticket.nft_mint_address ts.
Proof.
  unfold update_where. rewrite map_map. apply map_ext.
  intros t. now destruct (sel t).
Qed.

Lemma unique_mints_update (s : Store) (sel : Ticket.t -> bool) (p : Ticket.patch) :
  unique_mints s ->
  unique_mints (mkStore (update_where sel (Ticket.apply p) (tickets s))
                        (events s) (transactions s)).
Proof. unfold unique_mints. cbn [tickets]. now rewrite map_mint_update. Qed.

(** A transfer notification for the owner the ticket already has mutates
    nothing, whatever the outside world answers. *)
Lemma transfer_update_same_owner (s : Store) (req : TransferUpdateRequest)
    (env : nat -> Env) (t : Ticket.t) :
  ticket_for (value (t_nftMintAddress req)) s = Some t ->
  Ticket.owner_wallet_address t = value (t_newOwnerWalletAddress req) ->
  snd (run env (transfer_update req) s) = s.
Proof.
  intros Ht Hown. unfold run, transfer_update.
  destruct (falsy (t_nftMintAddress req) || falsy (t_newOwnerWalletAddress req)
            || falsy (t_solanaTransactionSignature req)); [reflexivity|].
  cbn [run_from bind await exec fst snd].
  destruct (db_select (env 0%nat)
              (filter (by_mint (value (t_nftMintAddress req))) (tickets s)))
    as [t0|err] eqn:H0.
  - apply db_select_data in H0 as [Hrows _].
    apply filter_singleton_find in Hrows. unfold ticket_for in Ht.
    rewrite Ht in Hrows. injection Hrows as <-.
    rewrite Hown, String.eqb_refl. reflexivity.
  - now destruct (code err =? "PGRST116").
Qed.

(** What a transfer notification served alone does, once the request is
    well formed and the lookup is answered. *)
Lemma transfer_update_alone (s : Store) (req : TransferUpdateRequest)
    (env : nat -> Env) :
  valid_transfer req = true ->
  unique_mints s ->
  no_fault (env 0%nat) ->
  let mint := value (t_nftMintAddress req) in
  let newOwner := value (t_newOwnerWalletAddress req) in
  run env (transfer_update req) s =
  match ticket_for mint s with
  | None => (mkResponse 404 (ErrorBody "Ticket not found in our records." None), s)
  | Some t =>
      if Ticket.owner_wallet_address t =? newOwner then (up_to_date, s)
      else
        match db_fault (env 2%nat) with
        | Some err => (mkResponse 500 (ErrorBody "Failed to update ticket owner."
                                                 (Some (message err))), s)
        | None =>
            (mkResponse 200 (TicketIdBody "Ticket owner updated successfully."
                                          (Ticket.ticket_id t)),
             with_tickets
               (update_where (by_ticket_id (Ticket.ticket_id t))
                  (Ticket.apply (record_owner newOwner (now (env 1%nat))))
                  (tickets s)) s)
        end
  end.
Proof.
  intros Hv Hu Hf0 mint newOwner.
  unfold valid_transfer in Hv. apply negb_true_iff in Hv.
  unfold run, transfer_update. rewrite Hv.
  cbn [run_from bind await exec]. rewrite (ticket_lookup _ _ _ Hu Hf0).
  fold mint newOwner. destruct (ticket_for mint s) as [t|]; [|reflexivity].
  destruct (Ticket.owner_wallet_address t =? newOwner); [reflexivity|].
  cbn [run_from bind await exec]. now destruct (db_fault (env 2%nat)).
Qed.

(** C5. recordTransfer: NotFound exactly when no ticket exists for the asset;
    for the owner the ticket already has, success and no change; otherwise
    the owner becomes the new owner, the status 'transferred', the
    last-transfer date the time of the call; a second call with the same new
    owner changes nothing. *)
Theorem transfer_update_contract (s : Store) (req : TransferUpdateRequest)
    (env : nat -> Env) :
  valid_transfer req = true ->
  unique_mints s ->
  no_fault (env 0%nat) ->
  let mint := value (t_nftMintAddress req) in
  let newOwner := value (t_newOwnerWalletAddress req) in
  let r := fst (run env (transfer_update req) s) in
  let s' := snd (run env (transfer_update req) s) in
  (status r = 404 <-> ticket_for mint s = None)
  /\ (forall t, ticket_for mint s = Some t ->
        (Ticket.owner_wallet_address t = newOwner -> r = up_to_date /\ s' = s)
        /\ (Ticket.owner_wallet_address t <> newOwner -> no_fault (env 2%nat) ->
            let t' := Ticket.apply (record_owner newOwner (now (env 1%nat))) t in
            r = mkResponse 200 (TicketIdBody "Ticket owner updated successfully."
                                             (Ticket.ticket_id t))
            /\ s' = with_tickets
                      (update_where (by_ticket_id (Ticket.ticket_id t))
                         (Ticket.apply (record_owner newOwner (now (env 1%nat))))
                         (tickets s)) s
            /\ ticket_for mint s' = Some t'
            /\ Ticket.owner_wallet_address t' = newOwner
            /\ Ticket.status t' = "transferred"
            /\ Ticket.last_transfer_date t' = Some (now (env 1%nat))))
  /\ (forall env2, status r = 200 -> snd (run env2 (transfer_update req) s') = s').
Proof.
  intros Hv Hu Hf0 mint newOwner r s'.
  subst r s'. rewrite (transfer_update_alone s req env Hv Hu Hf0).
  fold mint newOwner.
  destruct (ticket_for mint s) as [t|] eqn:Ht.
  2:{ cbn. split; [tauto|]. split; [intros t H; discriminate|]. discriminate. }
  destruct (String.eqb_spec (Ticket.owner_wallet_address t) newOwner) as [Heq|Hne].
  { cbn [fst snd]. split; [split; discriminate|]. split.
    - intros t0 H0. injection H0 as <-. split; [now split | tauto].
    - intros env2 _. now apply (transfer_update_same_owner s req env2 t). }
  unfold no_fault.
  destruct (db_fault (env 2%nat)) as [err|] eqn:Hf2; cbn [fst snd status].
  { split; [split; discriminate|]. split; [|discriminate].
    intros t0 H0. injection H0 as <-. split; [tauto|]. discriminate. }
  assert (Ht' : ticket_for mint
            (with_tickets
               (update_where (by_ticket_id (Ticket.ticket_id t))
                  (Ticket.apply (record_owner newOwner (now (env 1%nat))))
                  (tickets s)) s)
          = Some (Ticket.apply (record_owner newOwner (now (env 1%nat))) t))
    by (now apply ticket_for_after_update).
  split; [split; discriminate|]. split.
  - intros t0 H0. injection H0 as <-. split; [tauto|]. intros _ _.
    cbn zeta. repeat split. exact Ht'.
  - intros env2 _.
    now apply (transfer_update_same_owner _ req env2 _ Ht').
Qed.

Lemma transfer_frame_refl (t : Ticket.t) : transfer_frame t t.
Proof. now destruct t. Qed.

Lemma transfer_frame_record_owner (owner date : string) (t : Ticket.t) :
  transfer_frame t (Ticket.apply (record_owner owner date) t).
Proof. reflexivity. Qed.

Lemma transfer_frame_update (sel : Ticket.t -> bool) (owner date : string)
    (ts : list Ticket.t) :
  Forall2 transfer_frame ts
    (update_where sel (Ticket.apply (record_owner owner date)) ts).
Proof.
  induction ts as [|t l IH]; simpl; constructor; [|exact IH].
  destruct (sel t); [apply transfer_frame_record_owner | apply transfer_frame_refl].
Qed.

Lemma Forall2_transfer_frame_refl (ts : list Ticket.t) : Forall2 transfer_frame ts ts.
Proof. induction ts; constructor; [apply transfer_frame_refl | assumption]. Qed.

(** A used ticket is refused at the gate as soon as the lookup is answered. *)
Lemma verify_used_conflict (s : Store) (req : VerifyRequest) (env : nat -> Env)
    (t : Ticket.t) :
  falsy (v_nftMintAddress req) = false ->
  unique_mints s ->
  no_fault (env 0%nat) ->
  ticket_for (value (v_nftMintAddress req)) s = Some t ->
  Ticket.is_used t = true ->
  status (fst (run env (verify req) s)) = 409.
Proof.
  intros Hreq Hu Hf Ht Hused.
  rewrite (verify_alone s req env Hreq Hu Hf), Ht. cbn zeta.
  now rewrite Hused.
Qed.

(** C10. recordTransfer and the used flag: a transfer notification changes at
    most the owner, the status and the last-transfer date of ticket rows, and
    nothing else in the store; on a used ticket it replaces the status 'used'
    by 'transferred' and leaves is_used set, so that the gate still answers
    Conflict for the asset. *)
Theorem transfer_update_keeps_used (s : Store) (req : TransferUpdateRequest)
    (env : nat -> Env) :
  let mint := value (t_nftMintAddress req) in
  let newOwner := value (t_newOwnerWalletAddress req) in
  let s' := snd (run env (transfer_update req) s) in
  (Forall2 transfer_frame (tickets s) (tickets s')
   /\ events s' = events s /\ transactions s' = transactions s)
  /\ (forall t,
        valid_transfer req = true -> unique_mints s ->
        no_fault (env 0%nat) -> no_fault (env 2%nat) ->
        ticket_for mint s = Some t ->
        Ticket.is_used t = true -> Ticket.status t = "used" ->
        Ticket.owner_wallet_address t <> newOwner ->
        exists t',
          ticket_for mint s' = Some t'
          /\ Ticket.status t' = "transferred"
          /\ Ticket.is_used t' = true
          /\ forall vreq venv,
               v_nftMintAddress vreq = t_nftMintAddress req ->
               no_fault (venv 0%nat) ->
               status (fst (run venv (verify vreq) s')) = 409).
Proof.
  intros mint newOwner s'. split.
  - subst s'. unfold run, transfer_update.
    destruct (falsy (t_nftMintAddress req) || falsy (t_newOwnerWalletAddress req)
              || falsy (t_solanaTransactionSignature req)).
    { cbn. split; [apply Forall2_transfer_frame_refl | now split]. }
    run_cases;
      (split; [first [apply Forall2_transfer_frame_refl | apply transfer_frame_update]
              | now split]).
  - intros t Hv Hu Hf0 Hf2 Ht Hused Hst Hne.
    assert (Hs' : s' = with_tickets
                         (update_where (by_ticket_id (Ticket.ticket_id t))
                            (Ticket.apply (record_owner newOwner (now (env 1%nat))))
                            (tickets s)) s).
    { subst s'. rewrite (transfer_update_alone s req env Hv Hu Hf0).
      fold mint newOwner. rewrite Ht.
      apply String.eqb_neq in Hne. rewrite Hne.
      unfold no_fault in Hf2. now rewrite Hf2. }
    assert (Ht' : ticket_for mint s'
                  = Some (Ticket.apply (record_owner newOwner (now (env 1%nat))) t))
      by (rewrite Hs'; now apply ticket_for_after_update).
    exists (Ticket.apply (record_owner newOwner (now (env 1%nat))) t).
    split; [exact Ht'|]. split; [reflexivity|]. split; [exact Hused|].
    intros vreq venv Hsame Hvf.
    assert (Hu' : unique_mints s')
      by (rewrite Hs'; now apply unique_mints_update).
    unfold valid_transfer in Hv. apply negb_true_iff in Hv.
    apply orb_false_iff in Hv as [Hv _]. apply orb_false_iff in Hv as [Hv _].
    apply (verify_used_conflict s' vreq venv
             (Ticket.apply (record_owner newOwner (now (env 1%nat))) t)).
    + now rewrite Hsame.
    + exact Hu'.
    + exact Hvf.
    + rewrite Hsame. exact Ht'.
    + exact Hused.
Qed.

(** ** Upstream failures at the gate *)

(** C9, as the code has it. When the ledger call of the ownership check
    rejects, verifyTicketOwnershipOnChain answers false and the gate answers
    403 Forbidden; the ticket stays unused. *)
Theorem ledger_failure_is_forbidden (s : Store) (req : VerifyRequest)
    (env : nat -> Env) (t : Ticket.t) :
  falsy (v_nftMintAddress req) = false ->
  unique_mints s ->
  no_fault (env 0%nat) ->
  ticket_for (value (v_nftMintAddress req)) s = Some t ->
  Ticket.is_used t = false ->
  is_empty (js_or (v_ownerWalletAddress req) (Ticket.owner_wallet_address t)) = false ->
  ledger_call_fails env (value (v_nftMintAddress req)) = true ->
  status (fst (run env (verify req) s)) = 403
  /\ kind_of (fst (run env (verify req) s)) = Forbidden
  /\ snd (run env (verify req) s) = s.
Proof.
  intros Hreq Hu Hf Ht Hused Hne Hfail.
  assert (Hlive : live_owner_is env (value (v_nftMintAddress req))
                    (js_or (v_ownerWalletAddress req) (Ticket.owner_wallet_address t))
                  = false).
  { unfold live_owner_is, verify_live_owner. unfold ledger_call_fails in Hfail.
    destruct (public_key (env 1%nat) (value (v_nftMintAddress req))) as [key|];
      [|reflexivity].
    now destruct (find_by_mint (env 3%nat) key). }
  rewrite (verify_alone s req env Hreq Hu Hf), Ht. cbn zeta.
  rewrite Hused, Hne, Hlive. now repeat split.
Qed.

(** The upstream classification does not hold as the spec states it: with the ledger down, the gate answers 403 for
    an existing unused ticket, not a 5xx. *)
Lemma ledger_failure_not_5xx : ~ upstream_unavailable_claim.
Proof.
  intros H.
  specialize (H (gate (ticket_of "ticket-1" "assetA" "walletX" "purchased" false))
                (mkVerifyRequest (Some "assetA") None) (ledger_down "ticket-9")
                (ticket_of "ticket-1" "assetA" "walletX" "purchased" false)
                eq_refl).
  assert (Hu : unique_mints
                 (gate (ticket_of "ticket-1" "assetA" "walletX" "purchased" false)))
    by (repeat constructor; simpl; tauto).
  specialize (H Hu eq_refl eq_refl eq_refl eq_refl eq_refl).
  vm_compute in H. discriminate H.
Qed.

(** ** Purchase initiation *)

(** What purchase initiation does for an event row it can read: it refuses a
    quantity that is not positive and a quantity above the counter, and
    otherwise inserts one pending transaction for price times quantity and
    touches nothing else. *)
Lemma purchase_initiate_cases (s : Store) (req : PurchaseRequest) (env : nat -> Env)
    (ev : Event.t) :
  falsy (p_userWalletAddress req) = false ->
  no_fault (env 0%nat) ->
  filter (by_event_id (p_eventId req)) (events s) = [ev] ->
  is_empty (Event.candy_machine_id ev) = false ->
  let quantity := default 1%Q (p_quantity req) in
  let r := fst (run env (purchase_initiate req) s) in
  let s' := snd (run env (purchase_initiate req) s) in
  ((quantity <= 0)%Q -> status r = 400 /\ s' = s)
  /\ ((0 < quantity)%Q -> (inject_Z (Event.available_tickets ev) < quantity)%Q ->
      status r = 400 /\ s' = s)
  /\ ((0 < quantity)%Q -> (quantity <= inject_Z (Event.available_tickets ev))%Q ->
      no_fault (env 1%nat) ->
      transaction_conflict (pending_transaction env req ev) (transactions s) = false ->
      r = mkResponse 200
            (PurchaseBody initiated (Event.candy_machine_id ev) (Event.price_sol ev)
               quantity (gen_id (env 1%nat)))
      /\ s' = mkStore (tickets s) (events s)
                (transactions s ++ [pending_transaction env req ev])).
Proof.
  intros Hw Hf0 Hrows Hcm quantity r s'. subst r s'.
  unfold run, purchase_initiate, no_fault in *. rewrite Hw. fold quantity.
  unfold num_le, num_lt.
  destruct (Qle_bool quantity 0) eqn:Hq0.
  { apply Qle_bool_iff in Hq0. cbn. split; [now split|].
    split; intros Hp; exfalso; now apply (Qlt_not_le _ _ Hp). }
  assert (Hpos : ~ (quantity <= 0)%Q)
    by (intros H; apply Qle_bool_iff in H; congruence).
  cbn [run_from bind await exec]. unfold db_select. rewrite Hf0, Hrows.
  cbn [single run_from fst snd]. rewrite Hcm.
  destruct (Qle_bool quantity (inject_Z (Event.available_tickets ev))) eqn:Hqa;
    cbn [negb].
  - apply Qle_bool_iff in Hqa. cbn [run_from bind await exec].
    split; [tauto|]. split.
    { intros _ Hlt. exfalso. now apply (Qlt_not_le _ _ Hlt). }
    intros _ _ Hf1 Hc. rewrite Hf1.
    unfold pending_transaction in Hc. fold quantity in Hc. rewrite Hc.
    cbn. now split.
  - cbn. split; [tauto|]. split; [now split|].
    intros _ Hle. apply Qle_bool_iff in Hle. congruence.
Qed.

(** C6 at a quantity of one half, which is not at least 1: the request is not
    refused; it is answered 200 and a pending transaction for half the price
    is created. *)
Theorem purchase_initiate_accepts_half_a_ticket :
  let r := fst (run (calm "transaction-1") (purchase_initiate (purchase_of (1 # 2)))
                    (box_office 3)) in
  let s' := snd (run (calm "transaction-1") (purchase_initiate (purchase_of (1 # 2)))
                     (box_office 3)) in
  Qle_bool 1 (1 # 2) = false
  /\ status r = 200
  /\ transactions s' =
     [Transaction.mk "transaction-1" "event-1" "SOL" ((1 # 2) * (1 # 2))%Q "SOL"
                     "pending" None None].
Proof. repeat split. Qed.

(** ** The used flag under interleaved requests *)

Lemma keeps_latch_refl (t : Ticket.t) : keeps_latch t t.
Proof. unfold keeps_latch. tauto. Qed.

Lemma keeps_latch_trans (a b c : Ticket.t) :
  keeps_latch a b -> keeps_latch b c -> keeps_latch a c.
Proof. unfold keeps_latch. intros (?&?&?) (?&?&?). repeat split; try congruence; auto. Qed.

Lemma Forall2_keeps_latch_refl (ts : list Ticket.t) : Forall2 keeps_latch ts ts.
Proof. induction ts; constructor; [apply keeps_latch_refl | assumption]. Qed.

Lemma evolves_refl (s : Store) : evolves s s.
Proof.
  exists (tickets s), []. split; [now rewrite app_nil_r|].
  apply Forall2_keeps_latch_refl.
Qed.

Lemma Forall2_keeps_latch_trans (l1 l2 l3 : list Ticket.t) :
  Forall2 keeps_latch l1 l2 -> Forall2 keeps_latch l2 l3 -> Forall2 keeps_latch l1 l3.
Proof.
  intros H. revert l3. induction H as [|a b l1 l2 Hab _ IH]; intros l3 H3.
  - inversion H3; constructor.
  - inversion H3 as [|b' c l2' l3' Hbc Hrest]; subst. constructor.
    + now apply (keeps_latch_trans a b c).
    + now apply IH.
Qed.

Lemma evolves_trans (s1 s2 s3 : Store) : evolves s1 s2 -> evolves s2 s3 -> evolves s1 s3.
Proof.
  intros (k1 & a1 & E1 & F1) (k2 & a2 & E2 & F2).
  rewrite E1 in F2. apply Forall2_app_inv_l in F2 as (k2a & k2b & Fa & Fb & ->).
  exists k2a, (k2b ++ a2). split; [now rewrite E2, app_assoc|].
  now apply (Forall2_keeps_latch_trans _ k1 _).
Qed.

Lemma evolves_same_tickets (s s' : Store) : tickets s' = tickets s -> evolves s s'.
Proof.
  intros H. exists (tickets s), []. split; [now rewrite app_nil_r|].
  apply Forall2_keeps_latch_refl.
Qed.

Lemma keeps_latch_update (sel : Ticket.t -> bool) (p : Ticket.patch) (ts : list Ticket.t) :
  Ticket.p_is_used p <> Some false ->
  Forall2 keeps_latch ts (update_where sel (Ticket.apply p) ts).
Proof.
  intros Hp. induction ts as [|t l IH]; simpl; constructor; [|exact IH].
  destruct (sel t); [|apply keeps_latch_refl].
  unfold keeps_latch. cbn. repeat split.
  destruct (Ticket.p_is_used p) as [[|]|]; cbn; auto; congruence.
Qed.

(** No call of a request clears the used flag of a row, removes a row or
    moves it to another asset. *)
Lemma exec_evolves (e : Env) {A} (c : Cmd A) (s : Store) :
  safe_cmd c -> evolves s (snd (exec e c s)).
Proof.
  destruct c; cbn [safe_cmd exec]; intros Hsafe;
    try (apply evolves_same_tickets; reflexivity);
    destruct (db_fault e); try (apply evolves_same_tickets; reflexivity).
  - match goal with |- context [if ?b then _ else _] => destruct b end;
      [apply evolves_same_tickets; reflexivity|].
    cbn [snd]. eexists (tickets s), _. cbn [tickets].
    split; [reflexivity | apply Forall2_keeps_latch_refl].
  - cbn [snd]. eexists _, []. cbn [tickets].
    split; [now rewrite app_nil_r | now apply keeps_latch_update].
  - match goal with |- context [if ?b then _ else _] => destruct b end;
      apply evolves_same_tickets; reflexivity.
Qed.

(** The unique index on the asset identifier holds after every call. *)
Lemma exec_unique_mints (e : Env) {A} (c : Cmd A) (s : Store) :
  unique_mints s -> unique_mints (snd (exec e c s)).
Proof.
  intros Hu. destruct c; cbn [exec]; try exact Hu;
    destruct (db_fault e); try exact Hu.
  - match goal with |- context [if ?b then _ else _] => destruct b eqn:Hc end;
      [exact Hu|]. cbn [snd]. now apply unique_mints_insert.
  - cbn [snd]. now apply unique_mints_update.
  - match goal with |- context [if ?b then _ else _] => destruct b end; exact Hu.
Qed.

Ltac safe_cases :=
  repeat (cbn [safe_prog safe_cmd bind await json internal_error];
          match goal with
          | |- True => exact I
          | |- _ /\ _ => split
          | |- forall _, _ => intro
          | |- _ <> _ => discriminate
          | |- safe_prog (match ?x with _ => _ end) => destruct x
          | |- safe_prog _ => break_match
          end).

(** The handlers only ever set the used flag. *)
Lemma handler_safe (q : Request) : safe_prog (handler q).
Proof.
  destruct q as [req|req|req|req]; cbn [handler].
  - unfold verify, verifyTicketOwnershipOnChain. safe_cases.
  - unfold mint_success, generateQrCodeDataUrl. safe_cases.
  - unfold transfer_update. safe_cases.
  - unfold purchase_initiate. safe_cases.
Qed.

Lemma in_flight_safe (p : Prog Response) : in_flight p -> safe_prog p.
Proof.
  induction 1 as [q|A c k a _ IH]; [apply handler_safe|].
  cbn [safe_prog] in IH. apply IH.
Qed.

Lemma pool_step_invariant cfg cfg' :
  pool_step cfg cfg' ->
  Forall in_flight (snd cfg) ->
  Forall in_flight (snd cfg')
  /\ evolves (fst cfg) (fst cfg')
  /\ (unique_mints (fst cfg) -> unique_mints (fst cfg')).
Proof.
  intros Hstep. destruct Hstep as [s pool q|s before after A c k e|s before after r];
    cbn [fst snd]; intros Hpool.
  - split; [|split; [apply evolves_refl | tauto]].
    constructor; [apply in_flight_arrived | assumption].
  - apply Forall_app in Hpool as [Hb Ha].
    inversion Ha as [|p l Hp Hl]; subst.
    split; [|split].
    + apply Forall_app. split; [assumption|].
      constructor; [|assumption]. now apply (in_flight_resumed c k).
    + apply exec_evolves. apply in_flight_safe in Hp. cbn [safe_prog] in Hp. tauto.
    + apply exec_unique_mints.
  - split; [|split; [apply evolves_refl | tauto]].
    apply Forall_app in Hpool as [Hb Ha]. apply Forall_app.
    split; [assumption|]. now inversion Ha.
Qed.

Lemma pool_steps_invariant cfg cfg' :
  pool_steps cfg cfg' ->
  Forall in_flight (snd cfg) ->
  Forall in_flight (snd cfg')
  /\ evolves (fst cfg) (fst cfg')
  /\ (unique_mints (fst cfg) -> unique_mints (fst cfg')).
Proof.
  induction 1 as [cfg|cfg cfg1 cfg2 Hstep _ IH]; intros Hpool.
  - split; [assumption|]. split; [apply evolves_refl | tauto].
  - destruct (pool_step_invariant _ _ Hstep Hpool) as (H1 & H2 & H3).
    destruct (IH H1) as (H4 & H5 & H6).
    split; [assumption|]. split; [now apply (evolves_trans _ (fst cfg1)) | tauto].
Qed.

Lemma others_invariant (s s' : Store) :
  others s s' -> evolves s s' /\ (unique_mints s -> unique_mints s').
Proof.
  intros (pool & pool' & Hpool & Hsteps).
  destruct (pool_steps_invariant _ _ Hsteps Hpool) as (_ & H1 & H2).
  now split.
Qed.

Lemma Forall2_keeps_latch_in (l l' : list Ticket.t) (t : Ticket.t) :
  Forall2 keeps_latch l l' -> In t l -> exists t', In t' l' /\ keeps_latch t t'.
Proof.
  induction 1 as [|a b l l' Hab _ IH]; intros Hin; [contradiction|].
  destruct Hin as [->|Hin].
  - exists b. split; [now left | assumption].
  - destruct (IH Hin) as (t' & H1 & H2). exists t'. split; [now right | assumption].
Qed.

Lemma evolves_in (s s' : Store) (t : Ticket.t) :
  evolves s s' -> In t (tickets s) ->
  exists t', In t' (tickets s') /\ keeps_latch t t'.
Proof.
  intros (kept & added & E & F) Hin.
  destruct (Forall2_keeps_latch_in _ _ t F Hin) as (t' & H1 & H2).
  exists t'. split; [|assumption]. rewrite E. apply in_or_app. now left.
Qed.

Lemma Forall2_keeps_latch_nth (l l' : list Ticket.t) (i : nat) (t : Ticket.t) :
  Forall2 keeps_latch l l' -> nth_error l i = Some t ->
  exists t', nth_error l' i = Some t' /\ keeps_latch t t'.
Proof.
  intros H. revert i. induction H as [|a b l l' Hab _ IH]; intros i Hi.
  - now destruct i.
  - destruct i as [|i]; cbn in *.
    + injection Hi as <-. now exists b.
    + now apply IH.
Qed.

Lemma evolves_nth (s s' : Store) (i : nat) (t : Ticket.t) :
  evolves s s' -> nth_error (tickets s) i = Some t ->
  exists t', nth_error (tickets s') i = Some t' /\ keeps_latch t t'.
Proof.
  intros (kept & added & E & F) Hi.
  destruct (Forall2_keeps_latch_nth _ _ i t F Hi) as (t' & H1 & H2).
  exists t'. split; [|assumption]. rewrite E, nth_error_app1; [assumption|].
  apply nth_error_Some. congruence.
Qed.

Lemma used_asset_evolves (m : string) (s s' : Store) :
  evolves s s' -> used_asset m s -> used_asset m s'.
Proof.
  intros Hev (t & Hin & Hm & Hu).
  destruct (evolves_in s s' t Hev Hin) as (t' & Hin' & _ & Hm' & Hu').
  exists t'. split; [assumption|]. split; [congruence | auto].
Qed.

Lemma find_unique_mint (m : string) (ts : list Ticket.t) (t : Ticket.t) :
  NoDup (map Ticket.nft_mint_address ts) ->
  In t ts -> Ticket.nft_mint_address t = m ->
  find (by_mint m) ts = Some t.
Proof.
  induction ts as [|x l IH]; simpl; intros Hnd Hin Hm; [contradiction|].
  inversion Hnd as [|y l' Hnotin Hnd']; subst y l'.
  destruct Hin as [->|Hin].
  - apply by_mint_true in Hm. now rewrite Hm.
  - destruct (by_mint m x) eqn:E; [|now apply IH].
    exfalso. apply by_mint_true in E. apply Hnotin.
    rewrite E, <- Hm. now apply in_map.
Qed.

Lemma used_ticket_for (m : string) (s : Store) :
  unique_mints s -> used_asset m s ->
  exists t, ticket_for m s = Some t /\ Ticket.is_used t = true.
Proof.
  intros Hu (t & Hin & Hm & Hused). exists t. split; [|assumption].
  now apply find_unique_mint.
Qed.

(** The update of the gate sets the flag of every row of the ticket. *)
Lemma mark_used_in (s : Store) (e : Env) (id date : string) (t : Ticket.t) :
  db_fault e = None -> In t (tickets s) -> Ticket.ticket_id t = id ->
  used_asset (Ticket.nft_mint_address t)
    (snd (exec e (TicketsUpdateById id
                    (Ticket.mk_patch None (Some "used") (Some true) None (Some date))) s)).
Proof.
  intros Hf Hin Hid. cbn [exec]. rewrite Hf. cbn [snd].
  exists (Ticket.apply (Ticket.mk_patch None (Some "used") (Some true) None (Some date)) t).
  split; [|now split]. cbn [tickets]. unfold update_where.
  apply in_map_iff. exists t. split; [|assumption].
  unfold by_ticket_id. now rewrite Hid, String.eqb_refl.
Qed.

(** The row of a ticket stays in the table, for the same asset, whatever the
    other requests do. *)
Lemma has_ticket_others (id m : string) (s s' : Store) :
  others s s' ->
  (exists t, In t (tickets s) /\ Ticket.ticket_id t = id
             /\ Ticket.nft_mint_address t = m) ->
  exists t, In t (tickets s') /\ Ticket.ticket_id t = id
            /\ Ticket.nft_mint_address t = m.
Proof.
  intros Ho (t & Hin & Hid & Hm). apply others_invariant in Ho as [Hev _].
  destruct (evolves_in s s' t Hev Hin) as (t' & Hin' & Hid' & Hm' & _).
  exists t'. split; [assumption|]. split; congruence.
Qed.

(** One step of a request served among others, found in hypothesis [H]; a
    fact [Hrow] about a ticket row is carried along what the others do. *)
Ltac irun_step H Hrow :=
  cbn [irun bind await exec fst snd json internal_error] in H;
  lazymatch type of H with
  | False => contradiction
  | _ = _ /\ _ = _ /\ _ = _ => destruct H as (? & ? & ?)
  | match ?es with [] => False | _ :: _ => _ end =>
      destruct es as [|? ?]; [contradiction|]
  | exists _, _ =>
      let s := fresh "s" in
      let R := fresh "R" in
      destruct H as (s & R & H);
      try (apply (has_ticket_others _ _ _ _ R) in Hrow)
  | irun _ (match ?x with _ => _ end) _ _ _ _ => destruct x eqn:?
  | context [match ?x with _ => _ end] =>
      lazymatch x with
      | context [match _ with _ => _ end] => fail
      | _ => destruct x eqn:?
      end
  end.

Lemma others_refl (s : Store) : others s s.
Proof. exists [], []. split; [constructor | apply pool_stay]. Qed.

(** Serving a request alone is one of the ways of serving it among others:
    the others do nothing meanwhile. *)
Lemma serial_is_interleaving {R} (env : nat -> Env) (p : Prog R) (n : nat) (s : Store) :
  irun others p s (answers_from env n p s)
       (fst (run_from env n p s)) (snd (run_from env n p s)).
Proof.
  revert n s. induction p as [x|A c k IH]; intros n s; cbn [irun answers_from run_from].
  - now repeat split.
  - exists s. split; [apply others_refl|].
    destruct (exec (env n) c s) as [a s1] eqn:E. cbn [fst snd]. apply IH.
Qed.

(** A gate request that answers success, served among other requests, leaves
    the asset used. *)
Lemma verify_success_marks_used (req : VerifyRequest) (s : Store) (es : list Env)
    (r : Response) (s' : Store) :
  irun others (verify req) s es r s' -> status r = 200 ->
  falsy (v_nftMintAddress req) = false
  /\ used_asset (value (v_nftMintAddress req)) s'.
Proof.
  intros H H200. unfold verify, verifyTicketOwnershipOnChain in H.
  destruct (falsy (v_nftMintAddress req)) eqn:Hreq.
  { irun_step H H200. subst r. discriminate. }
  split; [reflexivity|].
  irun_step H H200. irun_step H H200.
  cbn [exec fst snd] in H.
  destruct (db_select e (filter (by_mint (value (v_nftMintAddress req))) (tickets s0)))
    as [t|err] eqn:Hsel.
  2:{ repeat irun_step H H200; subst r; discriminate. }
  apply db_select_data in Hsel as [Hrows _].
  assert (Hrow : exists t', In t' (tickets s0) /\ Ticket.ticket_id t' = Ticket.ticket_id t
                  /\ Ticket.nft_mint_address t' = value (v_nftMintAddress req)).
  { exists t. destruct (ticket_for_mint (value (v_nftMintAddress req)) s0 t) as [Hin Hm].
    - unfold ticket_for. now apply filter_singleton_find.
    - now repeat split. }
  clear Hrows R.
  repeat irun_step H Hrow; subst; try discriminate.
  destruct (db_fault e4) eqn:Hf; [discriminate|].
  destruct Hrow as (t0 & Hin & Hid & Hm). rewrite <- Hm.
  pose proof (mark_used_in s8 e4 (Ticket.ticket_id t) (now e3) t0 Hf Hin Hid) as M.
  cbn [exec] in M. rewrite Hf in M. exact M.
Qed.

Lemma irun_unique_mints {R} (p : Prog R) (s : Store) (es : list Env) (r : R)
    (s' : Store) :
  irun others p s es r s' -> unique_mints s -> unique_mints s'.
Proof.
  revert s es. induction p as [x|A c k IH]; intros s es H Hu; cbn [irun] in H.
  - destruct H as (_ & _ & ->). exact Hu.
  - destruct es as [|e rest]; [contradiction|]. destruct H as (s1 & Ho & H).
    apply others_invariant in Ho as [_ Hu1].
    apply (IH _ _ _ H). apply exec_unique_mints. auto.
Qed.

(** A gate request for a used asset, served among other requests, never
    answers success, and answers Conflict when its lookup is answered. *)
Lemma verify_used_refused (req : VerifyRequest) (s : Store) (es : list Env)
    (r : Response) (s' : Store) :
  falsy (v_nftMintAddress req) = false ->
  unique_mints s ->
  used_asset (value (v_nftMintAddress req)) s ->
  irun others (verify req) s es r s' ->
  status r <> 200
  /\ exists e rest, es = e :: rest /\ (no_fault e -> status r = 409).
Proof.
  intros Hreq Hu Hused H. unfold verify in H. rewrite Hreq in H.
  cbn [irun bind await] in H. destruct es as [|e rest]; [contradiction|].
  destruct H as (s1 & R & H). apply others_invariant in R as [Hev Hu1].
  specialize (Hu1 Hu). apply (used_asset_evolves _ _ _ Hev) in Hused.
  destruct (used_ticket_for _ _ Hu1 Hused) as (t & Ht & Htu).
  cbn [exec fst snd] in H. unfold db_select in H.
  rewrite (filter_by_mint_unique _ _ Hu1) in H. unfold ticket_for in Ht.
  rewrite Ht in H. cbn [single] in H.
  destruct (db_fault e) as [err|] eqn:Hf.
  - destruct (code err =? "PGRST116"); cbn in H; destruct H as (_ & <- & _);
      (split; [discriminate|]); exists e, rest; (split; [reflexivity|]);
      unfold no_fault; congruence.
  - rewrite Htu in H. cbn in H. destruct H as (_ & <- & _).
    split; [discriminate|]. exists e, rest. now split.
Qed.

(** C4. The used flag is a one-way latch.  However the calls of mint
    confirmations, transfer notifications, purchase initiations and gate
    requests interleave, every ticket row stays in place for the same asset
    with its used flag not cleared; and once a gate request has answered
    success for an asset, no later gate request for that asset, whatever owner
    it asserts and whatever runs in between, answers success: it answers
    Conflict as soon as its lookup is answered. *)
Theorem used_latch :
  (forall s pool s' pool',
     Forall in_flight pool -> pool_steps (s, pool) (s', pool') ->
     forall i t,
       nth_error (tickets s) i = Some t -> Ticket.is_used t = true ->
       exists t',
         nth_error (tickets s') i = Some t'
         /\ Ticket.ticket_id t' = Ticket.ticket_id t
         /\ Ticket.nft_mint_address t' = Ticket.nft_mint_address t
         /\ Ticket.is_used t' = true)
  /\ (forall s req es r s',
        unique_mints s ->
        irun others (verify req) s es r s' -> status r = 200 ->
        forall s1 req2 es2 r2 s2,
          others s' s1 ->
          v_nftMintAddress req2 = v_nftMintAddress req ->
          irun others (verify req2) s1 es2 r2 s2 ->
          status r2 <> 200
          /\ exists e rest, es2 = e :: rest /\ (no_fault e -> status r2 = 409)).
Proof.
  split.
  - intros s pool s' pool' Hpool Hsteps i t Hi Hused.
    destruct (pool_steps_invariant _ _ Hsteps Hpool) as (_ & Hev & _).
    cbn [fst] in Hev.
    destruct (evolves_nth s s' i t Hev Hi) as (t' & Hi' & Hid & Hm & Hu).
    exists t'. auto.
  - intros s req es r s' Hu Hrun H200 s1 req2 es2 r2 s2 Hothers Hsame Hrun2.
    destruct (verify_success_marks_used req s es r s' Hrun H200) as [Hreq Hused].
    assert (Hu' : unique_mints s').
    { now apply (irun_unique_mints (verify req) s es r s' Hrun). }
    apply others_invariant in Hothers as [Hev Hu1].
    apply (verify_used_refused req2 s1 es2 r2 s2).
    + now rewrite Hsame.
    + auto.
    + rewrite Hsame. now apply (used_asset_evolves _ s').
    + exact Hrun2.
Qed.

(** ** The theorems at work on the fixtures *)

Lemma unique_mints_gate (t : Ticket.t) : unique_mints (gate t).
Proof. repeat constructor. simpl. tauto. Qed.

Lemma record_mint_idempotent_witness :
  let s := box_office 3 in
  let req := mint_of "assetA" "walletX" in
  let s1 := snd (run (calm "ticket-1") (mint_success req) s) in
  let s2 := snd (run (calm "ticket-2") (mint_success req) s1) in
  unique_mints s
  /\ ticket_for "assetA" s = None
  /\ filter (by_event_id "event-1") (events s) = [concert 3 3]
  /\ List.length (tickets s2) = 1%nat
  /\ List.length (filter (by_mint "assetA") (tickets s2)) = 1%nat
  /\ filter (by_event_id "event-1") (events s2) = [concert 3 2]
  /\ unique_mints (gate ticketA)
  /\ snd (run (calm "ticket-2") (mint_success req) (gate ticketA)) = gate ticketA
  /\ fst (run (calm "ticket-2") (mint_success req) (gate ticketA)) = already_processed.
Proof.
  intros s req s1 s2.
  assert (Hu : unique_mints s) by constructor.
  split; [exact Hu|]. split; [reflexivity|]. split; [reflexivity|].
  destruct (proj2 (proj2 (record_mint_idempotent s req Hu))
                  (calm "ticket-1") (calm "ticket-2") (concert 3 3)
                  "data:image/png;base64,assetA"
                  eq_refl eq_refl eq_refl eq_refl eq_refl eq_refl eq_refl eq_refl
                  eq_refl eq_refl)
    as (_ & Hs1 & _ & Hs2 & Hone & Hev).
  fold s1 in Hs1, Hs2. fold s2 in Hs2, Hone, Hev.
  split; [rewrite Hs2, Hs1; reflexivity|].
  split; [exact (f_equal (@List.length Ticket.t) Hone)|].
  split; [exact Hev|].
  split; [apply unique_mints_gate|].
  destruct (proj1 (record_mint_idempotent (gate ticketA) req
                     (unique_mints_gate ticketA))
                  (calm "ticket-2") ticketA eq_refl) as [H1 H2].
  split; [exact H1 | apply H2; reflexivity].
Defined.

Lemma counter_bound_by_recorded_witness :
  filter (by_event_id "event-1") (events (box_office 1)) = [concert 1 1]
  /\ Event.available_tickets (concert 1 1) = Event.total_tickets (concert 1 1)
  /\ exists ev',
       filter (by_event_id "event-1")
         (events (serve_mints [(mint_of "assetA" "walletX", calm "ticket-1")]
                    (box_office 1))) = [ev']
       /\ Event.available_tickets ev' <= Event.total_tickets ev'.
Proof.
  split; [reflexivity|]. split; [reflexivity|].
  destruct (counter_bound_by_recorded (box_office 1) "event-1" (concert 1 1)
              [(mint_of "assetA" "walletX", calm "ticket-1")] eq_refl eq_refl)
    as (ev' & H1 & _ & H2 & _).
  exists ev'. split; [exact H1 | exact H2].
Defined.

Lemma verify_contract_witness :
  let resold := fun _ : nat => world "ticket-9" (held_by "walletZ") in
  let req := verify_of "assetA" (Some "walletZ") in
  falsy (v_nftMintAddress req) = false
  /\ unique_mints (gate ticketA)
  /\ no_fault (calm "ticket-9" 0%nat)
  /\ Ticket.owner_wallet_address ticketA = "walletX"
  /\ fst (run resold (verify req) (gate ticketA))
     = mkResponse 200
         (TicketIdBody "Ticket successfully verified and marked as used." "ticket-1")
  /\ status (fst (run (calm "ticket-9") (verify req) (gate ticketA))) = 403
  /\ fst (run (calm "ticket-9") (verify (verify_of "assetA" None)) (gate ticketA))
     = mkResponse 200
         (TicketIdBody "Ticket successfully verified and marked as used." "ticket-1").
Proof.
  intros resold req.
  split; [reflexivity|]. split; [apply unique_mints_gate|]. split; [reflexivity|].
  split; [reflexivity|].
  destruct (verify_contract (gate ticketA) req resold
              eq_refl (unique_mints_gate ticketA) eq_refl) as [_ H].
  destruct (H ticketA eq_refl) as [_ H1].
  destruct (H1 eq_refl) as [Hasserted _].
  destruct (Hasserted "walletZ" eq_refl eq_refl) as [_ H200].
  split; [exact (proj1 (H200 eq_refl eq_refl))|].
  destruct (verify_contract (gate ticketA) req (calm "ticket-9")
              eq_refl (unique_mints_gate ticketA) eq_refl) as [_ H'].
  destruct (H' ticketA eq_refl) as [_ H1'].
  destruct (H1' eq_refl) as [Hasserted' _].
  destruct (Hasserted' "walletZ" eq_refl eq_refl) as [H403 _].
  split; [exact (proj1 (H403 eq_refl))|].
  destruct (verify_contract (gate ticketA) (verify_of "assetA" None) (calm "ticket-9")
              eq_refl (unique_mints_gate ticketA) eq_refl) as [_ H''].
  destruct (H'' ticketA eq_refl) as [_ H1''].
  destruct (H1'' eq_refl) as (_ & Hstored & _).
  destruct (Hstored eq_refl eq_refl) as [_ H200'].
  exact (proj1 (H200' eq_refl eq_refl)).
Defined.

Lemma used_latch_witness :
  let w := world "ticket-9" (held_by "walletX") in
  let r := mkResponse 200
             (TicketIdBody "Ticket successfully verified and marked as used." "ticket-1") in
  let s' := gate (Ticket.apply (mark_used (now w)) ticketA) in
  let r2 := mkResponse 409 (ErrorBody "Ticket has already been used." None) in
  unique_mints (gate ticketA)
  /\ irun others (verify (verify_of "assetA" None)) (gate ticketA) [w; w; w; w; w; w] r s'
  /\ status r = 200
  /\ irun others (verify (verify_of "assetA" (Some "walletZ"))) s' [w] r2 s'
  /\ status r2 <> 200.
Proof.
  intros w r s' r2.
  assert (H1 : irun others (verify (verify_of "assetA" None)) (gate ticketA)
                 [w; w; w; w; w; w] r s').
  { cbn. repeat (eexists; split; [apply others_refl|]). cbn. repeat split. }
  assert (H2 : irun others (verify (verify_of "assetA" (Some "walletZ"))) s' [w] r2 s').
  { cbn. eexists. split; [apply others_refl|]. cbn. repeat split. }
  split; [apply unique_mints_gate|]. split; [exact H1|]. split; [reflexivity|].
  split; [exact H2|].
  exact (proj1 (proj2 used_latch (gate ticketA) (verify_of "assetA" None)
                  [w; w; w; w; w; w] r s' (unique_mints_gate ticketA) H1 eq_refl
                  s' (verify_of "assetA" (Some "walletZ")) [w] r2 s'
                  (others_refl s') eq_refl H2)).
Defined.

Lemma transfer_update_contract_witness :
  valid_transfer (transfer_of "assetA" "walletZ") = true
  /\ unique_mints (gate ticketA)
  /\ no_fault (calm "ticket-9" 0%nat)
  /\ ticket_for "assetA"
       (snd (run (calm "ticket-9") (transfer_update (transfer_of "assetA" "walletZ"))
                 (gate ticketA)))
     = Some (Ticket.apply (record_owner "walletZ" "2025-06-01T10:00:00.000Z") ticketA).
Proof.
  split; [reflexivity|]. split; [apply unique_mints_gate|]. split; [reflexivity|].
  destruct (transfer_update_contract (gate ticketA) (transfer_of "assetA" "walletZ")
              (calm "ticket-9") eq_refl (unique_mints_gate ticketA) eq_refl)
    as (_ & H & _).
  destruct (H ticketA eq_refl) as [_ H1].
  assert (Hne : Ticket.owner_wallet_address ticketA
                <> value (t_newOwnerWalletAddress (transfer_of "assetA" "walletZ")))
    by discriminate.
  destruct (H1 Hne eq_refl) as (_ & _ & H2 & _). exact H2.
Defined.

Lemma seat_label_formula_witness :
  let s := box_office 3 in
  let s' := snd (run (calm "ticket-1") (mint_success (mint_of "assetA" "walletX")) s) in
  tickets s' <> tickets s
  /\ exists ev t,
       filter (by_event_id "event-1") (events s) = [ev]
       /\ tickets s' = tickets s ++ [t]
       /\ Ticket.seat_info t =
          ("Ticket #" ++ template_int (Event.total_tickets ev
                                       - Event.available_tickets ev + 1))%string.
Proof.
  intros s s'.
  assert (H : tickets s' <> tickets s) by discriminate.
  split; [exact H|].
  exact (proj1 seat_label_formula s (mint_of "assetA" "walletX") (calm "ticket-1") H).
Defined.

Lemma mint_success_no_rollback_witness :
  let s := box_office 3 in
  let env := outage_from 5 "ticket-1" in
  let req := paid_mint_of "assetA" "walletX" "transaction-1" in
  let qr := "data:image/png;base64,assetA" in
  let t := minted_ticket env req (concert 3 3) qr in
  let r := fst (run env (mint_success req) s) in
  let s' := snd (run env (mint_success req) s) in
  valid_mint req = true
  /\ db_select (env 2%nat) (filter (by_event_id "event-1") (events s))
     = Data (concert 3 3)
  /\ db_fault (env 5%nat) <> None
  /\ db_fault (env 6%nat) <> None
  /\ status r = 200
  /\ tickets s' = [t]
  /\ events s' = events s
  /\ transactions s' = transactions s.
Proof.
  intros s env req qr t r s'.
  assert (H5 : db_fault (env 5%nat) <> None) by discriminate.
  assert (H6 : db_fault (env 6%nat) <> None) by discriminate.
  split; [reflexivity|]. split; [reflexivity|].
  split; [exact H5|]. split; [exact H6|].
  destruct (mint_success_no_rollback s req env (concert 3 3) qr eq_refl
              (ex_intro _ PGRST116 eq_refl) eq_refl eq_refl eq_refl)
    as (Hr & Ht & _ & He & Hx & _).
  split; [exact (f_equal status Hr)|]. split; [exact Ht|].
  split; [exact (He H5) | exact (Hx eq_refl H6)].
Defined.

Lemma ledger_failure_is_forbidden_witness :
  ledger_call_fails (ledger_down "ticket-9") "assetA" = true
  /\ status (fst (run (ledger_down "ticket-9") (verify (verify_of "assetA" None))
                      (gate ticketA))) = 403.
Proof.
  split; [reflexivity|].
  exact (proj1 (ledger_failure_is_forbidden (gate ticketA) (verify_of "assetA" None)
                  (ledger_down "ticket-9") ticketA eq_refl (unique_mints_gate ticketA)
                  eq_refl eq_refl eq_refl eq_refl eq_refl)).
Defined.

Lemma transfer_update_keeps_used_witness :
  let s := gate usedA in
  let req := transfer_of "assetA" "walletZ" in
  let s' := snd (run (calm "ticket-9") (transfer_update req) s) in
  Ticket.is_used usedA = true
  /\ Ticket.status usedA = "used"
  /\ exists t',
       ticket_for "assetA" s' = Some t'
       /\ Ticket.status t' = "transferred"
       /\ Ticket.is_used t' = true
       /\ status (fst (run (calm "ticket-9") (verify (verify_of "assetA" (Some "walletZ"))) s'))
          = 409.
Proof.
  intros s req s'. split; [reflexivity|]. split; [reflexivity|].
  assert (Hne : Ticket.owner_wallet_address usedA <> value (t_newOwnerWalletAddress req))
    by discriminate.
  destruct (proj2 (transfer_update_keeps_used s req (calm "ticket-9")) usedA
              eq_refl (unique_mints_gate usedA) eq_refl eq_refl eq_refl eq_refl eq_refl Hne)
    as (t' & H1 & H2 & H3 & H4).
  exists t'. split; [exact H1|]. split; [exact H2|]. split; [exact H3|].
  exact (H4 (verify_of "assetA" (Some "walletZ")) (calm "ticket-9") eq_refl eq_refl).
Defined.

(** ** When the lookup itself is not answered

    The mint-success handler never reads the error of its first lookup: with
    the database failing on that call it goes on as if the asset were new, and
    it is the unique index that refuses the second row.  The gate answers 500
    when its lookup fails, whatever the flag. *)

Lemma mint_success_unanswered_lookup :
  run (outage_at 0 "ticket-2") (mint_success (mint_of "assetA" "walletX")) (gate ticketA)
  = (mkResponse 500
       (ErrorBody "Failed to record new ticket."
                  (Some "duplicate key value violates unique constraint")),
     gate ticketA).
Proof. reflexivity. Qed.

Lemma verify_unanswered_lookup :
  run (outage_at 0 "ticket-2") (verify (verify_of "assetA" None)) (gate usedA)
  = (mkResponse 500
       (ErrorBody "Failed to retrieve ticket details from database."
                  (Some "terminating connection")),
     gate usedA).
Proof. reflexivity. Qed.

(** * The rest of the backend *)

(** ** Required fields *)

(** X1. A request that lacks a required field is answered 400 before anything is
    asked of the database, the QR encoder or the ledger, and the store is as
    it was. *)
Theorem missing_fields_rejected (q : Request) (env : nat -> Env) (s : Store) :
  well_formed q = false ->
  status (fst (run env (handler q) s)) = 400
  /\ snd (run env (handler q) s) = s
  /\ answers_from env 0 (handler q) s = [].
Proof.
  destruct q as [req|req|req|req]; cbn [well_formed handler]; intros H.
  - unfold valid_verify in H. apply negb_false_iff in H.
    unfold run, verify. rewrite H. now cbn.
  - unfold valid_mint in H. apply negb_false_iff in H.
    unfold run, mint_success. rewrite H. now cbn.
  - unfold valid_transfer in H. apply negb_false_iff in H.
    unfold run, transfer_update. rewrite H. now cbn.
  - unfold valid_purchase in H. unfold run, purchase_initiate.
    destruct (falsy (p_userWalletAddress req)); [now cbn|].
    cbn [negb andb] in H. apply negb_false_iff in H. rewrite H. now cbn.
Qed.

Lemma missing_fields_rejected_witness :
  well_formed (Verify (mkVerifyRequest None (Some "walletX"))) = false
  /\ status (fst (run (calm "ticket-9")
                      (handler (Verify (mkVerifyRequest None (Some "walletX"))))
                      (gate ticketA))) = 400.
Proof.
  split; [reflexivity|].
  exact (proj1 (missing_fields_rejected (Verify (mkVerifyRequest None (Some "walletX")))
                  (calm "ticket-9") (gate ticketA) eq_refl)).
Defined.

(** ** The gate changes nothing unless it lets in *)

Lemma consume_frame_refl (t : Ticket.t) : consume_frame t t.
Proof. split; [now destruct t | now left]. Qed.

Lemma Forall2_consume_frame_refl (ts : list Ticket.t) : Forall2 consume_frame ts ts.
Proof. induction ts; constructor; [apply consume_frame_refl | assumption]. Qed.

Lemma consume_frame_update (sel : Ticket.t -> bool) (date : string) (ts : list Ticket.t) :
  Forall2 consume_frame ts
    (update_where sel
       (Ticket.apply (Ticket.mk_patch None (Some "used") (Some true) None (Some date))) ts).
Proof.
  induction ts as [|t l IH]; simpl; constructor; [|exact IH].
  destruct (sel t); [|apply consume_frame_refl].
  split; [reflexivity | now right].
Qed.

(** X2. Whatever the database and the ledger answer, a gate request that is not
    answered 200 leaves the store as it was; one that is answered 200 leaves
    events and transactions as they were and changes ticket rows at most in
    their status, used flag and update date: the stored owner is never
    corrected at the gate. *)
Theorem verify_frame (req : VerifyRequest) (env : nat -> Env) (s : Store) :
  let r := fst (run env (verify req) s) in
  let s' := snd (run env (verify req) s) in
  (status r <> 200 -> s' = s)
  /\ Forall2 consume_frame (tickets s) (tickets s')
  /\ events s' = events s
  /\ transactions s' = transactions s.
Proof.
  intros r s'. subst r s'. unfold run, verify, verifyTicketOwnershipOnChain.
  destruct (falsy (v_nftMintAddress req)).
  { cbn. split; [reflexivity|]. split; [apply Forall2_consume_frame_refl | now split]. }
  run_cases;
    (split; [try reflexivity; intros H; now elim H|]);
    (split; [first [apply Forall2_consume_frame_refl | apply consume_frame_update]
            | now split]).
Qed.

Lemma verify_frame_witness :
  status (fst (run (ledger_down "ticket-9") (verify (verify_of "assetA" None))
                   (gate ticketA))) <> 200
  /\ snd (run (ledger_down "ticket-9") (verify (verify_of "assetA" None)) (gate ticketA))
     = gate ticketA.
Proof.
  assert (H : status (fst (run (ledger_down "ticket-9") (verify (verify_of "assetA" None))
                               (gate ticketA))) <> 200) by discriminate.
  split; [exact H|].
  exact (proj1 (verify_frame (verify_of "assetA" None) (ledger_down "ticket-9")
                  (gate ticketA)) H).
Defined.

(** ** What a mint confirmation touches *)

Lemma Forall2_same {A} (R : A -> A -> Prop) (l : list A) :
  (forall a, R a a) -> Forall2 R l l.
Proof. intros H. induction l; constructor; auto. Qed.

Lemma counter_frame_update (eventId : string) (ev : Event.t) (evs : list Event.t) :
  filter (by_event_id eventId) evs = [ev] ->
  Forall2 (counter_frame eventId) evs
    (update_where (by_event_id eventId)
       (Event.set_available (Event.available_tickets ev - 1)) evs).
Proof.
  intros H.
  assert (Hall : forall e, In e evs -> by_event_id eventId e = true -> e = ev).
  { intros e Hin Hb.
    assert (Hf : In e (filter (by_event_id eventId) evs)) by (apply filter_In; now split).
    rewrite H in Hf. destruct Hf as [->|[]]. reflexivity. }
  clear H. induction evs as [|e l IH]; simpl; constructor.
  - destruct (by_event_id eventId e) eqn:E; [|now left].
    right. split; [now apply by_event_id_true|].
    rewrite (Hall e (or_introl eq_refl) E). reflexivity.
  - apply IH. intros e0 Hin. apply Hall. now right.
Qed.

Lemma link_frame_update (transactionId signature ticketId : string)
    (txs : list Transaction.t) :
  Forall2 (link_frame transactionId signature ticketId) txs
    (update_where (by_transaction_id transactionId)
       (Transaction.apply (Transaction.mk_patch "successful" signature ticketId)) txs).
Proof.
  induction txs as [|x l IH]; simpl; constructor; [|exact IH].
  destruct (by_transaction_id transactionId x) eqn:E; [|now left].
  right. split; [|reflexivity]. unfold by_transaction_id in E. now apply String.eqb_eq.
Qed.

(** X3. Whatever the collaborators answer, a mint confirmation that is not
    answered 200 leaves the store as it was; otherwise it leaves every ticket
    row as it was and adds at most one, changes at most the counter of the
    event it names, by one, and changes at most the transactions that carry
    the identifier it names. *)
Theorem mint_success_frame (req : MintSuccessRequest) (env : nat -> Env) (s : Store) :
  let r := fst (run env (mint_success req) s) in
  let s' := snd (run env (mint_success req) s) in
  (status r <> 200 -> s' = s)
  /\ (exists added, tickets s' = tickets s ++ added /\ (List.length added <= 1)%nat)
  /\ Forall2 (counter_frame (value (m_eventId req))) (events s) (events s')
  /\ (falsy (m_transactionId req) = true -> transactions s' = transactions s)
  /\ exists ticketId,
       Forall2 (link_frame (value (m_transactionId req))
                           (value (m_solanaTransactionSignature req)) ticketId)
               (transactions s) (transactions s').
Proof.
  intros r s'.
  destruct (mint_success_outcome env req s) as [[Hs _]|(ev & qr & H)].
  - fold s' in Hs. rewrite Hs. split; [reflexivity|].
    split; [exists []; split; [now rewrite app_nil_r | auto]|].
    split; [apply Forall2_same; now left|]. split; [reflexivity|].
    exists EmptyString. apply Forall2_same. now left.
  - cbn zeta in H. destruct H as (_ & _ & _ & Hev & _ & Hr & Hs).
    fold s' in Hs. fold r in Hr. rewrite Hs, Hr. cbn [tickets events transactions status].
    apply db_select_data in Hev as [Hrows _].
    split; [intros H; now elim H|].
    split; [eexists; split; [reflexivity | cbn; auto]|].
    split.
    { unfold events_after_mint. destruct (db_fault (env 5%nat)).
      - apply Forall2_same. now left.
      - now apply counter_frame_update. }
    unfold transactions_after_mint. split.
    { intros Hf. now rewrite Hf. }
    exists (Ticket.ticket_id (minted_ticket env req ev qr)).
    destruct (falsy (m_transactionId req)); [apply Forall2_same; now left|].
    destruct (db_fault (env 6%nat)); [apply Forall2_same; now left|].
    apply link_frame_update.
Qed.

Lemma mint_success_frame_witness :
  status (fst (run (calm "ticket-1") (mint_success (mint_of "assetA" "walletX"))
                   (mkStore [] [] []))) <> 200
  /\ snd (run (calm "ticket-1") (mint_success (mint_of "assetA" "walletX"))
              (mkStore [] [] [])) = mkStore [] [] [].
Proof.
  assert (H : status (fst (run (calm "ticket-1") (mint_success (mint_of "assetA" "walletX"))
                               (mkStore [] [] []))) <> 200) by discriminate.
  split; [exact H|].
  exact (proj1 (mint_success_frame (mint_of "assetA" "walletX") (calm "ticket-1")
                  (mkStore [] [] [])) H).
Defined.

(** ** Transactions and mint confirmations *)

(** X4. A mint confirmation that added a ticket row and whose transaction update
    was answered has marked every transaction carrying the identifier it names
    successful and linked it to the new ticket, whatever event or status that
    transaction had; when no transaction carries the identifier, it has
    changed none, and says nothing of it. *)
Theorem mint_success_links_transaction (req : MintSuccessRequest) (env : nat -> Env)
    (s : Store) :
  let r := fst (run env (mint_success req) s) in
  let s' := snd (run env (mint_success req) s) in
  let transactionId := value (m_transactionId req) in
  tickets s' <> tickets s ->
  falsy (m_transactionId req) = false ->
  no_fault (env 6%nat) ->
  exists t,
    tickets s' = tickets s ++ [t]
    /\ r = mkResponse 200 (TicketBody recorded (Some t))
    /\ transactions s' =
       update_where (by_transaction_id transactionId)
         (linked (value (m_solanaTransactionSignature req)) (Ticket.ticket_id t))
         (transactions s)
    /\ ((forall x, In x (transactions s) -> Transaction.transaction_id x <> transactionId)
        -> transactions s' = transactions s).
Proof.
  intros r s' transactionId Hins Htx Hf.
  destruct (mint_success_outcome env req s) as [[Hs _]|(ev & qr & H)].
  - exfalso. apply Hins. fold s' in Hs. now rewrite Hs.
  - cbn zeta in H. destruct H as (_ & _ & _ & _ & _ & Hr & Hs).
    fold s' in Hs. fold r in Hr.
    exists (minted_ticket env req ev qr). rewrite Hs. cbn [tickets transactions].
    split; [reflexivity|]. split; [exact Hr|].
    unfold transactions_after_mint. rewrite Htx. unfold no_fault in Hf. rewrite Hf.
    split; [reflexivity|].
    intros Hnone. unfold update_where. rewrite <- (map_id (transactions s)) at 2.
    apply map_ext_in. intros x Hin.
    destruct (by_transaction_id (value (m_transactionId req)) x) eqn:E; [|reflexivity].
    exfalso. apply (Hnone x Hin). unfold by_transaction_id in E.
    now apply String.eqb_eq.
Qed.

Lemma mint_success_links_transaction_witness :
  let s := mkStore [] [concert 3 3]
             [Transaction.mk "transaction-1" "event-2" "UPI" (7 # 1) "SOL" "successful"
                             None None] in
  let req := paid_mint_of "assetA" "walletX" "transaction-1" in
  let s' := snd (run (calm "ticket-1") (mint_success req) s) in
  tickets s' <> tickets s
  /\ no_fault (calm "ticket-1" 6%nat)
  /\ transactions s' =
     [Transaction.mk "transaction-1" "event-2" "UPI" (7 # 1) "SOL" "successful"
                     (Some "sig-1") (Some "ticket-1")].
Proof.
  intros s req s'.
  assert (H : tickets s' <> tickets s) by discriminate.
  split; [exact H|]. split; [reflexivity|].
  destruct (mint_success_links_transaction req (calm "ticket-1") s H eq_refl eq_refl)
    as (t & Ht & _ & Htx & _).
  injection Ht as <-. exact Htx.
Defined.

(** ** Purchases *)

(** What purchase initiation served alone does, whatever is answered. *)
Lemma purchase_initiate_outcome (req : PurchaseRequest) (env : nat -> Env) (s : Store) :
  let r := fst (run env (purchase_initiate req) s) in
  let s' := snd (run env (purchase_initiate req) s) in
  (s' = s /\ status r <> 200)
  \/ (exists ev,
        valid_purchase req = true
        /\ db_select (env 0%nat) (filter (by_event_id (p_eventId req)) (events s)) = Data ev
        /\ is_empty (Event.candy_machine_id ev) = false
        /\ num_lt (inject_Z (Event.available_tickets ev)) (default 1%Q (p_quantity req))
           = false
        /\ no_fault (env 1%nat)
        /\ transaction_conflict (pending_transaction env req ev) (transactions s) = false
        /\ r = mkResponse 200
                 (PurchaseBody initiated (Event.candy_machine_id ev) (Event.price_sol ev)
                    (default 1%Q (p_quantity req)) (gen_id (env 1%nat)))
        /\ s' = mkStore (tickets s) (events s)
                  (transactions s ++ [pending_transaction env req ev])).
Proof.
  intros r s'. subst r s'.
  unfold run, purchase_initiate, valid_purchase, no_fault, pending_transaction.
  destruct (falsy (p_userWalletAddress req)) eqn:Hw.
  { left. cbn. split; [reflexivity | discriminate]. }
  destruct (num_le (default 1%Q (p_quantity req)) 0%Q) eqn:Hq.
  { left. cbn. split; [reflexivity | discriminate]. }
  cbn [run_from bind await exec fst snd negb andb].
  destruct (db_select (env 0%nat) (filter (by_event_id (p_eventId req)) (events s)))
    as [ev|err] eqn:Hev.
  2:{ left. destruct (code err =? "PGRST116"); cbn; split;
        (reflexivity || discriminate). }
  destruct (is_empty (Event.candy_machine_id ev)) eqn:Hcm.
  { left. cbn. split; [reflexivity | discriminate]. }
  destruct (num_lt (inject_Z (Event.available_tickets ev)) (default 1%Q (p_quantity req)))
    eqn:Hlt.
  { left. cbn. split; [reflexivity | discriminate]. }
  cbn [run_from bind await exec fst snd].
  destruct (db_fault (env 1%nat)) as [err|] eqn:Hf.
  { left. cbn. split; [reflexivity | discriminate]. }
  match goal with
  | |- context [if transaction_conflict ?t ?l then _ else _] =>
      destruct (transaction_conflict t l) eqn:Hc
  end.
  { left. cbn. split; [reflexivity | discriminate]. }
  right. exists ev. cbn. repeat split; assumption.
Qed.

(** X5. Whatever is answered, purchase initiation leaves tickets and events as
    they were: it reserves nothing and decrements nothing.  When it is not
    answered 200 it leaves the transactions too; when it is, it has added one
    transaction, pending, in SOL whatever the payment method, linked to no
    ticket, and it answers with the identifier of that transaction. *)
Theorem purchase_initiate_frame (req : PurchaseRequest) (env : nat -> Env) (s : Store) :
  let r := fst (run env (purchase_initiate req) s) in
  let s' := snd (run env (purchase_initiate req) s) in
  tickets s' = tickets s
  /\ events s' = events s
  /\ (status r <> 200 -> transactions s' = transactions s)
  /\ (status r = 200 ->
      exists tx,
        transactions s' = transactions s ++ [tx]
        /\ transaction_of r = Some (Transaction.transaction_id tx)
        /\ Transaction.event_id tx = p_eventId req
        /\ Transaction.status tx = "pending"
        /\ Transaction.currency tx = "SOL"
        /\ Transaction.ticket_id tx = None
        /\ Transaction.solana_transaction_signature tx = None).
Proof.
  intros r s'.
  destruct (purchase_initiate_outcome req env s) as [[Hs Hr]|(ev & H)].
  - fold s' in Hs. fold r in Hr. rewrite Hs.
    split; [reflexivity|]. split; [reflexivity|]. split; [reflexivity|].
    intros H. contradiction.
  - cbn zeta in H. destruct H as (_ & _ & _ & _ & _ & _ & Hr & Hs).
    fold s' in Hs. fold r in Hr. rewrite Hs, Hr. cbn [tickets events transactions status].
    split; [reflexivity|]. split; [reflexivity|].
    split; [intros H; now elim H|]. intros _.
    exists (pending_transaction env req ev). now repeat split.
Qed.

Lemma purchase_initiate_frame_witness :
  let r := fst (run (calm "transaction-1") (purchase_initiate (purchase_of (2 # 1)))
                    (box_office 3)) in
  let s' := snd (run (calm "transaction-1") (purchase_initiate (purchase_of (2 # 1)))
                     (box_office 3)) in
  status r = 200
  /\ exists tx, transactions s' = [tx] /\ Transaction.status tx = "pending".
Proof.
  intros r s'. split; [reflexivity|].
  destruct (proj2 (proj2 (proj2 (purchase_initiate_frame (purchase_of (2 # 1))
                                   (calm "transaction-1") (box_office 3)))) eq_refl)
    as (tx & H1 & _ & _ & H2 & _).
  exists tx. split; [exact H1 | exact H2].
Defined.

(** X6. Purchase initiation by a buyer who gives a wallet, when the lookup of the
    event is answered: a quantity that is not positive is refused with 400
    before anything is read; for a positive quantity an unknown event gives
    404, a quantity above the counter gives 400, and any other quantity, whole
    or not, gives 200 with the candy machine, the price, the quantity and the
    identifier of one new transaction, pending, in SOL, for the event and the
    payment method of the request; at a quantity of one its amount is the
    price.  Nothing is written unless the answer is 200. *)
Theorem purchase_initiate_contract (s : Store) (req : PurchaseRequest)
    (env : nat -> Env) :
  let quantity := default 1%Q (p_quantity req) in
  let r := fst (run env (purchase_initiate req) s) in
  let s' := snd (run env (purchase_initiate req) s) in
  falsy (p_userWalletAddress req) = false ->
  no_fault (env 0%nat) ->
  ((quantity <= 0)%Q -> status r = 400 /\ s' = s)
  /\ ((0 < quantity)%Q ->
      filter (by_event_id (p_eventId req)) (events s) = [] ->
      status r = 404 /\ s' = s)
  /\ (forall ev,
        (0 < quantity)%Q ->
        filter (by_event_id (p_eventId req)) (events s) = [ev] ->
        is_empty (Event.candy_machine_id ev) = false ->
        ((inject_Z (Event.available_tickets ev) < quantity)%Q ->
         status r = 400 /\ s' = s)
        /\ ((quantity <= inject_Z (Event.available_tickets ev))%Q ->
            no_fault (env 1%nat) ->
            existsb (by_transaction_id (gen_id (env 1%nat))) (transactions s) = false ->
            r = mkResponse 200
                  (PurchaseBody initiated (Event.candy_machine_id ev)
                     (Event.price_sol ev) quantity (gen_id (env 1%nat)))
            /\ exists tx,
                 s' = mkStore (tickets s) (events s) (transactions s ++ [tx])
                 /\ Transaction.transaction_id tx = gen_id (env 1%nat)
                 /\ Transaction.event_id tx = p_eventId req
                 /\ Transaction.payment_method tx = default "SOL" (p_paymentMethod req)
                 /\ Transaction.currency tx = "SOL"
                 /\ Transaction.status tx = "pending"
                 /\ Transaction.ticket_id tx = None
                 /\ Transaction.solana_transaction_signature tx = None
                 /\ ((quantity == 1)%Q ->
                     (Transaction.amount tx == Event.price_sol ev)%Q))).
Proof.
  intros quantity r s' Hw Hf0. split; [|split].
  - intros Hq. subst r s'. unfold run, purchase_initiate. rewrite Hw.
    fold quantity. unfold num_le. rewrite (proj2 (Qle_bool_iff _ _) Hq).
    cbn. now split.
  - intros Hq Hrows. subst r s'. unfold run, purchase_initiate. rewrite Hw.
    fold quantity. unfold num_le.
    destruct (Qle_bool quantity 0) eqn:E.
    { apply Qle_bool_iff in E. exfalso. now apply (Qlt_not_le _ _ Hq). }
    cbn [run_from bind await exec]. unfold db_select.
    unfold no_fault in Hf0. rewrite Hf0, Hrows. cbn. now split.
  - intros ev Hq Hrows Hcm.
    destruct (purchase_initiate_cases s req env ev Hw Hf0 Hrows Hcm) as (_ & H2 & H3).
    split; [exact (H2 Hq)|].
    intros Hle Hf1 Hfresh.
    destruct (H3 Hq Hle Hf1 Hfresh) as [Hr Hs].
    split; [exact Hr|].
    exists (pending_transaction env req ev).
    split; [exact Hs|]. repeat (split; [reflexivity|]).
    intros Hone. unfold pending_transaction. cbn [new_transaction Transaction.amount
      Transaction.i_amount]. fold quantity. rewrite Hone. apply Qmult_1_r.
Qed.

Lemma purchase_initiate_contract_witness :
  let req := purchase_of (4 # 1) in
  let one := purchase_of (1 # 1) in
  falsy (p_userWalletAddress req) = false
  /\ no_fault (calm "transaction-1" 0%nat)
  /\ filter (by_event_id (p_eventId req)) (events (box_office 3)) = [concert 3 3]
  /\ is_empty (Event.candy_machine_id (concert 3 3)) = false
  /\ status (fst (run (calm "transaction-1") (purchase_initiate req) (box_office 3))) = 400
  /\ exists tx,
       snd (run (calm "transaction-1") (purchase_initiate one) (box_office 3))
       = mkStore [] [concert 3 3] [tx]
       /\ Transaction.status tx = "pending"
       /\ (Transaction.amount tx == 1 # 2)%Q.
Proof.
  intros req one. split; [reflexivity|]. split; [reflexivity|]. split; [reflexivity|].
  split; [reflexivity|].
  destruct (purchase_initiate_contract (box_office 3) req (calm "transaction-1")
              eq_refl eq_refl) as (_ & _ & H).
  destruct (H (concert 3 3) eq_refl eq_refl eq_refl) as [H400 _].
  split; [apply H400; reflexivity|].
  destruct (purchase_initiate_contract (box_office 3) one (calm "transaction-1")
              eq_refl eq_refl) as (_ & _ & H').
  destruct (H' (concert 3 3) eq_refl eq_refl eq_refl) as [_ H200].
  destruct H200 as (_ & tx & Hs & _ & _ & _ & _ & Hst & _ & _ & Ham).
  { discriminate. }
  { reflexivity. }
  { reflexivity. }
  exists tx. split; [exact Hs|]. split; [exact Hst|]. apply Ham. reflexivity.
Defined.

Lemma update_where_fresh (id : string) (f : Transaction.t -> Transaction.t)
    (old : list Transaction.t) (new : Transaction.t) :
  Transaction.transaction_id new = id ->
  transaction_conflict new old = false ->
  update_where (by_transaction_id id) f (old ++ [new]) = old ++ [f new].
Proof.
  intros Hid Hc. unfold update_where. rewrite map_app. cbn [map].
  unfold by_transaction_id at 2. rewrite Hid, String.eqb_refl. f_equal.
  rewrite <- (map_id old) at 2. apply map_ext_in. intros x Hin.
  destruct (by_transaction_id id x) eqn:E; [|reflexivity].
  exfalso. unfold transaction_conflict in Hc.
  assert (Ht : existsb (by_transaction_id (Transaction.transaction_id new)) old = true).
  { apply existsb_exists. exists x. split; [assumption|]. now rewrite Hid. }
  congruence.
Qed.

(** X7. The purchase page, all the way: when purchase initiation is answered 200
    and the mint confirmation that the page then sends adds the ticket row and
    has its two updates answered, there is one more ticket, the counter of the
    event is one lower, and the one transaction the purchase created is now
    successful and linked to that ticket and to the signature. *)
Theorem purchase_page_flow (id wallet nft signature : string)
    (envP envM : nat -> Env) (s : Store) :
  let r1 := fst (run envP (purchase_initiate (page_purchase id wallet)) s) in
  let s1 := snd (run envP (purchase_initiate (page_purchase id wallet)) s) in
  let req := page_confirmation id wallet nft signature r1 in
  let s2 := snd (run envM (mint_success req) s1) in
  status r1 = 200 ->
  is_empty (gen_id (envP 1%nat)) = false ->
  tickets s2 <> tickets s1 ->
  no_fault (envM 5%nat) -> no_fault (envM 6%nat) ->
  exists ev tx t,
    filter (by_event_id id) (events s) = [ev]
    /\ transactions s1 = transactions s ++ [tx]
    /\ Transaction.status tx = "pending"
    /\ Transaction.amount tx = (Event.price_sol ev * 1)%Q
    /\ tickets s2 = tickets s ++ [t]
    /\ Ticket.owner_wallet_address t = wallet
    /\ events s2 = update_where (by_event_id id)
                     (Event.set_available (Event.available_tickets ev - 1)) (events s)
    /\ transactions s2 = transactions s ++ [linked signature (Ticket.ticket_id t) tx].
Proof.
  intros r1 s1 req s2 H200 Hid Hins Hf5 Hf6.
  destruct (purchase_initiate_outcome (page_purchase id wallet) envP s)
    as [[_ Hr]|(ev & H)]; [fold r1 in Hr; contradiction|].
  cbn zeta in H. destruct H as (_ & Hev & _ & _ & _ & Hc & Hr & Hs).
  fold r1 in Hr. fold s1 in Hs.
  apply db_select_data in Hev as [Hrows _]. cbn [p_eventId page_purchase] in Hrows.
  set (tx := pending_transaction envP (page_purchase id wallet) ev) in *.
  assert (Hreq : req = mkMintSuccessRequest (Some id) (Some nft) (Some wallet)
                         (Some signature) (Some (gen_id (envP 1%nat)))).
  { unfold req, page_confirmation. now rewrite Hr. }
  destruct (mint_success_outcome envM req s1) as [[Hs2 _]|(ev2 & qr & H)].
  { exfalso. apply Hins. fold s2 in Hs2. now rewrite Hs2. }
  cbn zeta in H. destruct H as (_ & _ & _ & Hev2 & _ & _ & Hs2). fold s2 in Hs2.
  apply db_select_data in Hev2 as [Hrows2 _].
  rewrite Hs in Hrows2. cbn [events] in Hrows2.
  rewrite Hreq in Hrows2. cbn [m_eventId value] in Hrows2.
  rewrite Hrows in Hrows2. injection Hrows2 as <-.
  exists ev, tx, (minted_ticket envM req ev qr).
  split; [exact Hrows|]. split; [now rewrite Hs|]. split; [reflexivity|].
  split; [reflexivity|].
  rewrite Hs2, Hs. cbn [tickets events transactions].
  split; [reflexivity|]. split; [now rewrite Hreq|].
  unfold events_after_mint, transactions_after_mint.
  unfold no_fault in Hf5, Hf6. rewrite Hf5, Hf6, Hreq.
  cbn [m_eventId m_transactionId m_solanaTransactionSignature value falsy].
  rewrite Hid. split; [reflexivity|].
  rewrite <- Hreq. now apply update_where_fresh.
Qed.

Lemma purchase_page_flow_witness :
  let s := box_office 3 in
  let r1 := fst (run (calm "transaction-1")
                     (purchase_initiate (page_purchase "event-1" "walletX")) s) in
  let s1 := snd (run (calm "transaction-1")
                     (purchase_initiate (page_purchase "event-1" "walletX")) s) in
  let req := page_confirmation "event-1" "walletX" "assetA" "sig-1" r1 in
  let s2 := snd (run (calm "ticket-1") (mint_success req) s1) in
  status r1 = 200
  /\ tickets s2 <> tickets s1
  /\ exists tx t,
       transactions s2 = [linked "sig-1" (Ticket.ticket_id t) tx]
       /\ Transaction.status tx = "pending".
Proof.
  intros s r1 s1 req s2.
  assert (H : tickets s2 <> tickets s1) by discriminate.
  split; [reflexivity|]. split; [exact H|].
  destruct (purchase_page_flow "event-1" "walletX" "assetA" "sig-1"
              (calm "transaction-1") (calm "ticket-1") s eq_refl eq_refl H eq_refl eq_refl)
    as (ev & tx & t & _ & _ & H1 & _ & _ & _ & _ & H2).
  exists tx, t. split; [exact H2 | exact H1].
Defined.

(** X8. When the mint is confirmed twice, first without a transaction and
    then with the transaction of the purchase (as the purchase page does),
    the second confirmation changes nothing: the
    transaction stays as the first confirmation left it, in particular a
    pending transaction of the purchase stays pending and unlinked. *)
Theorem second_confirmation_leaves_transaction (req1 req2 : MintSuccessRequest)
    (env1 env2 : nat -> Env) (s : Store) :
  let s1 := snd (run env1 (mint_success req1) s) in
  let r2 := fst (run env2 (mint_success req2) s1) in
  let s2 := snd (run env2 (mint_success req2) s1) in
  unique_mints s ->
  tickets s1 <> tickets s ->
  falsy (m_transactionId req1) = true ->
  m_nftMintAddress req2 = m_nftMintAddress req1 ->
  s2 = s1
  /\ transactions s2 = transactions s
  /\ (valid_mint req2 = true -> no_fault (env2 0%nat) -> r2 = already_processed).
Proof.
  intros s1 r2 s2 Hu Hins Hno Hsame.
  destruct (mint_success_outcome env1 req1 s) as [[Hs _]|(ev & qr & H)].
  { exfalso. apply Hins. fold s1 in Hs. now rewrite Hs. }
  cbn zeta in H. destruct H as (_ & _ & _ & _ & Hc & _ & Hs1). fold s1 in Hs1.
  set (t := minted_ticket env1 req1 ev qr) in *.
  destruct (ticket_for_inserted s t (events_after_mint env1 req1 ev s)
              (transactions_after_mint env1 req1 t s) Hc) as [_ T].
  rewrite <- Hs1 in T.
  assert (Hu1 : unique_mints s1) by (rewrite Hs1; now apply unique_mints_insert).
  assert (Hmint : Ticket.nft_mint_address t = value (m_nftMintAddress req2))
    by (now rewrite Hsame).
  assert (Hs2 : s2 = s1).
  { destruct (mint_success_outcome env2 req2 s1) as [[Hs _]|(ev2 & qr2 & H)];
      [exact Hs|].
    cbn zeta in H. destruct H as (_ & _ & _ & _ & Hc2 & _). exfalso.
    rewrite (ticket_conflict_of_ticket_for _ t s1) in Hc2; [discriminate|].
    rewrite minted_ticket_mint, <- Hmint. exact T. }
  split; [exact Hs2|]. split.
  - rewrite Hs2, Hs1. cbn [transactions]. unfold transactions_after_mint.
    now rewrite Hno.
  - intros Hv Hf. unfold valid_mint in Hv. apply negb_true_iff in Hv.
    subst r2. unfold run, mint_success. rewrite Hv.
    cbn [run_from bind await exec]. rewrite (ticket_lookup _ _ _ Hu1 Hf).
    rewrite <- Hmint, T. reflexivity.
Qed.

Lemma second_confirmation_leaves_transaction_witness :
  let s := snd (run (calm "transaction-1")
                    (purchase_initiate (page_purchase "event-1" "walletX"))
                    (box_office 3)) in
  let s1 := snd (run (calm "ticket-1") (mint_success (mint_of "assetA" "walletX")) s) in
  let s2 := snd (run (calm "ticket-2")
                     (mint_success (paid_mint_of "assetA" "walletX" "transaction-1")) s1) in
  unique_mints s
  /\ tickets s1 <> tickets s
  /\ map Transaction.status (transactions s2) = ["pending"].
Proof.
  intros s s1 s2.
  assert (Hu : unique_mints s) by constructor.
  assert (H : tickets s1 <> tickets s) by discriminate.
  split; [exact Hu|]. split; [exact H|].
  destruct (second_confirmation_leaves_transaction (mint_of "assetA" "walletX")
              (paid_mint_of "assetA" "walletX" "transaction-1")
              (calm "ticket-1") (calm "ticket-2") s Hu H eq_refl eq_refl)
    as (_ & Htx & _).
  exact (f_equal (map Transaction.status) Htx).
Defined.

(** ** From the mint to the gate *)

(** X9. A ticket that a mint confirmation has just recorded is found under its
    asset, owned by the wallet of the confirmation, 'purchased' and not used;
    presented at the gate while the ledger reports that wallet as the owner,
    with the lookup and the update answered, it is let in and marked used. *)
Theorem minted_ticket_is_admitted (req : MintSuccessRequest) (env : nat -> Env)
    (s : Store) (venv : nat -> Env) :
  let mint := value (m_nftMintAddress req) in
  let owner := value (m_ownerWalletAddress req) in
  let s' := snd (run env (mint_success req) s) in
  unique_mints s ->
  tickets s' <> tickets s ->
  exists t,
    ticket_for mint s' = Some t
    /\ Ticket.event_id t = value (m_eventId req)
    /\ Ticket.owner_wallet_address t = owner
    /\ Ticket.status t = "purchased"
    /\ Ticket.is_used t = false
    /\ (no_fault (venv 0%nat) -> no_fault (venv 5%nat) ->
        live_owner_is venv mint owner = true ->
        status (fst (run venv (verify (mkVerifyRequest (m_nftMintAddress req) None)) s'))
        = 200
        /\ used_asset mint
             (snd (run venv (verify (mkVerifyRequest (m_nftMintAddress req) None)) s'))).
Proof.
  intros mint owner s' Hu Hins.
  destruct (mint_success_outcome env req s) as [[Hs _]|(ev & qr & H)].
  { exfalso. apply Hins. fold s' in Hs. now rewrite Hs. }
  cbn zeta in H. destruct H as (Hv & _ & _ & _ & Hc & _ & Hs'). fold s' in Hs'.
  set (t := minted_ticket env req ev qr) in *.
  destruct (ticket_for_inserted s t (events_after_mint env req ev s)
              (transactions_after_mint env req t s) Hc) as [_ T].
  rewrite <- Hs' in T. change (Ticket.nft_mint_address t) with mint in T.
  assert (Hu' : unique_mints s') by (rewrite Hs'; now apply unique_mints_insert).
  exists t. split; [exact T|]. repeat (split; [reflexivity|]).
  intros Hf0 Hf5 Hlive.
  unfold valid_mint in Hv. apply negb_true_iff in Hv.
  apply orb_false_iff in Hv as [Hv _]. apply orb_false_iff in Hv as [Hv Hown].
  apply orb_false_iff in Hv as [_ Hm].
  assert (Hne : is_empty owner = false).
  { unfold owner. destruct (m_ownerWalletAddress req); [exact Hown | discriminate]. }
  rewrite (verify_alone s' (mkVerifyRequest (m_nftMintAddress req) None) venv Hm Hu' Hf0).
  cbn [v_nftMintAddress v_ownerWalletAddress]. fold mint. rewrite T. cbn zeta.
  change (Ticket.is_used t) with false.
  change (js_or None (Ticket.owner_wallet_address t)) with owner.
  cbv iota. rewrite Hne, Hlive. unfold no_fault in Hf5. rewrite Hf5.
  cbn [fst snd status]. split; [reflexivity|].
  exists (Ticket.apply (mark_used (now (venv 4%nat))) t).
  split; [|now split]. unfold with_tickets. cbn [tickets]. unfold update_where.
  apply in_map_iff. exists t. split.
  - now rewrite by_ticket_id_self.
  - apply (ticket_for_mint mint s' t T).
Qed.

Lemma minted_ticket_is_admitted_witness :
  let req := mint_of "assetA" "walletX" in
  let s' := snd (run (calm "ticket-1") (mint_success req) (box_office 3)) in
  unique_mints (box_office 3)
  /\ tickets s' <> tickets (box_office 3)
  /\ status (fst (run (calm "ticket-9") (verify (mkVerifyRequest (Some "assetA") None)) s'))
     = 200.
Proof.
  intros req s'.
  assert (Hu : unique_mints (box_office 3)) by constructor.
  assert (H : tickets s' <> tickets (box_office 3)) by discriminate.
  split; [exact Hu|]. split; [exact H|].
  destruct (minted_ticket_is_admitted req (calm "ticket-1") (box_office 3)
              (calm "ticket-9") Hu H) as (t & _ & _ & _ & _ & _ & Hgate).
  exact (proj1 (Hgate eq_refl eq_refl eq_refl)).
Defined.

(** ** Tasks *)

Lemma perform_from_and_then {A B} (env : nat -> EEnv) (p : Task A) (f : A -> Task B)
    (n : nat) (st : Site) :
  perform_from env n (and_then p f) st =
  perform_from env (snd (perform_from env n p st))
               (f (fst (fst (perform_from env n p st))))
               (snd (fst (perform_from env n p st))).
Proof.
  revert n st. induction p as [a|X c k IH]; intros n st; cbn [and_then perform_from].
  - reflexivity.
  - destruct (eexec (env n) c st) as [x st']. apply IH.
Qed.

(** ** Loading a candy machine *)

Lemma skipn_add {A} (a b : nat) (l : list A) : skipn (a + b) l = skipn b (skipn a l).
Proof.
  revert l. induction a as [|a IH]; intros l; [reflexivity|].
  destruct l as [|x l]; cbn [Nat.add skipn]; [now rewrite skipn_nil | apply IH].
Qed.

Lemma full_batch {A} (bs i : nat) (l : list A) :
  skipn (i + bs) l <> [] -> List.length (firstn bs (skipn i l)) = bs.
Proof.
  intros H. rewrite length_firstn, length_skipn. apply Nat.min_l.
  assert (Hl : (i + bs < List.length l)%nat).
  { destruct (Nat.lt_ge_cases (i + bs) (List.length l)) as [Hlt|Hge]; [exact Hlt|].
    exfalso. apply H. now apply skipn_all2. }
  lia.
Qed.

(** The loop of [addItemsToCandyMachine] with a batch size of at least one
    and a round per remaining item: what it has inserted when it comes back. *)
Lemma insert_batches_spec (fuel : nat) (cm : string) (items : list Item) (bs : nat)
    (env : nat -> EEnv) :
  (1 <= bs)%nat ->
  forall (i n : nat) (st : Site),
  (List.length items - i <= fuel)%nat ->
  let r := fst (fst (perform_from env n (insert_batches fuel cm items bs i) st)) in
  let st' := snd (fst (perform_from env n (insert_batches fuel cm items bs i) st)) in
  exists done rest,
    skipn i items = List.concat done ++ rest
    /\ db st' = db st
    /\ issued st' = issued st ++ map (ItemsInserted cm) done
    /\ Forall (fun b => (1 <= List.length b <= bs)%nat) done
    /\ Forall (fun b => List.length b = bs) (removelast done)
    /\ (forall k, (k < List.length done)%nat ->
          insert_items_signature (env (n + k)%nat) <> None)
    /\ ((r = Returned tt /\ rest = [])
        \/ (r = Threw "Failed to add items to Candy Machine." /\ rest <> []
            /\ Forall (fun b => List.length b = bs) done
            /\ insert_items_signature (env (n + List.length done)%nat) = None)).
Proof.
  intros Hbs. induction fuel as [|fuel IH]; intros i n st Hfuel;
    cbn [insert_batches].
  - destruct (List.length items <=? i)%nat eqn:E; [|apply Nat.leb_gt in E; lia].
    apply Nat.leb_le in E. cbn. exists [], []. rewrite skipn_all2 by exact E.
    repeat split; auto; try (now rewrite app_nil_r); try (intros k Hk; inversion Hk).
  - destruct (List.length items <=? i)%nat eqn:E.
    { apply Nat.leb_le in E. cbn. exists [], []. rewrite skipn_all2 by exact E.
      repeat split; auto; try (now rewrite app_nil_r); try (intros k Hk; inversion Hk). }
    apply Nat.leb_gt in E.
    cbn [and_then ask perform_from eexec].
    assert (Hsplit : skipn i items
                     = firstn bs (skipn i items) ++ skipn (i + bs) items)
      by (now rewrite skipn_add, firstn_skipn).
    assert (Hne : skipn i items <> []).
    { intros H0. apply (f_equal (@List.length Item)) in H0.
      rewrite length_skipn in H0. cbn in H0. lia. }
    destruct (insert_items_signature (env n)) as [sig|] eqn:Hsig.
    + cbn [and_then].
      specialize (IH (i + bs)%nat (S n)
                     (mkSite (db st)
                        (issued st ++ [ItemsInserted cm (firstn bs (skipn i items))]))).
      destruct IH as (done & rest & H1 & H2 & H3 & H4 & H5 & H6 & H7); [lia|].
      exists (firstn bs (skipn i items) :: done), rest.
      assert (Hlen : (1 <= List.length (firstn bs (skipn i items)) <= bs)%nat).
      { rewrite length_firstn, length_skipn. lia. }
      assert (Hfull : skipn (i + bs) items <> [] ->
                      List.length (firstn bs (skipn i items)) = bs)
        by apply full_batch.
      split; [cbn [List.concat]; rewrite <- app_assoc, <- H1; exact Hsplit|].
      split; [exact H2|].
      split; [rewrite H3; cbn [issued map]; now rewrite <- app_assoc|].
      split; [now constructor|].
      split.
      { destruct done as [|b done']; [constructor|].
        change (removelast (firstn bs (skipn i items) :: b :: done'))
          with (firstn bs (skipn i items) :: removelast (b :: done')).
        constructor; [|exact H5]. apply Hfull. rewrite H1.
        inversion H4 as [|? ? Hb _]; subst. destruct b; cbn in *; [lia | discriminate]. }
      split.
      { intros k Hk. destruct k as [|k].
        - rewrite Nat.add_0_r. congruence.
        - replace (n + S k)%nat with (S n + k)%nat by lia. apply H6. cbn in Hk. lia. }
      destruct H7 as [[Hr Hrest]|(Hr & Hrest & Hall & Hnone)].
      * left. now split.
      * right. split; [exact Hr|]. split; [exact Hrest|]. split.
        { constructor; [|exact Hall]. apply Hfull. rewrite H1.
          destruct rest; [contradiction|]. destruct (List.concat done); discriminate. }
        cbn [List.length]. replace (n + S (List.length done))%nat
          with (S n + List.length done)%nat by lia. exact Hnone.
    + cbn. exists [], (skipn i items). rewrite Nat.add_0_r.
      split; [reflexivity|]. split; [reflexivity|].
      split; [now rewrite app_nil_r|]. split; [constructor|]. split; [constructor|].
      split; [intros k Hk; inversion Hk|].
      right. repeat split; auto.
Qed.

Lemma batches_count {A} (bs : nat) (done : list (list A)) :
  (1 <= bs)%nat ->
  Forall (fun b => (1 <= List.length b <= bs)%nat) done ->
  Forall (fun b => List.length b = bs) (removelast done) ->
  (List.length (List.concat done) <= List.length done * bs
   /\ List.length done * bs < List.length (List.concat done) + bs)%nat.
Proof.
  intros Hbs. induction done as [|b d IH]; intros H1 H2; [cbn; lia|].
  inversion H1 as [|? ? Hb Hd]; subst. cbn [List.concat List.length].
  rewrite length_app. destruct d as [|b' d'].
  - cbn. lia.
  - change (removelast (b :: b' :: d')) with (b :: removelast (b' :: d')) in H2.
    inversion H2 as [|? ? Hfull Hrest]; subst. specialize (IH Hd Hrest).
    cbn [List.length] in *. lia.
Qed.

Lemma full_batches_length {A} (bs : nat) (done : list (list A)) :
  Forall (fun b => List.length b = bs) done ->
  List.length (List.concat done) = (List.length done * bs)%nat.
Proof.
  induction 1 as [|b d Hb _ IH]; [reflexivity|].
  cbn [List.concat List.length]. rewrite length_app. lia.
Qed.

(** X10. [addItemsToCandyMachine] with a batch size of at least one, when every
    call is answered: it returns, and it has inserted all the items, in their
    order, in batches that are full except maybe the last, which is not empty;
    so it has made just enough insertions to hold the items.  It has left the
    database alone. *)
Theorem add_items_in_batches (fuel : nat) (address cm : string) (items : list Item)
    (batchSize : nat) (env : nat -> EEnv) (st : Site) :
  (1 <= batchSize)%nat ->
  (List.length items <= fuel)%nat ->
  candy_machine_found (env 0%nat) = Some cm ->
  (forall k, insert_items_signature (env (S k)) <> None) ->
  let r := fst (perform env (addItemsToCandyMachine fuel address items batchSize) st) in
  let st' := snd (perform env (addItemsToCandyMachine fuel address items batchSize) st) in
  r = Returned tt
  /\ db st' = db st
  /\ exists done,
       issued st' = issued st ++ map (ItemsInserted cm) done
       /\ List.concat done = items
       /\ Forall (fun b => (1 <= List.length b <= batchSize)%nat) done
       /\ Forall (fun b => List.length b = batchSize) (removelast done)
       /\ (List.length items <= List.length done * batchSize
           < List.length items + batchSize)%nat.
Proof.
  intros Hbs Hfuel Hfound Hall r st'. subst r st'.
  unfold perform, addItemsToCandyMachine.
  cbn [and_then ask perform_from eexec]. rewrite Hfound. cbn [and_then].
  destruct (insert_batches_spec fuel cm items batchSize env Hbs 0%nat 1%nat st)
    as (done & rest & H1 & H2 & H3 & H4 & H5 & _ & H7); [lia|].
  cbn [skipn] in H1.
  destruct H7 as [[Hr Hrest]|(_ & _ & _ & Hnone)].
  2:{ exfalso. exact (Hall _ Hnone). }
  subst rest. rewrite app_nil_r in H1.
  split; [exact Hr|]. split; [exact H2|].
  exists done. split; [exact H3|]. split; [now symmetry|].
  split; [exact H4|]. split; [exact H5|].
  rewrite H1. apply (batches_count batchSize done Hbs H4 H5).
Qed.

(** X11. [addItemsToCandyMachine] with a batch size of at least one, when the
    insertion of batch number [k] (from 0) is the first to be rejected: it
    throws, the first [k] batches stay inserted, they are the first
    [k * batchSize] items, and no later batch is sent. *)
Theorem add_items_stops_at_rejection (fuel : nat) (address cm : string)
    (items : list Item) (batchSize k : nat) (env : nat -> EEnv) (st : Site) :
  (1 <= batchSize)%nat ->
  (List.length items <= fuel)%nat ->
  candy_machine_found (env 0%nat) = Some cm ->
  (forall j, (j < k)%nat -> insert_items_signature (env (S j)) <> None) ->
  insert_items_signature (env (S k)) = None ->
  (k * batchSize < List.length items)%nat ->
  let r := fst (perform env (addItemsToCandyMachine fuel address items batchSize) st) in
  let st' := snd (perform env (addItemsToCandyMachine fuel address items batchSize) st) in
  r = Threw "Failed to add items to Candy Machine."
  /\ db st' = db st
  /\ exists done,
       issued st' = issued st ++ map (ItemsInserted cm) done
       /\ List.length done = k
       /\ List.concat done = firstn (k * batchSize) items.
Proof.
  intros Hbs Hfuel Hfound Hbefore Hk Hlt r st'. subst r st'.
  unfold perform, addItemsToCandyMachine.
  cbn [and_then ask perform_from eexec]. rewrite Hfound. cbn [and_then].
  destruct (insert_batches_spec fuel cm items batchSize env Hbs 0%nat 1%nat st)
    as (done & rest & H1 & H2 & H3 & H4 & H5 & H6 & H7); [lia|].
  cbn [skipn] in H1.
  destruct H7 as [[_ Hrest]|(Hr & Hrest & Hfull & Hnone)].
  - exfalso. subst rest. rewrite app_nil_r in H1.
    destruct (batches_count batchSize done Hbs H4 H5) as [Hle _].
    rewrite <- H1 in Hle.
    assert (Hkd : (k < List.length done)%nat) by nia.
    exact (H6 k Hkd Hk).
  - assert (Hlen : List.length done = k).
    { destruct (Nat.lt_trichotomy (List.length done) k) as [Hl|[He|Hg]].
      + exfalso. exact (Hbefore _ Hl Hnone).
      + exact He.
      + exfalso. exact (H6 k Hg Hk). }
    split; [exact Hr|]. split; [exact H2|].
    exists done. split; [exact H3|]. split; [exact Hlen|].
    rewrite H1, firstn_app, <- Hlen, (full_batches_length _ _ Hfull).
    rewrite Nat.sub_diag. cbn [firstn]. rewrite app_nil_r.
    rewrite <- (full_batches_length _ _ Hfull). now rewrite firstn_all.
Qed.

(** X12. [addItemsToCandyMachine] with a batch size of zero and at least one
    item, when every call is answered: the loop never ends; however many
    rounds it is given it has not come back, and each round has inserted an
    empty batch. *)
Theorem add_items_batch_size_zero (fuel : nat) (address cm : string)
    (items : list Item) (env : nat -> EEnv) (st : Site) :
  items <> [] ->
  candy_machine_found (env 0%nat) = Some cm ->
  (forall k, insert_items_signature (env (S k)) <> None) ->
  let r := fst (perform env (addItemsToCandyMachine fuel address items 0) st) in
  let st' := snd (perform env (addItemsToCandyMachine fuel address items 0) st) in
  r = Unfinished
  /\ issued st' = issued st ++ repeat (ItemsInserted cm []) fuel.
Proof.
  intros Hne Hfound Hall r st'. subst r st'.
  unfold perform, addItemsToCandyMachine.
  cbn [and_then ask perform_from eexec]. rewrite Hfound. cbn [and_then].
  assert (G : forall fuel n st,
    fst (fst (perform_from env (S n) (insert_batches fuel cm items 0 0) st)) = Unfinished
    /\ issued (snd (fst (perform_from env (S n) (insert_batches fuel cm items 0 0) st)))
       = issued st ++ repeat (ItemsInserted cm []) fuel).
  { assert (Hz : (List.length items <=? 0)%nat = false)
      by (destruct items; [contradiction | reflexivity]).
    clear fuel st. induction fuel as [|fuel IH]; intros n st; cbn [insert_batches];
      rewrite Hz.
    - cbn. now rewrite app_nil_r.
    - cbn [and_then ask perform_from eexec firstn].
      destruct (insert_items_signature (env (S n))) eqn:Hs; [|now elim (Hall n)].
      cbn [and_then Nat.add].
      destruct (IH (S n) (mkSite (db st) (issued st ++ [ItemsInserted cm []])))
        as [I1 I2].
      split; [exact I1|]. rewrite I2. cbn [issued repeat].
      now rewrite <- app_assoc. }
  apply G.
Qed.

Lemma add_items_in_batches_witness :
  let st' := snd (perform (smooth "event-9")
                    (addItemsToCandyMachine 7 "machine-9" (ticket_items 7) 5) blank) in
  (1 <= 5)%nat
  /\ (List.length (ticket_items 7) <= 7)%nat
  /\ exists done,
       issued st' = map (ItemsInserted "machine-9") done
       /\ List.concat done = ticket_items 7
       /\ (List.length (ticket_items 7) <= List.length done * 5
           < List.length (ticket_items 7) + 5)%nat.
Proof.
  intros st'. split; [lia|]. split; [vm_compute; lia|].
  destruct (add_items_in_batches 7 "machine-9" "machine-9" (ticket_items 7) 5
              (smooth "event-9") blank ltac:(lia) ltac:(vm_compute; lia) eq_refl
              ltac:(discriminate))
    as (_ & _ & done & H1 & H2 & _ & _ & H3).
  exists done. split; [exact H1|]. split; [exact H2 | exact H3].
Defined.

Lemma add_items_stops_at_rejection_witness :
  let st' := snd (perform (rejected_at 2 "event-9")
                    (addItemsToCandyMachine 7 "machine-9" (ticket_items 7) 5) blank) in
  insert_items_signature (rejected_at 2 "event-9" 2%nat) = None
  /\ (1 * 5 < List.length (ticket_items 7))%nat
  /\ exists done,
       issued st' = map (ItemsInserted "machine-9") done
       /\ List.concat done = firstn 5 (ticket_items 7).
Proof.
  intros st'. split; [reflexivity|]. split; [vm_compute; lia|].
  assert (Hbefore : forall j, (j < 1)%nat ->
            insert_items_signature (rejected_at 2 "event-9" (S j)) <> None).
  { intros j Hj. assert (j = 0%nat) as -> by lia. discriminate. }
  destruct (add_items_stops_at_rejection 7 "machine-9" "machine-9" (ticket_items 7) 5 1
              (rejected_at 2 "event-9") blank ltac:(lia) ltac:(vm_compute; lia) eq_refl
              Hbefore eq_refl ltac:(vm_compute; lia))
    as (_ & _ & done & H1 & _ & H2).
  exists done. split; [exact H1 | exact H2].
Defined.

Lemma add_items_batch_size_zero_witness :
  ticket_items 1 <> []
  /\ fst (perform (smooth "event-9")
            (addItemsToCandyMachine 4 "machine-9" (ticket_items 1) 0) blank)
     = Unfinished.
Proof.
  assert (H : ticket_items 1 <> []) by discriminate.
  split; [exact H|].
  exact (proj1 (add_items_batch_size_zero 4 "machine-9" "machine-9" (ticket_items 1)
                  (smooth "event-9") blank H eq_refl ltac:(discriminate))).
Defined.

(** ** Deploying a candy machine *)

Lemma ticket_items_nth (n : Z) (k : nat) :
  (k < Z.to_nat n)%nat -> nth_error (ticket_items n) k = Some (ticket_item (S k)).
Proof.
  intros Hk. unfold ticket_items.
  rewrite nth_error_map, nth_error_seq.
  apply Nat.ltb_lt in Hk. now rewrite Hk.
Qed.

(** What [deployCandyMachine] does, from its [n]-th call on. *)
Lemma deploy_from (collection : string) (price : Q) (numberOfTickets : Z)
    (env : nat -> EEnv) (n : nat) (st : Site) :
  let r := fst (fst (perform_from env n
                       (deployCandyMachine collection price numberOfTickets) st)) in
  let st' := snd (fst (perform_from env n
                         (deployCandyMachine collection price numberOfTickets) st)) in
  r <> Unfinished
  /\ db st' = db st
  /\ (forall message, r = Threw message -> message = deploy_failed)
  /\ (forall address, r = Returned address ->
      exists cm done,
        candy_machine_address (env (S n)) = Some address
        /\ candy_machine_found (env (S (S n))) = Some cm
        /\ issued st' =
           issued st
           ++ CandyMachineCreated numberOfTickets (price * (1000000000 # 1))%Q
                (get_time (env n) / 1000) collection address
              :: map (ItemsInserted cm) done
        /\ List.concat done = ticket_items numberOfTickets
        /\ Forall (fun b => (1 <= List.length b <= 5)%nat) done).
Proof.
  intros r st'. subst r st'. unfold deployCandyMachine.
  cbn [and_then ask perform_from eexec].
  destruct (candy_machine_address (env (S n))) as [address|] eqn:Haddr.
  2:{ cbn. split; [discriminate|]. split; [reflexivity|].
      split; [intros m H; now injection H | intros a H; discriminate]. }
  unfold addItemsToCandyMachine. cbn [and_then ask perform_from eexec].
  destruct (candy_machine_found (env (S (S n)))) as [cm|] eqn:Hfound.
  2:{ cbn. split; [discriminate|]. split; [reflexivity|].
      split; [intros m H; now injection H | intros a H; discriminate]. }
  rewrite perform_from_and_then.
  set (st1 := mkSite (db st) (issued st ++ _)).
  destruct (insert_batches_spec (List.length (ticket_items numberOfTickets)) cm
              (ticket_items numberOfTickets) 5 env ltac:(lia) 0%nat (S (S (S n))) st1)
    as (done & rest & H1 & H2 & H3 & H4 & _ & _ & H7); [lia|].
  cbn [skipn] in H1.
  destruct H7 as [[Hr Hrest]|(Hr & _)]; rewrite Hr; cbn [perform_from fst snd].
  - split; [discriminate|]. split; [exact H2|]. split; [intros m H; discriminate|].
    intros a Ha. injection Ha as <-. exists cm, done.
    subst rest. rewrite app_nil_r in H1.
    split; [reflexivity|]. split; [reflexivity|].
    split; [rewrite H3; unfold st1; cbn [issued]; now rewrite <- app_assoc|].
    split; [now symmetry | exact H4].
  - split; [discriminate|]. split; [exact H2|].
    split; [intros m H; now injection H | intros a H; discriminate].
Qed.

(** X13. [deployCandyMachine] always comes back.  When it returns, the candy
    machine was created for [numberOfTickets] items and has been loaded, at
    most five at a time, with exactly [numberOfTickets] items (none when the
    number is not positive), the [k]-th of them named "Event Ticket #k"; when
    it throws, the message is the one of deployment, whatever failed; it never
    touches the database. *)
Theorem deploy_candy_machine_loads_tickets (collection : string) (price : Q)
    (numberOfTickets : Z) (env : nat -> EEnv) (st : Site) :
  let r := fst (perform env (deployCandyMachine collection price numberOfTickets) st) in
  let st' := snd (perform env (deployCandyMachine collection price numberOfTickets) st) in
  r <> Unfinished
  /\ db st' = db st
  /\ (forall message, r = Threw message -> message = deploy_failed)
  /\ (forall address, r = Returned address ->
      exists cm done lamports,
        candy_machine_address (env 1%nat) = Some address
        /\ candy_machine_found (env 2%nat) = Some cm
        /\ issued st' =
           issued st
           ++ CandyMachineCreated numberOfTickets lamports
                (get_time (env 0%nat) / 1000) collection address
              :: map (ItemsInserted cm) done
        /\ List.concat done = ticket_items numberOfTickets
        /\ Forall (fun b => (1 <= List.length b <= 5)%nat) done
        /\ List.length (ticket_items numberOfTickets) = Z.to_nat numberOfTickets
        /\ forall k, (k < Z.to_nat numberOfTickets)%nat ->
             exists item,
               nth_error (ticket_items numberOfTickets) k = Some item
               /\ item_name item
                  = ("Event Ticket #" ++ template_int (Z.of_nat (S k)))%string).
Proof.
  intros r st'.
  destruct (deploy_from collection price numberOfTickets env 0 st)
    as (H1 & H2 & H3 & H4).
  split; [exact H1|]. split; [exact H2|]. split; [exact H3|].
  intros address Hr. destruct (H4 address Hr) as (cm & done & A & B & C & D & E).
  exists cm, done, (price * (1000000000 # 1))%Q. repeat (split; [assumption|]).
  split; [unfold ticket_items; now rewrite length_map, length_seq|].
  intros k Hk. exists (ticket_item (S k)). split; [now apply ticket_items_nth | reflexivity].
Qed.

Lemma deploy_candy_machine_loads_tickets_witness :
  let r := fst (perform (smooth "event-9") (deployCandyMachine "collection-9" (1 # 2) 6)
                        blank) in
  let st' := snd (perform (smooth "event-9") (deployCandyMachine "collection-9" (1 # 2) 6)
                          blank) in
  r = Returned "machine-9"
  /\ exists done lamports,
       issued st' =
       CandyMachineCreated 6 lamports 1750000000 "collection-9" "machine-9"
         :: map (ItemsInserted "machine-9") done
       /\ List.concat done = ticket_items 6.
Proof.
  intros r st'.
  assert (Hr : r = Returned "machine-9") by reflexivity.
  split; [exact Hr|].
  destruct (proj2 (proj2 (proj2 (deploy_candy_machine_loads_tickets "collection-9" (1 # 2)
                                   6 (smooth "event-9") blank))) "machine-9" Hr)
    as (cm & done & lamports & _ & Hcm & H1 & H2 & _).
  injection Hcm as <-. exists done, lamports. split; [exact H1 | exact H2].
Defined.

(** ** Creating an event *)

(** What event creation does, whatever is answered. *)
Lemma create_event_cases (req : CreateEventRequest) (env : nat -> EEnv) (st : Site) :
  let r := fst (perform env (create_event req) st) in
  let st' := snd (perform env (create_event req) st) in
  (exists response, r = Some response)
  /\ (creation_valid req = false ->
      option_map e_status r = Some 400 /\ st' = st)
  /\ (option_map e_status r <> Some 201 -> db st' = db st)
  /\ (option_map e_status r = Some 201 ->
      exists ev symbol uri lamports startDate,
        db st' = mkStore (tickets (db st)) (events (db st) ++ [ev])
                         (transactions (db st))
        /\ option_map e_body r
           = Some (EventCreated "Event created successfully!" (Some ev)
                     (Event.collection_nft_mint_address ev)
                     (Event.candy_machine_id ev))
        /\ Event.name ev = value (c_name req)
        /\ Some (Event.total_tickets ev) = c_totalTickets req
        /\ Event.available_tickets ev = Event.total_tickets ev
        /\ Some (Event.price_sol ev) = c_priceSol req
        /\ Event.is_active ev = true
        /\ event_conflict ev (events (db st)) = false
        /\ In (CollectionCreated (value (c_name req)) symbol uri
                                 (Event.collection_nft_mint_address ev)) (issued st')
        /\ In (CandyMachineCreated (Event.total_tickets ev) lamports startDate
                 (Event.collection_nft_mint_address ev) (Event.candy_machine_id ev))
              (issued st'))
  /\ (forall details,
        option_map e_body r
        = Some (EventsError "Failed to create event in database." details) ->
        exists name symbol uri collection total lamports startDate machine cm done,
          issued st' =
          issued st
          ++ [Pinned (collection_metadata name symbol)
                     (default EmptyString (pinata_cid (env 1%nat)));
              CollectionCreated name symbol uri collection;
              CandyMachineCreated total lamports startDate collection machine]
          ++ map (ItemsInserted cm) done
          /\ c_totalTickets req = Some total
          /\ List.concat done = ticket_items total).
Proof.
  intros r st'. subst r st'. unfold perform, create_event.
  destruct (creation_valid req) eqn:Hv; cbn [negb].
  2:{ cbn. split; [eexists; reflexivity|]. split; [now split|].
      split; [reflexivity|]. split; discriminate. }
  unfold generateUniqueSymbol, uploadMetadataToIpfs, createCollectionNFT.
  cbn [and_then ask perform_from eexec].
  set (symbol := (substring 0 4 _ ++ _)%string).
  destruct (pinata_cid (env 1%nat)) as [cid|].
  2:{ cbn. split; [eexists; reflexivity|]. split; [discriminate|].
      split; [reflexivity|]. split; discriminate. }
  cbn [and_then ask perform_from eexec].
  set (uri := ("https://" ++ _)%string).
  destruct (nft_address (env 3%nat)) as [collection|].
  2:{ cbn. split; [eexists; reflexivity|]. split; [discriminate|].
      split; [reflexivity|]. split; discriminate. }
  cbn [and_then]. rewrite perform_from_and_then.
  set (st3 := mkSite _ (_ ++ [CollectionCreated _ _ _ _])).
  pose proof (deploy_from collection (default 0%Q (c_priceSol req))
                (default 0 (c_totalTickets req)) env 4 st3) as D.
  cbn zeta in D.
  set (P := perform_from env 4
              (deployCandyMachine collection (default 0%Q (c_priceSol req))
                 (default 0 (c_totalTickets req))) st3) in *.
  destruct D as (D1 & D2 & _ & D4).
  assert (D2' : db (snd (fst P)) = db st) by exact D2. clear D2.
  destruct (fst (fst P)) as [machine|msg|] eqn:Hd.
  3:{ now elim D1. }
  2:{ cbn. split; [eexists; reflexivity|]. split; [discriminate|].
      split; [intros _; exact D2'|]. split; discriminate. }
  destruct (D4 machine eq_refl) as (cm & done & _ & _ & Hissued & Hdone & _).
  assert (Htotal : c_totalTickets req = Some (default 0 (c_totalTickets req))).
  { unfold creation_valid in Hv. apply negb_true_iff in Hv.
    apply orb_false_iff in Hv as [Hv _]. apply orb_false_iff in Hv as [_ Ht].
    destruct (c_totalTickets req); [reflexivity | discriminate]. }
  assert (Horphan : exists name symbol uri collection total lamports startDate machine
                      cm done,
            issued (snd (fst P)) =
            issued st
            ++ [Pinned (collection_metadata name symbol)
                       (default EmptyString (Some cid));
                CollectionCreated name symbol uri collection;
                CandyMachineCreated total lamports startDate collection machine]
            ++ map (ItemsInserted cm) done
            /\ c_totalTickets req = Some total
            /\ List.concat done = ticket_items total).
  { eexists _, _, _, _, _, _, _, _, cm, done. rewrite Hissued. unfold st3.
    cbn [issued default]. split; [|split; [exact Htotal | exact Hdone]].
    rewrite <- !app_assoc. reflexivity. }
  cbn [and_then ask perform_from eexec].
  destruct (db_fault (base (env (snd P)))) as [err|].
  { cbn. split; [eexists; reflexivity|]. split; [discriminate|].
    split; [intros _; exact D2'|]. split; [discriminate|]. intros _ _. exact Horphan. }
  match goal with
  | |- context [if event_conflict ?e ?l then _ else _] =>
      destruct (event_conflict e l) eqn:Hc
  end.
  { cbn. split; [eexists; reflexivity|]. split; [discriminate|].
    split; [intros _; exact D2'|]. split; [discriminate|]. intros _ _. exact Horphan. }
  cbn [perform_from fst snd option_map e_status e_body db issued hd_error].
  split; [eexists; reflexivity|]. split; [discriminate|].
  split; [intros H; now elim H|]. split; [|discriminate]. intros _.
  unfold creation_valid in Hv. apply negb_true_iff in Hv.
  apply orb_false_iff in Hv as [Hv Hp]. apply orb_false_iff in Hv as [_ Ht].
  rewrite D2' in Hc. eexists _, symbol, uri, _, _. rewrite D2'.
  split; [reflexivity|]. split; [reflexivity|]. split; [reflexivity|].
  split; [cbn; destruct (c_totalTickets req); [reflexivity | discriminate]|].
  split; [reflexivity|].
  split; [cbn; destruct (c_priceSol req); [reflexivity | discriminate]|].
  split; [reflexivity|]. split; [exact Hc|].
  cbn [Event.collection_nft_mint_address Event.candy_machine_id
                              Event.total_tickets new_event ei_collection_nft_mint_address
                              ei_candy_machine_id ei_total_tickets].
  rewrite Hissued. split.
  - apply in_or_app. left. unfold st3. cbn [issued]. apply in_or_app. right. now left.
  - apply in_or_app. right. now left.
Qed.

(** X14. What event creation does, whatever is answered: it always answers; a
    request without a name, a date, a venue, a number of tickets other than
    zero or a price other than zero is answered 400 and nothing is written
    anywhere; an answer other than 201 leaves the database as it was; and an
    answer of 201 carries the one event row that was added, active, with
    [available_tickets] and [total_tickets] both the requested number, and
    with the collection and the candy machine that were created for it on the
    ledger, the candy machine for that many items. *)
Theorem create_event_outcome (req : CreateEventRequest) (env : nat -> EEnv) (st : Site) :
  let r := fst (perform env (create_event req) st) in
  let st' := snd (perform env (create_event req) st) in
  (exists response, r = Some response)
  /\ (creation_valid req = false ->
      option_map e_status r = Some 400 /\ st' = st)
  /\ (option_map e_status r <> Some 201 -> db st' = db st)
  /\ (option_map e_status r = Some 201 ->
      exists ev symbol uri lamports startDate,
        db st' = mkStore (tickets (db st)) (events (db st) ++ [ev])
                         (transactions (db st))
        /\ option_map e_body r
           = Some (EventCreated "Event created successfully!" (Some ev)
                     (Event.collection_nft_mint_address ev)
                     (Event.candy_machine_id ev))
        /\ Event.name ev = value (c_name req)
        /\ Some (Event.total_tickets ev) = c_totalTickets req
        /\ Event.available_tickets ev = Event.total_tickets ev
        /\ Some (Event.price_sol ev) = c_priceSol req
        /\ Event.is_active ev = true
        /\ In (CollectionCreated (value (c_name req)) symbol uri
                                 (Event.collection_nft_mint_address ev)) (issued st')
        /\ In (CandyMachineCreated (Event.total_tickets ev) lamports startDate
                 (Event.collection_nft_mint_address ev) (Event.candy_machine_id ev))
              (issued st')).
Proof.
  destruct (create_event_cases req env st) as (H1 & H2 & H3 & H4 & _).
  split; [exact H1|]. split; [exact H2|]. split; [exact H3|].
  intros H. destruct (H4 H) as (ev & symbol & uri & lamports & startDate & A).
  exists ev, symbol, uri, lamports, startDate. tauto.
Qed.

Lemma create_event_outcome_witness :
  creation_valid (new_year (Some 0)) = false
  /\ snd (perform (smooth "event-9") (create_event (new_year (Some 0))) blank) = blank.
Proof.
  split; [reflexivity|].
  exact (proj2 (proj1 (proj2 (create_event_outcome (new_year (Some 0)) (smooth "event-9")
                                blank)) eq_refl)).
Defined.

(** X15. Event creation rolls nothing back: when it is the insertion of the event
    row that fails, the metadata stays pinned, the collection and the candy
    machine stay created and loaded with all the ticket items, and no event
    row refers to them. *)
Theorem create_event_leaves_orphans (req : CreateEventRequest) (env : nat -> EEnv)
    (st : Site) (details : option string) :
  let r := fst (perform env (create_event req) st) in
  let st' := snd (perform env (create_event req) st) in
  option_map e_body r
  = Some (EventsError "Failed to create event in database." details) ->
  db st' = db st
  /\ exists name symbol uri collection total lamports startDate machine cm done,
       issued st' =
       issued st
       ++ [Pinned (collection_metadata name symbol)
                  (default EmptyString (pinata_cid (env 1%nat)));
           CollectionCreated name symbol uri collection;
           CandyMachineCreated total lamports startDate collection machine]
       ++ map (ItemsInserted cm) done
       /\ c_totalTickets req = Some total
       /\ List.concat done = ticket_items total.
Proof.
  intros r st' H.
  destruct (create_event_cases req env st) as (_ & _ & H3 & H4 & H5).
  split; [|exact (H5 details H)].
  apply H3. intros Hst.
  destruct (H4 Hst) as (ev & symbol & uri & lamports & startDate & _ & Hbody & _).
  fold r in Hbody. rewrite Hbody in H. discriminate.
Qed.

Lemma create_event_leaves_orphans_witness :
  let r := fst (perform (db_down_at 8 "event-9") (create_event (new_year (Some 3))) blank) in
  let st' := snd (perform (db_down_at 8 "event-9") (create_event (new_year (Some 3)))
                          blank) in
  option_map e_body r
  = Some (EventsError "Failed to create event in database." (Some "terminating connection"))
  /\ db st' = db blank
  /\ List.length (issued st') = 4%nat.
Proof.
  intros r st'.
  assert (H : option_map e_body r
              = Some (EventsError "Failed to create event in database."
                                  (Some "terminating connection"))) by reflexivity.
  split; [exact H|].
  split; [exact (proj1 (create_event_leaves_orphans (new_year (Some 3))
                          (db_down_at 8 "event-9") blank _ H))
         | reflexivity].
Defined.

(** ** Reading events *)

Lemma insert_by_In {A} (le : A -> A -> bool) (a x : A) (l : list A) :
  In x (insert_by le a l) <-> x = a \/ In x l.
Proof.
  induction l as [|y l IH]; cbn.
  - intuition.
  - destruct (le a y); cbn; [intuition|]. rewrite IH. intuition.
Qed.

Lemma order_by_In {A} (le : A -> A -> bool) (x : A) (l : list A) :
  In x (order_by le l) <-> In x l.
Proof.
  induction l as [|y l IH]; cbn; [reflexivity|].
  rewrite insert_by_In, IH. intuition.
Qed.

Lemma insert_by_perm {A} (le : A -> A -> bool) (a : A) (l : list A) :
  Permutation (insert_by le a l) (a :: l).
Proof.
  induction l as [|y l IH]; cbn; [reflexivity|].
  destruct (le a y); [reflexivity|].
  rewrite IH. apply perm_swap.
Qed.

Lemma order_by_perm {A} (le : A -> A -> bool) (l : list A) :
  Permutation (order_by le l) l.
Proof.
  induction l as [|y l IH]; cbn; [reflexivity|].
  rewrite insert_by_perm. now constructor.
Qed.

Lemma insert_by_sorted {A} (le : A -> A -> bool) (a : A) (l : list A) :
  (forall x y, le x y = true \/ le y x = true) ->
  Sorted (fun x y => le x y = true) l ->
  Sorted (fun x y => le x y = true) (insert_by le a l).
Proof.
  intros Htot. induction l as [|y l IH]; intros Hs; cbn.
  - repeat constructor.
  - destruct (le a y) eqn:Hay.
    + constructor; [exact Hs | constructor; exact Hay].
    + inversion Hs as [|? ? Hl Hhd]; subst. constructor; [now apply IH|].
      assert (Hya : le y a = true) by (destruct (Htot a y); congruence).
      destruct l as [|z l]; cbn.
      * constructor. exact Hya.
      * destruct (le a z); constructor; [exact Hya|].
        now inversion Hhd.
Qed.

Lemma order_by_sorted {A} (le : A -> A -> bool) (l : list A) :
  (forall x y, le x y = true \/ le y x = true) ->
  Sorted (fun x y => le x y = true) (order_by le l).
Proof.
  intros Htot. induction l as [|y l IH]; cbn; [constructor|].
  now apply insert_by_sorted.
Qed.

(** X16. The listing of events never writes.  When the database answers, it is
    answered 200 with exactly the active events, one entry per row, restricted
    to the events of one candy machine when a non-empty [candyMachineId] is
    given (an empty one filters nothing), in ascending order of date; when the
    database fails it is answered 500. *)
Theorem list_events_contract (candyMachineId : field) (env : nat -> EEnv) (st : Site) :
  let r := fst (perform env (list_events candyMachineId) st) in
  let st' := snd (perform env (list_events candyMachineId) st) in
  st' = st
  /\ (db_fault (base (env 0%nat)) <> None -> e_status r = 500)
  /\ (db_fault (base (env 0%nat)) = None ->
      exists rows,
        r = mkEventsResponse 200 (EventRows rows)
        /\ Permutation rows
             (filter (fun e => Event.is_active e
                               && (falsy candyMachineId
                                   || (Event.candy_machine_id e =? value candyMachineId)))
                     (events (db st)))
        /\ ((forall x y, date_le (env 0%nat) x y = true \/ date_le (env 0%nat) y x = true) ->
            Sorted (fun a b => date_le (env 0%nat) (Event.date a) (Event.date b) = true)
                   rows)).
Proof.
  intros r st'. subst r st'. unfold perform, list_events.
  cbn [perform_from and_then ask eexec].
  destruct (db_fault (base (env 0%nat))) as [err|] eqn:Hf; cbn.
  - split; [reflexivity|]. split; [reflexivity | discriminate].
  - split; [reflexivity|]. split; [intros H; now elim H|]. intros _.
    eexists. split; [reflexivity|]. split.
    + rewrite order_by_perm.
      erewrite filter_ext; [reflexivity|].
      intros e. unfold listed. destruct (falsy candyMachineId); reflexivity.
    + intros Htot. apply order_by_sorted. intros x y. apply Htot.
Qed.

Lemma list_events_contract_witness :
  let st := mkSite (mkStore [] [concert 3 3] []) [] in
  db_fault (base (smooth "event-9" 0%nat)) = None
  /\ exists rows,
       fst (perform (smooth "event-9") (list_events (Some "machine-1")) st)
       = mkEventsResponse 200 (EventRows rows)
       /\ Sorted (fun a b => (Event.date a <=? Event.date b)%string = true) rows.
Proof.
  intros st. split; [reflexivity|].
  destruct (proj2 (proj2 (list_events_contract (Some "machine-1") (smooth "event-9") st))
              eq_refl) as (rows & Hr & _ & Hs).
  exists rows. split; [exact Hr|]. apply Hs. exact String.leb_total.
Defined.

Lemma filter_none {A} (f : A -> bool) (l : list A) :
  (forall x, In x l -> f x = false) -> filter f l = [].
Proof.
  induction l as [|y l IH]; cbn; intros H; [reflexivity|].
  rewrite (H y (or_introl eq_refl)). apply IH. intros x Hx. apply H. now right.
Qed.

Lemma filter_by_event_id_unique (id : string) (evs : list Event.t) (e : Event.t) :
  NoDup (map Event.event_id evs) ->
  In e evs -> Event.event_id e = id ->
  filter (by_event_id id) evs = [e].
Proof.
  induction evs as [|x l IH]; cbn; intros Hnd Hin Hid; [contradiction|].
  inversion Hnd as [|? ? Hx Hl]; subst.
  destruct Hin as [->|Hin].
  - rewrite (proj2 (by_event_id_true _ e) eq_refl). f_equal.
    apply filter_none. intros y Hy.
    destruct (by_event_id (Event.event_id e) y) eqn:E; [|reflexivity].
    apply by_event_id_true in E. elim Hx. rewrite <- E. now apply in_map.
  - destruct (by_event_id (Event.event_id e) x) eqn:E.
    + apply by_event_id_true in E. elim Hx. rewrite E. now apply in_map.
    + now apply IH.
Qed.

Lemma get_event_alone (eventId : string) (env : nat -> EEnv) (st : Site) :
  perform env (get_event eventId) st =
  (match db_select (base (env 0%nat)) (filter (by_event_id eventId) (events (db st))) with
   | Data e => mkEventsResponse 200 (EventRow e)
   | Error err =>
       if code err =? "PGRST116" then mkEventsResponse 404 (EventsError "Event not found." None)
       else mkEventsResponse 500
              (EventsError "Failed to fetch event details." (Some (message err)))
   end, st).
Proof.
  unfold perform, get_event. cbn [perform_from and_then ask eexec exec].
  destruct (db_select (base (env 0%nat)) (filter (by_event_id eventId) (events (db st))))
    as [e|err]; cbn.
  - now destruct st.
  - destruct (code err =? "PGRST116"); cbn; now destruct st.
Qed.

(** X17. The lookup of one event never writes.  Over a table whose identifiers are
    unique and a database that answers, it is answered 200 with the row of
    that identifier, active or not, and 404 when there is none; and whenever
    it is answered 200, the row it gives is a row of the table with the
    identifier asked for. *)
Theorem get_event_contract (eventId : string) (env : nat -> EEnv) (st : Site) :
  let r := fst (perform env (get_event eventId) st) in
  let st' := snd (perform env (get_event eventId) st) in
  st' = st
  /\ (e_status r = 200 ->
      exists e, e_body r = EventRow e /\ In e (events (db st))
                /\ Event.event_id e = eventId)
  /\ (NoDup (map Event.event_id (events (db st))) ->
      db_fault (base (env 0%nat)) = None ->
      (forall e, In e (events (db st)) -> Event.event_id e = eventId ->
                 r = mkEventsResponse 200 (EventRow e))
      /\ ((forall e, In e (events (db st)) -> Event.event_id e <> eventId) ->
          r = mkEventsResponse 404 (EventsError "Event not found." None))).
Proof.
  intros r st'. subst r st'. rewrite get_event_alone. cbn [fst snd].
  split; [reflexivity|]. split.
  - destruct (db_select _ _) as [e|err] eqn:E.
    + intros _. exists e. split; [reflexivity|].
      apply db_select_data in E. destruct E as [E _].
      assert (Hin : In e (filter (by_event_id eventId) (events (db st))))
        by (rewrite E; now left).
      apply filter_In in Hin. destruct Hin as [Hin Hb].
      split; [exact Hin | now apply by_event_id_true].
    + destruct (code err =? "PGRST116"); cbn; discriminate.
  - intros Hnd Hf. unfold db_select. rewrite Hf. split.
    + intros e Hin Hid. now rewrite (filter_by_event_id_unique _ _ e Hnd Hin Hid).
    + intros Hno. rewrite filter_none; [reflexivity|].
      intros x Hx. destruct (by_event_id eventId x) eqn:E; [|reflexivity].
      apply by_event_id_true in E. now elim (Hno x Hx).
Qed.

Lemma get_event_contract_witness :
  let st := mkSite (box_office 3) [] in
  NoDup (map Event.event_id (events (db st)))
  /\ db_fault (base (smooth "event-9" 0%nat)) = None
  /\ fst (perform (smooth "event-9") (get_event "event-1") st)
     = mkEventsResponse 200 (EventRow (concert 3 3))
  /\ fst (perform (smooth "event-9") (get_event "event-2") st)
     = mkEventsResponse 404 (EventsError "Event not found." None).
Proof.
  intros st.
  assert (Hnd : NoDup (map Event.event_id (events (db st))))
    by (repeat constructor; intros []).
  split; [exact Hnd|]. split; [reflexivity|].
  destruct (proj2 (proj2 (get_event_contract "event-1" (smooth "event-9") st)) Hnd eq_refl)
    as [H1 _].
  destruct (proj2 (proj2 (get_event_contract "event-2" (smooth "event-9") st)) Hnd eq_refl)
    as [_ H2].
  split.
  - apply (H1 (concert 3 3)); [now left | reflexivity].
  - apply H2. intros e [<-|[]]. discriminate.
Defined.

Lemma existsb_false_filter {A} (f : A -> bool) (l : list A) :
  existsb f l = false -> filter f l = [].
Proof.
  induction l as [|y l IH]; cbn; [reflexivity|].
  destruct (f y); cbn; [discriminate | exact IH].
Qed.

(** X18. An event that has been created is on offer at once: right after a
    creation answered 201, and as long as the database answers, the lookup of
    the new identifier gives back the very row of the answer, and the listing
    contains it, both unfiltered and filtered by the new candy machine. *)
Theorem created_event_is_served (req : CreateEventRequest) (env env' env'' : nat -> EEnv)
    (st : Site) :
  let r := fst (perform env (create_event req) st) in
  let st' := snd (perform env (create_event req) st) in
  option_map e_status r = Some 201 ->
  db_fault (base (env' 0%nat)) = None ->
  db_fault (base (env'' 0%nat)) = None ->
  exists ev,
    option_map e_body r
    = Some (EventCreated "Event created successfully!" (Some ev)
              (Event.collection_nft_mint_address ev) (Event.candy_machine_id ev))
    /\ perform env' (get_event (Event.event_id ev)) st'
       = (mkEventsResponse 200 (EventRow ev), st')
    /\ forall candyMachineId,
         candyMachineId = None \/ candyMachineId = Some (Event.candy_machine_id ev) ->
         exists rows,
           perform env'' (list_events candyMachineId) st'
           = (mkEventsResponse 200 (EventRows rows), st')
           /\ In ev rows.
Proof.
  intros r st' H201 Hf' Hf''.
  destruct (create_event_cases req env st) as (_ & _ & _ & H4 & _).
  destruct (H4 H201) as (ev & symbol & uri & lamports & startDate & Hdb & Hbody & _ & _
                         & _ & _ & Hact & Hc & _).
  fold st' in Hdb. fold r in Hbody.
  exists ev. split; [exact Hbody|]. split.
  - rewrite get_event_alone. unfold db_select. rewrite Hf', Hdb. cbn [events].
    rewrite filter_app, (existsb_false_filter _ _ Hc). cbn [filter app].
    now rewrite (proj2 (by_event_id_true _ ev) eq_refl).
  - intros cm Hcm. unfold perform, list_events.
    cbn [perform_from and_then ask eexec]. rewrite Hf''. cbn.
    eexists. split; [reflexivity|].
    apply order_by_In. apply filter_In. rewrite Hdb. cbn [events]. split.
    + apply in_or_app. right. now left.
    + unfold listed. rewrite Hact. cbn [andb].
      destruct Hcm as [->| ->]; cbn; [reflexivity|].
      destruct (is_empty (Event.candy_machine_id ev)); [reflexivity|].
      apply String.eqb_refl.
Qed.

Lemma created_event_is_served_witness :
  let r := fst (perform (smooth "event-9") (create_event (new_year (Some 3))) blank) in
  let st' := snd (perform (smooth "event-9") (create_event (new_year (Some 3))) blank) in
  option_map e_status r = Some 201
  /\ db_fault (base (smooth "event-9" 0%nat)) = None
  /\ exists ev,
       perform (smooth "event-9") (get_event (Event.event_id ev)) st'
       = (mkEventsResponse 200 (EventRow ev), st')
       /\ Event.name ev = "New Year's Eve!".
Proof.
  intros r st'. split; [reflexivity|]. split; [reflexivity|].
  destruct (created_event_is_served (new_year (Some 3)) (smooth "event-9")
              (smooth "event-9") (smooth "event-9") blank eq_refl eq_refl eq_refl)
    as (ev & Hb & Hg & _).
  exists ev. split; [exact Hg|].
  injection Hb as Hb _ _. now rewrite <- Hb.
Defined.

(** X19. A created event can be bought at once.  After a creation answered 201 for
    at least one ticket, a purchase initiation for the new identifier by a
    buyer who gives a wallet, served while the database answers, is answered
    200 with the candy machine and the price of the creation, for one
    ticket. *)
Theorem created_event_can_be_bought (req : CreateEventRequest) (env : nat -> EEnv)
    (st : Site) (wallet : string) (method : field) (env' : nat -> Env) :
  let r := fst (perform env (create_event req) st) in
  let st' := snd (perform env (create_event req) st) in
  option_map e_status r = Some 201 ->
  (exists total, c_totalTickets req = Some total /\ 1 <= total) ->
  is_empty wallet = false ->
  no_fault (env' 0%nat) ->
  no_fault (env' 1%nat) ->
  existsb (by_transaction_id (gen_id (env' 1%nat))) (transactions (db st)) = false ->
  exists ev,
    option_map e_body r
    = Some (EventCreated "Event created successfully!" (Some ev)
              (Event.collection_nft_mint_address ev) (Event.candy_machine_id ev))
    /\ Some (Event.price_sol ev) = c_priceSol req
    /\ (is_empty (Event.candy_machine_id ev) = false ->
        fst (run env' (purchase_initiate
                         (mkPurchaseRequest (Event.event_id ev) (Some wallet) method None))
                 (db st'))
        = mkResponse 200
            (PurchaseBody initiated (Event.candy_machine_id ev) (Event.price_sol ev) 1%Q
                          (gen_id (env' 1%nat)))).
Proof.
  intros r st' H201 (total & Htot & Hpos) Hw Hf0 Hf1 Hfresh.
  destruct (create_event_cases req env st) as (_ & _ & _ & H4 & _).
  destruct (H4 H201) as (ev & symbol & uri & lamports & startDate & Hdb & Hbody & _ & Ht
                         & Ha & Hp & _ & Hc & _).
  fold st' in Hdb. fold r in Hbody.
  exists ev. split; [exact Hbody|]. split; [exact Hp|]. intros Hcm.
  set (q := mkPurchaseRequest (Event.event_id ev) (Some wallet) method None).
  assert (Hrows : filter (by_event_id (p_eventId q)) (events (db st')) = [ev]).
  { rewrite Hdb. cbn [events q p_eventId].
    rewrite filter_app, (existsb_false_filter _ _ Hc). cbn [filter app].
    now rewrite (proj2 (by_event_id_true _ ev) eq_refl). }
  assert (Hfalsy : falsy (p_userWalletAddress q) = false) by exact Hw.
  destruct (purchase_initiate_cases (db st') q env' ev Hfalsy Hf0 Hrows Hcm)
    as (_ & _ & H).
  apply H; try assumption.
  - reflexivity.
  - cbn [q p_quantity default]. rewrite Ha.
    rewrite Htot in Ht. injection Ht as ->.
    change 1%Q with (inject_Z 1). rewrite <- Zle_Qle. exact Hpos.
  - rewrite Hdb. exact Hfresh.
Qed.

Lemma created_event_can_be_bought_witness :
  let r := fst (perform (smooth "event-9") (create_event (new_year (Some 3))) blank) in
  let st' := snd (perform (smooth "event-9") (create_event (new_year (Some 3))) blank) in
  option_map e_status r = Some 201
  /\ (exists total, c_totalTickets (new_year (Some 3)) = Some total /\ 1 <= total)
  /\ is_empty "walletX" = false
  /\ no_fault (calm "transaction-1" 0%nat)
  /\ existsb (by_transaction_id (gen_id (calm "transaction-1" 1%nat)))
             (transactions (db blank)) = false
  /\ exists ev,
       Some (Event.price_sol ev) = Some (1 # 2)%Q
       /\ Event.candy_machine_id ev = "machine-9".
Proof.
  intros r st'.
  assert (Ht : exists total, c_totalTickets (new_year (Some 3)) = Some total /\ 1 <= total)
    by (exists 3; split; [reflexivity | lia]).
  split; [reflexivity|]. split; [exact Ht|]. split; [reflexivity|].
  split; [reflexivity|]. split; [reflexivity|].
  destruct (created_event_can_be_bought (new_year (Some 3)) (smooth "event-9") blank
              "walletX" None (calm "transaction-1") eq_refl Ht eq_refl eq_refl eq_refl
              eq_refl) as (ev & Hb & Hp & _).
  exists ev. split; [exact Hp|].
  injection Hb as Hb _ _. now rewrite <- Hb.
Defined.

(** ** The symbol of a collection *)

Lemma substring_length (n m : nat) (s : string) :
  (String.length (substring n m s) <= m)%nat.
Proof.
  revert n m. induction s as [|c s IH]; intros n m.
  - destruct n, m; cbn; lia.
  - destruct n as [|n].
    + destruct m as [|m]; cbn; [lia|]. specialize (IH 0%nat m). lia.
    + cbn. apply IH.
Qed.

Lemma substring_chars (P : ascii -> Prop) (n m : nat) (s : string) :
  Forall P (list_ascii_of_string s) -> Forall P (list_ascii_of_string (substring n m s)).
Proof.
  revert n m. induction s as [|c s IH]; intros n m H.
  - destruct n, m; cbn; constructor.
  - inversion H; subst. destruct n as [|n].
    + destruct m as [|m]; cbn; constructor; auto.
    + cbn. now apply IH.
Qed.

Lemma append_chars (a b : string) :
  list_ascii_of_string (a ++ b)%string = list_ascii_of_string a ++ list_ascii_of_string b.
Proof. induction a as [|c a IH]; cbn; [reflexivity | now rewrite IH]. Qed.

Lemma append_length (a b : string) :
  String.length (a ++ b)%string = (String.length a + String.length b)%nat.
Proof. induction a as [|c a IH]; cbn; [reflexivity | now rewrite IH]. Qed.

Lemma upper_alnum (c : ascii) :
  is_alnum c = true -> is_alnum (upper c) = true /\ upper (upper c) = upper c.
Proof.
  destruct c as [[] [] [] [] [] [] [] []]; vm_compute; intros H;
    (discriminate || (split; reflexivity)).
Qed.

Lemma toUpperCase_chars (s : string) :
  Forall (fun c => is_alnum c = true) (list_ascii_of_string s) ->
  Forall (fun c => is_alnum c = true /\ upper c = c)
         (list_ascii_of_string (toUpperCase s)).
Proof.
  unfold toUpperCase. rewrite list_ascii_of_string_of_list_ascii.
  induction (list_ascii_of_string s) as [|c l IH]; cbn; intros H; constructor.
  - inversion H; subst. now apply upper_alnum.
  - inversion H; subst. now apply IH.
Qed.

Lemma toUpperCase_length (s : string) :
  String.length (toUpperCase s) = String.length s.
Proof.
  unfold toUpperCase. induction s as [|c s IH]; cbn; [reflexivity | now rewrite IH].
Qed.

Lemma strip_non_alnum_chars (s : string) :
  Forall (fun c => is_alnum c = true) (list_ascii_of_string (strip_non_alnum s)).
Proof.
  unfold strip_non_alnum. rewrite list_ascii_of_string_of_list_ascii.
  apply Forall_forall. intros c Hc. apply filter_In in Hc. tauto.
Qed.

(** X20. The symbol generated for a collection has at most eight characters, and
    generating it writes nothing.  When [Math.random().toString(36)] is a
    fraction in base 36, every character of the symbol is a digit or an
    upper-case letter, whatever the name of the event is made of. *)
Theorem symbol_shape (eventName : string) (env : nat -> EEnv) (st : Site) :
  let symbol := fst (perform env (generateUniqueSymbol eventName) st) in
  (String.length symbol <= 8)%nat
  /\ snd (perform env (generateUniqueSymbol eventName) st) = st
  /\ (forall digits,
        random36 (env 0%nat) = ("0." ++ digits)%string ->
        Forall (fun c => is_alnum c = true) (list_ascii_of_string digits) ->
        Forall (fun c => is_alnum c = true /\ upper c = c) (list_ascii_of_string symbol)).
Proof.
  intros symbol. subst symbol. unfold perform, generateUniqueSymbol.
  cbn [perform_from and_then ask eexec fst snd].
  split; [|split; [reflexivity|]].
  - rewrite append_length, toUpperCase_length.
    pose proof (substring_length 0 4 (toUpperCase (strip_non_alnum eventName))).
    pose proof (substring_length 2 4 (random36 (env 0%nat))). lia.
  - intros digits Hr Hd. rewrite append_chars. apply Forall_app. split.
    + apply substring_chars, toUpperCase_chars, strip_non_alnum_chars.
    + apply toUpperCase_chars. rewrite Hr.
      change (substring 2 4 ("0." ++ digits)%string) with (substring 0 4 digits).
      now apply substring_chars.
Qed.

Lemma symbol_shape_witness :
  random36 (smooth "event-9" 0%nat) = ("0." ++ "k3x9q2m")%string
  /\ Forall (fun c => is_alnum c = true) (list_ascii_of_string "k3x9q2m")
  /\ fst (perform (smooth "event-9") (generateUniqueSymbol "New Year's Eve!") blank)
     = "NEWYK3X9"
  /\ Forall (fun c => is_alnum c = true /\ upper c = c) (list_ascii_of_string "NEWYK3X9").
Proof.
  assert (Hd : Forall (fun c => is_alnum c = true) (list_ascii_of_string "k3x9q2m"))
    by (repeat constructor).
  split; [reflexivity|]. split; [exact Hd|]. split; [reflexivity|].
  exact (proj2 (proj2 (symbol_shape "New Year's Eve!" (smooth "event-9") blank))
               "k3x9q2m" eq_refl Hd).
Defined.

(** ** The mint listener *)

Lemma scan_throws (instructions : list Instruction) (found : field * field * field) :
  scan instructions found = Returned found
  \/ exists message, scan instructions found = Threw message.
Proof.
  destruct instructions as [|i rest]; [now left|].
  right. eexists. reflexivity.
Qed.

(** X21. The listener never tells the backend of a mint.  Whatever notification
    arrives, whatever transaction the RPC node has for it and whatever the
    backend would answer, handling the notification sends no request and
    writes no row: a mint that the page does not confirm is not recorded. *)
Theorem listener_never_notifies (data : option Notice) (env : nat -> EEnv) (st : Site) :
  snd (perform env (on_message data) st) = st.
Proof.
  unfold perform, on_message.
  destruct data as [notice|]; [|reflexivity].
  destruct (n_logs notice) as [logs|]; [|reflexivity].
  destruct (find _ logs) as [mintLog|]; [|reflexivity].
  destruct (is_empty mintLog); [reflexivity|].
  destruct (falsy (n_signature notice)); [reflexivity|].
  cbn [perform_from and_then ask eexec].
  destruct (parsed_transaction (env 0%nat) (value (n_signature notice)))
    as [| |transaction]; try reflexivity.
  destruct (meta transaction) as [[err|]|]; try reflexivity.
  destruct (scan_throws (instructions transaction) (None, None, None))
    as [H|[message H]]; rewrite H; reflexivity.
Qed.

(** ** Requests that overlap *)

Lemma pool_steps_trans cfg1 cfg2 cfg3 :
  pool_steps cfg1 cfg2 -> pool_steps cfg2 cfg3 -> pool_steps cfg1 cfg3.
Proof.
  induction 1 as [cfg|cfg cfg' cfg'' Hstep _ IH]; intros H; [exact H|].
  eapply pool_next; [exact Hstep | now apply IH].
Qed.

(** A schedule of two requests is a run of the server. *)
Lemma serve_two_pool_steps (schedule : list (bool * Env)) (p q : Prog Response)
    (s : Store) :
  pool_steps (s, [p; q])
             (snd (serve_two schedule p q s),
              [fst (fst (serve_two schedule p q s)); snd (fst (serve_two schedule p q s))]).
Proof.
  revert p q s. induction schedule as [|[[|] e] rest IH]; intros p q s; cbn [serve_two].
  - apply pool_stay.
  - destruct p as [r|A c k]; [apply IH|].
    eapply pool_next; [exact (pool_call s [] [q] c k e) | apply IH].
  - destruct q as [r|A c k]; [apply IH|].
    eapply pool_next; [exact (pool_call s [p] [] c k e) | apply IH].
Qed.

Lemma serve_two_app {R} (a b : list (bool * Env)) (p q : Prog R) (s : Store) :
  serve_two (a ++ b) p q s =
  serve_two b (fst (fst (serve_two a p q s))) (snd (fst (serve_two a p q s)))
            (snd (serve_two a p q s)).
Proof.
  revert p q s. induction a as [|[[|] e] a IH]; intros p q s; cbn [app serve_two].
  - reflexivity.
  - destruct p; apply IH.
  - destruct q; apply IH.
Qed.

Lemma serve_first {R} (env : nat -> Env) (n : nat) (p q : Prog R) (s : Store) :
  serve_two (map (pair true) (answers_from env n p s)) p q s =
  (Ret (fst (run_from env n p s)), q, snd (run_from env n p s)).
Proof.
  revert n s. induction p as [r|A c k IH]; intros n s;
    cbn [answers_from map serve_two run_from].
  - reflexivity.
  - rewrite IH. now destruct (exec (env n) c s).
Qed.

Lemma serve_second {R} (env : nat -> Env) (n : nat) (p q : Prog R) (s : Store) :
  serve_two (map (pair false) (answers_from env n q s)) p q s =
  (p, Ret (fst (run_from env n q s)), snd (run_from env n q s)).
Proof.
  revert n s. induction q as [r|A c k IH]; intros n s;
    cbn [answers_from map serve_two run_from].
  - reflexivity.
  - rewrite IH. now destruct (exec (env n) c s).
Qed.

Lemma answers_from_constant {R} (e : Env) (n : nat) (p : Prog R) (s : Store) :
  Forall (fun e' => e' = e) (answers_from (fun _ => e) n p s).
Proof.
  revert n s. induction p as [r|A c k IH]; intros n s; cbn [answers_from].
  - constructor.
  - constructor; [reflexivity | apply IH].
Qed.

Lemma turns_constant (b : bool) (e : Env) (es : list Env) :
  Forall (fun e' => e' = e) es -> Forall (fun turn => snd turn = e) (map (pair b) es).
Proof.
  induction 1; cbn; constructor; auto.
Qed.

(** What is left of a verification once its lookup has found an unused ticket
    whose owner the ledger confirms: whatever has happened to the store in
    between, it marks the ticket used and answers 200. *)
Lemma verify_after_lookup (req : VerifyRequest) (t : Ticket.t) (e : Env) (s : Store) :
  let mint := value (v_nftMintAddress req) in
  let address := js_or (v_ownerWalletAddress req) (Ticket.owner_wallet_address t) in
  falsy (v_nftMintAddress req) = false ->
  filter (by_mint mint) (tickets s) = [t] ->
  Ticket.is_used t = false ->
  is_empty address = false ->
  no_fault e ->
  live_owner_is (fun _ => e) mint address = true ->
  exists k,
    verify req = Call (TicketsSingleByMint mint) k
    /\ exec e (TicketsSingleByMint mint) s = (Data t, s)
    /\ forall s1,
         run_from (fun _ => e) 1 (k (Data t)) s1 =
         (mkResponse 200
            (TicketIdBody "Ticket successfully verified and marked as used."
                          (Ticket.ticket_id t)),
          with_tickets (update_where (by_ticket_id (Ticket.ticket_id t))
                          (Ticket.apply (mark_used (now e))) (tickets s1)) s1).
Proof.
  intros mint address Hreq Hrow Hused Haddr Hf Hlive.
  unfold verify. rewrite Hreq. fold mint. cbn [bind await].
  eexists. split; [reflexivity|]. split.
  - cbn [exec]. unfold db_select. rewrite Hf, Hrow. reflexivity.
  - intros s1. cbn [bind]. rewrite Hused. fold address. rewrite Haddr.
    unfold live_owner_is, verify_live_owner in Hlive.
    unfold verifyTicketOwnershipOnChain.
    cbn [run_from bind await exec fst snd].
    destruct (public_key e mint) as [key|]; [|discriminate].
    cbn [run_from bind await exec fst snd].
    destruct (find_by_mint e key) as [| |[owner|]] eqn:Hfind; try discriminate.
    destruct (public_key e address) as [checked|]; [|discriminate].
    cbn [run_from bind await exec fst snd]. rewrite Hfind.
    rewrite Hlive. cbn [run_from bind await exec fst snd negb json].
    rewrite Hf. reflexivity.
Qed.

(** X22. Two verifications of the same unused ticket that overlap are both
    answered 200: when the second looks the ticket up before the first has
    marked it used, nothing stops it afterwards, and the one ticket admits
    twice. *)
Theorem overlapping_verifications_both_admitted (s : Store) (req : VerifyRequest)
    (t : Ticket.t) (e : Env) :
  let mint := value (v_nftMintAddress req) in
  let address := js_or (v_ownerWalletAddress req) (Ticket.owner_wallet_address t) in
  let admitted :=
    mkResponse 200 (TicketIdBody "Ticket successfully verified and marked as used."
                                 (Ticket.ticket_id t)) in
  falsy (v_nftMintAddress req) = false ->
  filter (by_mint mint) (tickets s) = [t] ->
  Ticket.is_used t = false ->
  is_empty address = false ->
  no_fault e ->
  live_owner_is (fun _ => e) mint address = true ->
  exists schedule s',
    Forall (fun turn => snd turn = e) schedule
    /\ serve_two schedule (verify req) (verify req) s = (Ret admitted, Ret admitted, s')
    /\ pool_steps (s, [verify req; verify req]) (s', [Ret admitted; Ret admitted]).
Proof.
  intros mint address admitted Hreq Hrow Hused Haddr Hf Hlive.
  destruct (verify_after_lookup req t e s Hreq Hrow Hused Haddr Hf Hlive)
    as (k & Hk & Hexec & Hrest).
  fold mint in Hk, Hexec. fold admitted in Hrest.
  set (env := fun _ : nat => e).
  set (s1 := snd (run_from env 1 (k (Data t)) s)).
  set (schedule :=
         [(true, e); (false, e)]
         ++ map (pair true) (answers_from env 1 (k (Data t)) s)
         ++ map (pair false) (answers_from env 1 (k (Data t)) s1)).
  assert (Hrun : serve_two schedule (verify req) (verify req) s
                 = (Ret admitted, Ret admitted, snd (run_from env 1 (k (Data t)) s1))).
  { unfold schedule. rewrite Hk. cbn [app serve_two]. rewrite Hexec. cbn [fst snd].
    rewrite Hexec. cbn [fst snd].
    rewrite serve_two_app, serve_first. cbn [fst snd]. fold s1.
    rewrite serve_second. unfold env. now rewrite !Hrest. }
  exists schedule, (snd (run_from env 1 (k (Data t)) s1)).
  split; [|split; [exact Hrun|]].
  - unfold schedule. repeat constructor.
    apply Forall_app. split; apply turns_constant; unfold env;
      apply answers_from_constant.
  - pose proof (serve_two_pool_steps schedule (verify req) (verify req) s) as H.
    now rewrite Hrun in H.
Qed.

Lemma overlapping_verifications_both_admitted_witness :
  let w := world "ticket-9" (held_by "walletX") in
  let req := verify_of "assetA" None in
  let admitted :=
    mkResponse 200 (TicketIdBody "Ticket successfully verified and marked as used."
                                 "ticket-1") in
  filter (by_mint "assetA") (tickets (gate ticketA)) = [ticketA]
  /\ Ticket.is_used ticketA = false
  /\ no_fault w
  /\ live_owner_is (fun _ => w) "assetA" "walletX" = true
  /\ exists schedule s',
       serve_two schedule (verify req) (verify req) (gate ticketA)
       = (Ret admitted, Ret admitted, s').
Proof.
  intros w req admitted.
  split; [reflexivity|]. split; [reflexivity|]. split; [reflexivity|].
  split; [reflexivity|].
  destruct (overlapping_verifications_both_admitted (gate ticketA) req ticketA w
              eq_refl eq_refl eq_refl eq_refl eq_refl eq_refl)
    as (schedule & s' & _ & H & _).
  exists schedule, s'. exact H.
Defined.

(** What is left of a mint confirmation once it has found no ticket for the
    asset, got its QR code and read the event row: whatever has happened to
    the store in between, it inserts its ticket with the seat label computed
    from the row it read and sets the counter from that row. *)
Lemma mint_after_lookup (req : MintSuccessRequest) (ev : Event.t) (e : Env) (qr : string)
    (s : Store) :
  let mint := value (m_nftMintAddress req) in
  let eventId := value (m_eventId req) in
  let t := minted_ticket (fun _ => e) req ev qr in
  valid_mint req = true ->
  filter (by_mint mint) (tickets s) = [] ->
  no_fault e ->
  qr_code e mint = Some qr ->
  filter (by_event_id eventId) (events s) = [ev] ->
  exists rest,
    (forall q, serve_two [(true, e); (true, e); (true, e)] (mint_success req) q s
               = (rest, q, s))
    /\ (forall p, serve_two [(false, e); (false, e); (false, e)] p (mint_success req) s
                  = (p, rest, s))
    /\ forall s1,
         ticket_conflict t (tickets s1) = false ->
         run_from (fun _ => e) 3 rest s1 =
         (mkResponse 200 (TicketBody recorded (Some t)),
          mkStore (tickets s1 ++ [t])
            (update_where (by_event_id eventId)
               (Event.set_available (Event.available_tickets ev - 1)) (events s1))
            (transactions_after_mint (fun _ => e) req t s1)).
Proof.
  intros mint eventId t Hv Hnone Hf Hqr Hev.
  unfold valid_mint in Hv. apply negb_true_iff in Hv.
  unfold mint_success, generateQrCodeDataUrl. rewrite Hv. fold mint eventId.
  cbn [bind await serve_two exec fst snd]. unfold db_select.
  rewrite Hf, Hnone. cbn [single bind await serve_two exec fst snd].
  rewrite Hqr. cbn [single bind await serve_two exec fst snd]. unfold db_select.
  rewrite Hf, Hev. cbn [single bind await serve_two exec fst snd].
  eexists. split; [intros q; reflexivity|]. split; [intros p; reflexivity|].
  intros s1 Hc. cbn [run_from bind await exec fst snd]. rewrite Hf.
  fold t. unfold t, minted_ticket in Hc. cbn beta in Hc. fold mint eventId in Hc.
  rewrite Hc. cbn [run_from bind await exec fst snd]. rewrite Hf.
  unfold transactions_after_mint.
  destruct (falsy (m_transactionId req)); [reflexivity|].
  cbn [hd_error run_from bind await exec fst snd]. rewrite Hf. reflexivity.
Qed.

Lemma ticket_conflict_no_row (t : Ticket.t) (ts : list Ticket.t) :
  ticket_conflict t ts = false -> filter (by_mint (Ticket.nft_mint_address t)) ts = [].
Proof.
  unfold ticket_conflict. intros H. apply filter_none. intros x Hx.
  destruct (by_mint (Ticket.nft_mint_address t) x) eqn:E; [|reflexivity].
  assert (Hex : existsb (fun x => by_ticket_id (Ticket.ticket_id t) x
                                  || by_mint (Ticket.nft_mint_address t) x) ts = true).
  { apply existsb_exists. exists x. split; [exact Hx|]. rewrite E. apply orb_true_r. }
  congruence.
Qed.

(** X23. Two mint confirmations for the same event that overlap, each reading the
    event row before the other has written, are both answered 200 and both
    tickets are recorded, with one and the same seat label, while the counter
    of the event goes down by one only. *)
Theorem overlapping_mints_share_a_seat (s : Store) (req1 req2 : MintSuccessRequest)
    (ev : Event.t) (e1 e2 : Env) (qr1 qr2 : string) :
  let eventId := value (m_eventId req1) in
  let t1 := minted_ticket (fun _ => e1) req1 ev qr1 in
  let t2 := minted_ticket (fun _ => e2) req2 ev qr2 in
  valid_mint req1 = true ->
  valid_mint req2 = true ->
  value (m_eventId req2) = eventId ->
  filter (by_event_id eventId) (events s) = [ev] ->
  no_fault e1 ->
  no_fault e2 ->
  qr_code e1 (value (m_nftMintAddress req1)) = Some qr1 ->
  qr_code e2 (value (m_nftMintAddress req2)) = Some qr2 ->
  ticket_conflict t1 (tickets s) = false ->
  ticket_conflict t2 (tickets s ++ [t1]) = false ->
  exists schedule s',
    Forall (fun turn : bool * Env => snd turn = if fst turn then e1 else e2) schedule
    /\ serve_two schedule (mint_success req1) (mint_success req2) s
       = (Ret (mkResponse 200 (TicketBody recorded (Some t1))),
          Ret (mkResponse 200 (TicketBody recorded (Some t2))), s')
    /\ tickets s' = tickets s ++ [t1; t2]
    /\ Ticket.seat_info t1 = Ticket.seat_info t2
    /\ filter (by_event_id eventId) (events s')
       = [Event.set_available (Event.available_tickets ev - 1) ev].
Proof.
  intros eventId t1 t2 Hv1 Hv2 Hsame Hev Hf1 Hf2 Hq1 Hq2 Hc1 Hc2.
  assert (Hn1 : filter (by_mint (value (m_nftMintAddress req1))) (tickets s) = [])
    by exact (ticket_conflict_no_row t1 _ Hc1).
  assert (Hn2 : filter (by_mint (value (m_nftMintAddress req2))) (tickets s) = []).
  { pose proof (ticket_conflict_no_row t2 _ Hc2) as H.
    rewrite filter_app in H. now apply app_eq_nil in H. }
  assert (Hev2 : filter (by_event_id (value (m_eventId req2))) (events s) = [ev])
    by now rewrite Hsame.
  destruct (mint_after_lookup req1 ev e1 qr1 s Hv1 Hn1 Hf1 Hq1 Hev)
    as (rest1 & A1 & _ & R1).
  destruct (mint_after_lookup req2 ev e2 qr2 s Hv2 Hn2 Hf2 Hq2 Hev2)
    as (rest2 & _ & B2 & R2).
  fold t1 eventId in R1. fold t2 in R2. rewrite Hsame in R2.
  set (env1 := fun _ : nat => e1) in *. set (env2 := fun _ : nat => e2) in *.
  set (s1 := snd (run_from env1 3 rest1 s)).
  set (schedule :=
         [(true, e1); (true, e1); (true, e1)]
         ++ [(false, e2); (false, e2); (false, e2)]
         ++ map (pair true) (answers_from env1 3 rest1 s)
         ++ map (pair false) (answers_from env2 3 rest2 s1)).
  assert (Hs1 : tickets s1 = tickets s ++ [t1]) by (unfold s1; now rewrite (R1 s Hc1)).
  assert (Hc2' : ticket_conflict t2 (tickets s1) = false) by now rewrite Hs1.
  assert (Hrun : serve_two schedule (mint_success req1) (mint_success req2) s
                 = (Ret (mkResponse 200 (TicketBody recorded (Some t1))),
                    Ret (mkResponse 200 (TicketBody recorded (Some t2))),
                    snd (run_from env2 3 rest2 s1))).
  { unfold schedule. rewrite serve_two_app, A1. cbn [fst snd].
    rewrite serve_two_app, B2. cbn [fst snd].
    rewrite serve_two_app, serve_first. cbn [fst snd]. fold s1.
    rewrite serve_second. now rewrite (R1 s Hc1), (R2 s1 Hc2'). }
  exists schedule, (snd (run_from env2 3 rest2 s1)).
  split; [|split; [exact Hrun|]].
  - unfold schedule. repeat (constructor; [reflexivity|]).
    apply Forall_app. split.
    + apply Forall_forall. intros turn Hin. apply in_map_iff in Hin.
      destruct Hin as (e & <- & Hin). cbn.
      exact (proj1 (Forall_forall _ _) (answers_from_constant e1 3 rest1 s) e Hin).
    + apply Forall_forall. intros turn Hin. apply in_map_iff in Hin.
      destruct Hin as (e & <- & Hin). cbn.
      exact (proj1 (Forall_forall _ _) (answers_from_constant e2 3 rest2 s1) e Hin).
  - rewrite (R2 s1 Hc2'). cbn [snd tickets events]. rewrite Hs1, <- app_assoc.
    split; [reflexivity|]. split; [reflexivity|].
    unfold s1. rewrite (R1 s Hc1). cbn [snd events].
    rewrite !filter_update_where_event, Hev. cbn [map].
    assert (Hid : by_event_id eventId ev = true).
    { assert (Hin : In ev (filter (by_event_id eventId) (events s)))
        by (rewrite Hev; now left).
      now apply filter_In in Hin. }
    rewrite Hid.
    assert (Hid' : by_event_id eventId
                     (Event.set_available (Event.available_tickets ev - 1) ev) = true)
      by exact Hid.
    rewrite Hid'. reflexivity.
Qed.

Lemma overlapping_mints_share_a_seat_witness :
  let e1 := world "ticket-1" (held_by "walletX") in
  let e2 := world "ticket-2" (held_by "walletX") in
  let req1 := mint_of "assetB" "walletX" in
  let req2 := mint_of "assetC" "walletY" in
  let qr1 := "data:image/png;base64,assetB" in
  let qr2 := "data:image/png;base64,assetC" in
  let t1 := minted_ticket (fun _ => e1) req1 (concert 3 3) qr1 in
  let t2 := minted_ticket (fun _ => e2) req2 (concert 3 3) qr2 in
  valid_mint req1 = true
  /\ valid_mint req2 = true
  /\ filter (by_event_id "event-1") (events (box_office 3)) = [concert 3 3]
  /\ ticket_conflict t1 (tickets (box_office 3)) = false
  /\ ticket_conflict t2 (tickets (box_office 3) ++ [t1]) = false
  /\ exists schedule s',
       serve_two schedule (mint_success req1) (mint_success req2) (box_office 3)
       = (Ret (mkResponse 200 (TicketBody recorded (Some t1))),
          Ret (mkResponse 200 (TicketBody recorded (Some t2))), s')
       /\ map Ticket.seat_info (tickets s') = ["Ticket #1"; "Ticket #1"]
       /\ filter (by_event_id "event-1") (events s') = [concert 3 2].
Proof.
  intros e1 e2 req1 req2 qr1 qr2 t1 t2.
  split; [reflexivity|]. split; [reflexivity|]. split; [reflexivity|].
  split; [reflexivity|]. split; [reflexivity|].
  destruct (overlapping_mints_share_a_seat (box_office 3) req1 req2 (concert 3 3) e1 e2
              qr1 qr2 eq_refl eq_refl eq_refl eq_refl eq_refl eq_refl eq_refl eq_refl
              eq_refl eq_refl) as (schedule & s' & _ & Hrun & Ht & _ & He).
  exists schedule, s'. split; [exact Hrun|]. split; [now rewrite Ht | exact He].
Defined.

(** ** From a resale to the gate *)

(** X24. A ticket that has changed hands on the ledger is refused at the gate with
    403 as long as the backend has not been told of the transfer, the gate
    page sending the asset only; once the transfer has been notified, the
    same scan is let in and the ticket is marked used. *)
Theorem resold_ticket_waits_for_notification (s : Store) (t : Ticket.t)
    (mint newOwner signature : string) (tenv venv venv' : nat -> Env) :
  let scan := mkVerifyRequest (Some mint) None in
  let notice := mkTransferUpdateRequest (Some mint) (Some newOwner) (Some signature) in
  let s1 := snd (run tenv (transfer_update notice) s) in
  unique_mints s ->
  ticket_for mint s = Some t ->
  Ticket.is_used t = false ->
  is_empty mint = false ->
  is_empty newOwner = false ->
  is_empty signature = false ->
  is_empty (Ticket.owner_wallet_address t) = false ->
  Ticket.owner_wallet_address t <> newOwner ->
  no_fault (venv 0%nat) ->
  live_owner_is venv mint (Ticket.owner_wallet_address t) = false ->
  no_fault (tenv 0%nat) ->
  no_fault (tenv 2%nat) ->
  no_fault (venv' 0%nat) ->
  no_fault (venv' 5%nat) ->
  live_owner_is venv' mint newOwner = true ->
  (status (fst (run venv (verify scan) s)) = 403 /\ snd (run venv (verify scan) s) = s)
  /\ status (fst (run venv' (verify scan) s1)) = 200
  /\ used_asset mint (snd (run venv' (verify scan) s1)).
Proof.
  intros scan notice s1 Hu Ht Hused Hm Hn Hsig Ho Hne Hv0 Hstale Ht0 Ht2 Hv0' Hv5' Hlive.
  assert (Hscan : falsy (v_nftMintAddress scan) = false) by exact Hm.
  split.
  - rewrite (verify_alone s scan venv Hscan Hu Hv0). cbn [scan v_nftMintAddress value].
    rewrite Ht. cbn zeta. rewrite Hused. unfold js_or, scan.
    cbn [v_ownerWalletAddress falsy]. rewrite Ho, Hstale.
    now split.
  - assert (Hvalid : valid_transfer notice = true).
    { unfold valid_transfer, notice. cbn. now rewrite Hm, Hn, Hsig. }
    assert (Hs1 : s1 = with_tickets
                         (update_where (by_ticket_id (Ticket.ticket_id t))
                            (Ticket.apply (record_owner newOwner (now (tenv 1%nat))))
                            (tickets s)) s).
    { unfold s1. rewrite (transfer_update_alone s notice tenv Hvalid Hu Ht0).
      cbn [notice t_nftMintAddress t_newOwnerWalletAddress value]. rewrite Ht.
      destruct (String.eqb_spec (Ticket.owner_wallet_address t) newOwner) as [E|_];
        [contradiction|].
      unfold no_fault in Ht2. now rewrite Ht2. }
    assert (Hu1 : unique_mints s1) by (rewrite Hs1; now apply unique_mints_update).
    assert (Ht1 : ticket_for mint s1
                  = Some (Ticket.apply (record_owner newOwner (now (tenv 1%nat))) t))
      by (rewrite Hs1; now apply ticket_for_after_update).
    rewrite (verify_alone s1 scan venv' Hscan Hu1 Hv0').
    cbn [scan v_nftMintAddress value]. rewrite Ht1. cbn zeta. unfold js_or, scan.
    cbn [Ticket.apply Ticket.is_used Ticket.set record_owner Ticket.p_is_used
         Ticket.owner_wallet_address Ticket.p_owner_wallet_address
         v_ownerWalletAddress js_or falsy].
    rewrite Hused, Hn, Hlive. unfold no_fault in Hv5'. rewrite Hv5'.
    cbn [fst snd status]. split; [reflexivity|].
    set (t1 := Ticket.apply (record_owner newOwner (now (tenv 1%nat))) t) in *.
    pose proof (ticket_for_after_update mint s1 t1 (mark_used (now (venv' 4%nat))) Ht1)
      as Hfinal.
    change (Ticket.ticket_id (Ticket.mk _ _ _ _ _ _ _ _ _ _ _ _ _))
      with (Ticket.ticket_id t1).
    apply ticket_for_mint in Hfinal as [Hin Hmint].
    exists (Ticket.apply (mark_used (now (venv' 4%nat))) t1).
    split; [exact Hin|]. split; [exact Hmint | reflexivity].
Qed.

Lemma resold_ticket_waits_for_notification_witness :
  let resold := fun _ : nat => world "ticket-9" (held_by "walletZ") in
  let scan := verify_of "assetA" None in
  let s1 := snd (run resold (transfer_update (transfer_of "assetA" "walletZ"))
                     (gate ticketA)) in
  unique_mints (gate ticketA)
  /\ ticket_for "assetA" (gate ticketA) = Some ticketA
  /\ Ticket.owner_wallet_address ticketA <> "walletZ"
  /\ live_owner_is resold "assetA" (Ticket.owner_wallet_address ticketA) = false
  /\ live_owner_is resold "assetA" "walletZ" = true
  /\ status (fst (run resold (verify scan) (gate ticketA))) = 403
  /\ status (fst (run resold (verify scan) s1)) = 200.
Proof.
  intros resold scan s1.
  assert (Hne : Ticket.owner_wallet_address ticketA <> "walletZ") by discriminate.
  split; [apply unique_mints_gate|]. split; [reflexivity|]. split; [exact Hne|].
  split; [reflexivity|]. split; [reflexivity|].
  destruct (resold_ticket_waits_for_notification (gate ticketA) ticketA "assetA"
              "walletZ" "sig-2" resold resold resold (unique_mints_gate ticketA)
              eq_refl eq_refl eq_refl eq_refl eq_refl eq_refl Hne eq_refl eq_refl
              eq_refl eq_refl eq_refl eq_refl eq_refl) as ((H403 & _) & H200 & _).
  split; [exact H403 | exact H200].
Defined.
